(** * notifwd: the polling change detector of [notifwd.py]

    A shallow embedding of the parts of [notifwd.py] that decide which
    notification records are forwarded: the store query
    [Notification.get_notification_data], the baseline capture at the end of
    [Notification.setup], the poll [Notification.check], the dispatch
    [Notification.send] with [Notification.__str__], the decoder
    [Notification.parse_notification], and the configuration checks
    [Notification.validate_args], [PushOver.validate_args] and
    [Prowl.validate_args] over the [PROVIDERS] table.

    Python's class attributes become one explicit state record that is
    threaded through a small state-and-exception monad; an exception is a
    value of [Py.exn]; the [while] loop of [check] runs on fuel (one unit per
    iteration) so that a loop that never stops is visible as [OutOfFuel] for
    every amount of fuel. *)

From Stdlib Require Import ZArith List String Ascii Bool Lia Arith.
From Stdlib Require Import Sorting.Sorted Sorting.Permutation.
Import ListNotations.

Set Implicit Arguments.

(* ================================================================== *)
(** ** Python values, exceptions and the monad of the embedding *)

Module Py.

(** The exceptions the modelled code can raise. *)
Inductive exn : Type :=
| AttributeError (attr : string)
| TypeError (msg : string)
| ValueError (msg : string)
| OverflowError (msg : string)
| ConnectionError (msg : string)
| Exception (msg : string)
| KeyError (key : string)
| SystemExit
| ParseError.

(** How a call ends: it returns, an exception propagates, or the loop
    budget ran out before the call ended. *)
Inductive outcome (A : Type) : Type :=
| Returned (a : A)
| Raised (e : exn)
| OutOfFuel.
Arguments Raised {A} e.
Arguments OutOfFuel {A}.

(** A value read from the command line or the environment. *)
Inductive value : Type :=
| None_
| Str (s : string)
| Int (z : Z).

(** A float, as far as the code looks into one: [int] raises on an
    infinity and on not-a-number.  A finite float carries a number with which
    the embedding never computes. *)
Inductive float : Type :=
| Finite (x : Z)
| Infinity
| NaN.

(** State passing with exceptions. *)
Definition M (S A : Type) : Type := S -> S * outcome A.

Definition ret {S A} (a : A) : M S A := fun s => (s, Returned a).

Definition bind {S A B} (m : M S A) (k : A -> M S B) : M S B :=
  fun s =>
    match m s with
    | (s', Returned a) => k a s'
    | (s', Raised e) => (s', Raised e)
    | (s', OutOfFuel) => (s', OutOfFuel)
    end.

Definition raise {S A} (e : exn) : M S A := fun s => (s, Raised e).
Definition out_of_fuel {S A} : M S A := fun s => (s, OutOfFuel).
Definition gets {S A} (f : S -> A) : M S A := fun s => (s, Returned (f s)).
Definition modify {S} (f : S -> S) : M S unit := fun s => (f s, Returned tt).

(** [str.lower] and [str.upper] on the ASCII letters; every other
    character is kept.  No character outside ASCII lowers to one of the
    letters of the provider names, so membership of a lowered name in
    [PROVIDERS] is decided exactly. *)
Definition lower_ascii (c : ascii) : ascii :=
  let n := nat_of_ascii c in
  if ((65 <=? n) && (n <=? 90))%nat then ascii_of_nat (n + 32) else c.

Definition upper_ascii (c : ascii) : ascii :=
  let n := nat_of_ascii c in
  if ((97 <=? n) && (n <=? 122))%nat then ascii_of_nat (n - 32) else c.

Fixpoint lower (s : string) : string :=
  match s with
  | EmptyString => EmptyString
  | String c r => String (lower_ascii c) (lower r)
  end.

Fixpoint upper (s : string) : string :=
  match s with
  | EmptyString => EmptyString
  | String c r => String (upper_ascii c) (upper r)
  end.

End Py.

Import Py.

Declare Scope py_scope.
Delimit Scope py_scope with py.
Notation "x <- c ;; k" := (Py.bind c (fun x => k))
  (at level 61, c at next level, right associativity) : py_scope.
Notation "c ;;; k" := (Py.bind c (fun _ => k))
  (at level 61, right associativity) : py_scope.

(* ================================================================== *)
(** ** The notification store *)

Module Store.

(** One row of the [record] table.  [check] reads the columns 0, 3, 4
    and 6 of a fetched row and no other.  The two date columns hold a
    number of seconds or NULL; the code only compares them, and the order
    of the finite values is the order of [Z]. *)
Record Row : Type := mkRow {
  rec_id : Z;                     (* sql_data[0] *)
  data : list Byte.byte;          (* sql_data[3] *)
  request_date : option Z;        (* sql_data[4] *)
  delivered_date : option Z       (* sql_data[6] *)
}.

(** The table at the time of a query.  [rec_id] is its key. *)
Definition t : Type := list Row.

Definition primary_key (store : t) : Prop := NoDup (map rec_id store).

(** [ORDER BY rec_id DESC] *)
Fixpoint insert_desc (r : Row) (l : list Row) : list Row :=
  match l with
  | [] => [r]
  | x :: rest =>
      if (rec_id x <=? rec_id r)%Z then r :: l else x :: insert_desc r rest
  end.

Definition order_by_rec_id_desc (l : list Row) : list Row :=
  fold_right insert_desc [] l.

(** [ORDER BY rec_id] *)
Fixpoint insert_asc (r : Row) (l : list Row) : list Row :=
  match l with
  | [] => [r]
  | x :: rest =>
      if (rec_id r <=? rec_id x)%Z then r :: l else x :: insert_asc r rest
  end.

Definition order_by_rec_id (l : list Row) : list Row :=
  fold_right insert_asc [] l.

(** [LIMIT k] *)
Definition limit (k : nat) (l : list Row) : list Row := firstn k l.

(** [cursor.fetchone()] *)
Definition fetchone (l : list Row) : option Row := hd_error l.

End Store.

Import Store.

(* ================================================================== *)
(** ** Command-line arguments and HTTP messages *)

Module argparse.

(** The namespace returned by [parse_args]. *)
Record Namespace : Type := mkNamespace {
  provider : Py.value;
  api_key : option string;
  user_key : option string;
  frequency : Z;
  version : bool;
  silent : bool;
  test : bool
}.

Definition set_provider (p : Py.value) (args : Namespace) : Namespace :=
  {| provider := p; api_key := api_key args; user_key := user_key args;
     frequency := frequency args; version := version args;
     silent := silent args; test := test args |}.

End argparse.

(* ================================================================== *)
(** ** The values [plistlib] decodes *)

Module plistlib.

(** What [plistlib.loads] can build.  [F] is the type of Python's floats;
    the code never looks inside a date or a UID. *)
#[warnings="-register-all"]
Inductive value (F : Type) : Type :=
| PString (s : string)
| PInteger (z : Z)
| PReal (x : F)
| PBool (b : bool)
| PData (d : list Byte.byte)
| PDate (iso : string)
| PUID (n : Z)
| PDict (items : list (string * value F))
| PArray (items : list (value F)).

Arguments PString {F} s.
Arguments PInteger {F} z.
Arguments PReal {F} x.
Arguments PBool {F} b.
Arguments PData {F} d.
Arguments PDate {F} iso.
Arguments PUID {F} n.
Arguments PDict {F} items.
Arguments PArray {F} items.

End plistlib.

Module requests.

(** The form posted to a provider: the dictionary passed as [data].  A
    value of it is Python's [None] or one of the values an attribute of an
    instance can hold. *)
Record Request : Type := mkRequest {
  url : string;
  form : list (string * option (plistlib.value Py.float))
}.

(** What the code reads of a provider's answer. *)
Record Response : Type := mkResponse {
  status_code : Z;
  reason : string;
  text : string
}.

End requests.

Definition APP_NAME : string := "notifwd".

Definition newline : string := String (ascii_of_nat 10) EmptyString.

(** A value inside an f-string: a string is itself; the text of any other
    value is the interpreter's [str]. *)
Definition format (str : plistlib.value Py.float -> string)
    (v : plistlib.value Py.float) : string :=
  match v with
  | plistlib.PString s => s
  | _ => str v
  end.

(* ================================================================== *)
(** ** The providers *)

Module PushOver.

Record t : Type := mk {
  url_endpoint : string;
  api_key : option string;
  user_key : option string
}.

Definition init (args : argparse.Namespace) : t :=
  {| url_endpoint := "https://api.pushover.net/1/messages.json";
     api_key := argparse.api_key args;
     user_key := argparse.user_key args |}.

Definition send_notification {R : Type}
    (str : plistlib.value Py.float -> string)
    (post : requests.Request -> R)
    (self : t) (app : string) (title : plistlib.value Py.float)
    (text : string) : R :=
  post {| requests.url := url_endpoint self;
          requests.form :=
            [ ("token"%string, option_map plistlib.PString (api_key self));
              ("user"%string, option_map plistlib.PString (user_key self));
              ("message"%string,
               Some (plistlib.PString
                       (app ++ ": " ++ format str title ++ " " ++ newline
                        ++ " " ++ text)%string)) ] |}.

Definition validate_args (args : argparse.Namespace) : Py.outcome unit :=
  match argparse.api_key args with
  | None =>
      Raised (Exception ("no API key specified. Is $" ++ Py.upper APP_NAME
                         ++ "_API_KEY defined?"))
  | Some _ =>
      match argparse.user_key args with
      | None =>
          Raised (Exception ("no USER key specified. Is $" ++ Py.upper APP_NAME
                             ++ "_USER_KEY defined?"))
      | Some _ => Returned tt
      end
  end.

End PushOver.

Module Prowl.

Record t : Type := mk {
  url_endpoint : string;
  api_key : option string
}.

Definition init (args : argparse.Namespace) : t :=
  {| url_endpoint := "https://api.prowlapp.com/publicapi/add";
     api_key := argparse.api_key args |}.

Definition send_notification {R : Type} (post : requests.Request -> R)
    (self : t) (app : string) (title : plistlib.value Py.float)
    (text : string) : R :=
  post {| requests.url := url_endpoint self;
          requests.form :=
            [ ("apikey"%string, option_map plistlib.PString (api_key self));
              ("application"%string, Some (plistlib.PString app));
              ("event"%string, Some title);
              ("description"%string, Some (plistlib.PString text)) ] |}.

Definition validate_args (args : argparse.Namespace) : Py.outcome unit :=
  match argparse.api_key args with
  | None =>
      Raised (Exception ("no API key specified. Is $" ++ Py.upper APP_NAME
                         ++ "_API_KEY defined?"))
  | Some _ => Returned tt
  end.

End Prowl.

(** The provider classes and their instances. *)
Inductive provider_class : Type :=
| ProwlClass
| PushOverClass.

Inductive provider_instance : Type :=
| ProwlInstance (p : Prowl.t)
| PushOverInstance (p : PushOver.t).

Definition class_validate_args (c : provider_class)
    (args : argparse.Namespace) : Py.outcome unit :=
  match c with
  | ProwlClass => Prowl.validate_args args
  | PushOverClass => PushOver.validate_args args
  end.

Definition class_call (c : provider_class) (args : argparse.Namespace)
    : provider_instance :=
  match c with
  | ProwlClass => ProwlInstance (Prowl.init args)
  | PushOverClass => PushOverInstance (PushOver.init args)
  end.

Definition instance_send_notification {R : Type}
    (str : plistlib.value Py.float -> string)
    (post : requests.Request -> R)
    (p : provider_instance) (app : string) (title : plistlib.value Py.float)
    (text : string) : R :=
  match p with
  | ProwlInstance self => Prowl.send_notification post self app title text
  | PushOverInstance self =>
      PushOver.send_notification str post self app title text
  end.

(** The table [PROVIDERS]. *)
Definition PROVIDERS : list (string * provider_class) :=
  [ ("prowl"%string, ProwlClass);
    ("pushover"%string, PushOverClass);
    ("default"%string, ProwlClass) ].

(** [PROVIDERS.get(name)] *)
Fixpoint dict_get {V : Type} (d : list (string * V)) (name : string) : option V :=
  match d with
  | [] => None
  | (k, v) :: rest => if String.eqb k name then Some v else dict_get rest name
  end.


(* ================================================================== *)
(** ** Decoding a payload: [Notification.parse_notification] *)

Module Payload.

Import plistlib.

(** The character U+2014, in UTF-8. *)
Definition em_dash : string :=
  String (ascii_of_nat 226)
    (String (ascii_of_nat 128) (String (ascii_of_nat 148) EmptyString)).

Section Parse.

Variable F : Type.

(** What [parse_notification] asks of the interpreter and of the system:
    [plistlib.loads]; [lookup_display_name], which runs [mdfind]; [float] on
    the values other than reals and containers; whether a float is not zero;
    the clock [coredata_now]; and the subtraction of floats. *)
Record Host : Type := mkHost {
  loads : list Byte.byte -> Py.exn + value F;
  lookup_display_name : value F -> Py.exn + string;
  float_of : value F -> Py.exn + F;
  nonzero : F -> bool;
  coredata_now : F;
  minus : F -> F -> F
}.

(** The attributes of an instance while it is being filled.  [title],
    [subtitle], [body] and [identifier] hold whatever the payload holds;
    [ago] and [date] are [None] while they hold the initial integer 0. *)
Record t : Type := mk {
  identifier : value F;
  app : string;
  title : value F;
  subtitle : value F;
  body : value F;
  text : string;
  ago : option F;
  date : option F;
  xml : string
}.

(** [__init__] *)
Definition init : t :=
  {| identifier := PString ""; app := ""; title := PString "";
     subtitle := PString ""; body := PString ""; text := "";
     ago := None; date := None; xml := "" |}.

Definition set_identifier (v : value F) (this : t) : t :=
  {| identifier := v; app := app this; title := title this;
     subtitle := subtitle this; body := body this; text := text this;
     ago := ago this; date := date this; xml := xml this |}.

Definition set_app (v : string) (this : t) : t :=
  {| identifier := identifier this; app := v; title := title this;
     subtitle := subtitle this; body := body this; text := text this;
     ago := ago this; date := date this; xml := xml this |}.

Definition set_title (v : value F) (this : t) : t :=
  {| identifier := identifier this; app := app this; title := v;
     subtitle := subtitle this; body := body this; text := text this;
     ago := ago this; date := date this; xml := xml this |}.

Definition set_subtitle (v : value F) (this : t) : t :=
  {| identifier := identifier this; app := app this; title := title this;
     subtitle := v; body := body this; text := text this;
     ago := ago this; date := date this; xml := xml this |}.

Definition set_body (v : value F) (this : t) : t :=
  {| identifier := identifier this; app := app this; title := title this;
     subtitle := subtitle this; body := v; text := text this;
     ago := ago this; date := date this; xml := xml this |}.

Definition set_text (v : string) (this : t) : t :=
  {| identifier := identifier this; app := app this; title := title this;
     subtitle := subtitle this; body := body this; text := v;
     ago := ago this; date := date this; xml := xml this |}.

Definition set_date (x : F) (this : t) : t :=
  {| identifier := identifier this; app := app this; title := title this;
     subtitle := subtitle this; body := body this; text := text this;
     ago := ago this; date := Some x; xml := xml this |}.

Definition set_ago (x : F) (this : t) : t :=
  {| identifier := identifier this; app := app this; title := title this;
     subtitle := subtitle this; body := body this; text := text this;
     ago := Some x; date := date this; xml := xml this |}.

Variable host : Host.

(** Python's truth value of a decoded value. *)
Definition truthy (v : value F) : bool :=
  match v with
  | PString s => negb (String.eqb s "")
  | PInteger z => negb (z =? 0)%Z
  | PReal x => nonzero host x
  | PBool b => b
  | PData d => match d with [] => false | _ :: _ => true end
  | PDate _ => true
  | PUID _ => true
  | PDict items => match items with [] => false | _ :: _ => true end
  | PArray items => match items with [] => false | _ :: _ => true end
  end.

(** [value or ""] *)
Definition or_empty (v : value F) : value F :=
  if truthy v then v else PString "".

(** [float(value)]: a real is itself, a container or a date is a
    [TypeError], the rest is the interpreter's. *)
Definition to_float (v : value F) : Py.exn + F :=
  match v with
  | PReal x => inr x
  | PDict _ | PArray _ | PDate _ =>
      inl (TypeError "float() argument must be a string or a real number")
  | _ => float_of host v
  end.

(** The loop over [value.items()] under the key ["req"]. *)
Fixpoint req_items (items : list (string * value F)) (this : t) : t :=
  match items with
  | [] => this
  | (subkey, subvalue) :: rest =>
      let this :=
        if String.eqb subkey "titl"
        then set_title (or_empty subvalue) this else this in
      let this :=
        if String.eqb subkey "subt"
        then set_subtitle (or_empty subvalue) this else this in
      let this :=
        if String.eqb subkey "body"
        then set_body (or_empty subvalue) this else this in
      req_items rest this
  end.

(** The loop over [data.items()]. *)
Fixpoint data_items (items : list (string * value F)) (this : t)
    : Py.exn + t :=
  match items with
  | [] => inr this
  | (key, v) :: rest =>
      if String.eqb key "app" then
        match lookup_display_name host v with
        | inl e => inl e
        | inr name =>
            data_items rest (set_app name (set_identifier (or_empty v) this))
        end
      else if String.eqb key "date" then
        match to_float v with
        | inl e => inl e
        | inr x =>
            data_items rest
              (set_ago (minus host (coredata_now host) x) (set_date x this))
        end
      else if String.eqb key "req" then
        match v with
        | PDict sub => data_items rest (req_items sub this)
        | _ => inl (AttributeError "items")
        end
      else data_items rest this
  end.

(** [this.text = this.subtitle + ("—" if this.subtitle else "") +
    this.body]: a [TypeError] unless both are strings. *)
Definition merge (this : t) : Py.exn + t :=
  match subtitle this, body this with
  | PString s, PString b =>
      inr (set_text (s ++ (if String.eqb s "" then "" else em_dash) ++ b) this)
  | _, _ => inl (TypeError "can only concatenate str to str")
  end.

(** [parse_notification] *)
Definition parse_notification (raw_plist : list Byte.byte) : Py.exn + t :=
  match loads host raw_plist with
  | inl e => inl e
  | inr (PDict items) =>
      match data_items items init with
      | inl e => inl e
      | inr this => merge this
      end
  | inr _ => inl (AttributeError "items")
  end.

(** The same fields read by key instead of by a walk over the items. *)
Definition req_by_key (sub : list (string * value F)) (this : t) : t :=
  let this := match dict_get sub "titl" with
              | Some v => set_title (or_empty v) this
              | None => this
              end in
  let this := match dict_get sub "subt" with
              | Some v => set_subtitle (or_empty v) this
              | None => this
              end in
  match dict_get sub "body" with
  | Some v => set_body (or_empty v) this
  | None => this
  end.

Definition app_by_key (items : list (string * value F)) (this : t)
    : Py.exn + t :=
  match dict_get items "app" with
  | None => inr this
  | Some v =>
      match lookup_display_name host v with
      | inl e => inl e
      | inr name => inr (set_app name (set_identifier (or_empty v) this))
      end
  end.

Definition date_by_key (items : list (string * value F)) (this : t)
    : Py.exn + t :=
  match dict_get items "date" with
  | None => inr this
  | Some v =>
      match to_float v with
      | inl e => inl e
      | inr x =>
          inr (set_ago (minus host (coredata_now host) x) (set_date x this))
      end
  end.

Definition req_part_by_key (items : list (string * value F)) (this : t)
    : Py.exn + t :=
  match dict_get items "req" with
  | None => inr this
  | Some (PDict sub) => inr (req_by_key sub this)
  | Some _ => inl (AttributeError "items")
  end.

Definition data_by_key (items : list (string * value F)) (this : t)
    : Py.exn + t :=
  match app_by_key items this with
  | inl e => inl e
  | inr this =>
      match date_by_key items this with
      | inl e => inl e
      | inr this => req_part_by_key items this
      end
  end.

(** The keys of a dictionary are distinct, here and under ["req"]. *)
Definition distinct_keys (items : list (string * value F)) : Prop :=
  NoDup (map fst items) /\
  forall sub, dict_get items "req" = Some (PDict sub) -> NoDup (map fst sub).

End Parse.

(** A host for the examples: floats are integers, the payload is the one
    dictionary below, and the display name of any application is "Messages". *)
Definition sample_payload : value Z :=
  PDict [ ("date"%string, PReal 700%Z);
          ("req"%string,
           PDict [ ("body"%string, PString "world");
                   ("titl"%string, PString "hello");
                   ("subt"%string, PString "from me") ]);
          ("intl"%string, PBool true);
          ("app"%string, PString "com.apple.Messages") ].

Definition sample_host : Host Z :=
  {| loads := fun _ => inr sample_payload;
     lookup_display_name := fun _ => inr "Messages"%string;
     float_of := fun _ => inl (TypeError "float()");
     nonzero := fun x => negb (x =? 0)%Z;
     coredata_now := 1000%Z;
     minus := Z.sub |}.

(** A host whose payload has no ["req"] entry. *)
Definition bare_host : Host Z :=
  {| loads := fun _ => inr (PDict [("app"%string, PString "com.apple.Messages")]);
     lookup_display_name := fun _ => inr "Messages"%string;
     float_of := fun _ => inl (TypeError "float()");
     nonzero := fun x => negb (x =? 0)%Z;
     coredata_now := 1000%Z;
     minus := Z.sub |}.

(** A host whose payload carries a number as body. *)
Definition numeric_body_host : Host Z :=
  {| loads := fun _ =>
       inr (PDict [("req"%string, PDict [("body"%string, PInteger 5)])]);
     lookup_display_name := fun _ => inr "Messages"%string;
     float_of := fun _ => inl (TypeError "float()");
     nonzero := fun x => negb (x =? 0)%Z;
     coredata_now := 1000%Z;
     minus := Z.sub |}.

End Payload.

(** What the payload holds under a key of ["req"], as the instance keeps
    it: the value itself when it is true, the empty string when it is false
    or when the key is missing. *)
Definition payload_field (F : Type) (host : Payload.Host F)
    (sub : list (string * plistlib.value F)) (key : string)
    : plistlib.value F :=
  match dict_get sub key with
  | Some v => Payload.or_empty host v
  | None => plistlib.PString ""
  end.

(* ================================================================== *)
(** ** The class [Notification] *)

(** What lies outside the program, as a poll meets it.
    [parse_notification] is the static method of that name, which decodes a
    payload with [plistlib], asks [mdfind] for the display name and reads the
    clock: for a payload it returns an instance or raises.  [requests_post]
    is [requests.post]: the provider's answer to a posted form, or the
    exception raised when no answer comes.  Both may differ from one call to
    the next, so they take the number of forms answered so far.  [str] is the
    interpreter's [str()] on the values that are not strings. *)
Module World.

Record t : Type := mk {
  parse_notification : nat -> list Byte.byte -> Py.exn + Payload.t Py.float;
  requests_post : nat -> requests.Request -> Py.exn + requests.Response;
  str : plistlib.value Py.float -> string
}.

End World.

Module Notification.

(** An instance: what [parse_notification] builds and [send] forwards.
    Its title is whatever the payload holds under ["titl"]. *)
Definition t : Type := Payload.t Py.float.

(** An instance made of strings and finite numbers only: what
    [parse_notification] builds from a payload whose title is a string and
    whose date is finite. *)
Record Plain : Type := mk {
  identifier : string;
  app : string;
  title : string;
  subtitle : string;
  body : string;
  text : string;
  ago : Z;
  date : Z
}.

Definition instance (n : Plain) : t :=
  {| Payload.identifier := plistlib.PString (identifier n);
     Payload.app := app n;
     Payload.title := plistlib.PString (title n);
     Payload.subtitle := plistlib.PString (subtitle n);
     Payload.body := plistlib.PString (body n);
     Payload.text := text n;
     Payload.ago := Some (Finite (ago n));
     Payload.date := Some (Finite (date n));
     Payload.xml := EmptyString |}.

(** The worlds in which no dispatch fails: a payload that decodes gives an
    instance made of strings, and the provider answers every form.  An [Env]
    is used as the world [world env]; a statement about every [Env] is a
    statement about these worlds. *)
Record Env : Type := mkEnv {
  parse_notification : nat -> list Byte.byte -> Py.exn + Plain;
  requests_post : nat -> requests.Request -> requests.Response
}.

(** In such a world no title is handed to [str]. *)
Definition world (env : Env) : World.t :=
  {| World.parse_notification := fun k raw_plist =>
       match parse_notification env k raw_plist with
       | inl e => inl e
       | inr n => inr (instance n)
       end;
     World.requests_post := fun k req => inr (requests_post env k req);
     World.str := fun _ => EmptyString |}.

(** The text [__str__] returns for an instance.  It is made of [ago], [app]
    and [title]; the embedding does not build it and keeps the instance. *)
Inductive Text : Type :=
| TextOf (self : t).

(** The lines the program prints. *)
Inductive Line : Type :=
| Banner
| UsingProvider (name : string)
| SendingTest
| Done
| SendingFrom (text : Text)
| UnexpectedStatus (status_code : Z) (reason text : string).

(** The class attributes, and what the process has done so far.  An
    attribute that was never assigned is [None]; [last_date] may also hold
    Python's [None], which is [Some None].  [handed] lists the rows whose
    payload reached [send], first call first; [posted] the forms posted
    and their answers; [stdout] the printed lines. *)
Record State : Type := mkState {
  FREQ : Z;
  SILENT : bool;
  TEST : bool;
  PROVIDER : provider_instance;
  last_id : option Z;
  last_date : option (option Z);
  handed : list Row;
  posted : list (requests.Request * requests.Response);
  stdout : list Line
}.

Definition set_last_id (v : Z) (st : State) : State :=
  {| FREQ := FREQ st; SILENT := SILENT st; TEST := TEST st;
     PROVIDER := PROVIDER st; last_id := Some v; last_date := last_date st;
     handed := handed st; posted := posted st; stdout := stdout st |}.

Definition set_last_date (v : option Z) (st : State) : State :=
  {| FREQ := FREQ st; SILENT := SILENT st; TEST := TEST st;
     PROVIDER := PROVIDER st; last_id := last_id st; last_date := Some v;
     handed := handed st; posted := posted st; stdout := stdout st |}.

Definition add_handed (r : Row) (st : State) : State :=
  {| FREQ := FREQ st; SILENT := SILENT st; TEST := TEST st;
     PROVIDER := PROVIDER st; last_id := last_id st; last_date := last_date st;
     handed := handed st ++ [r]; posted := posted st; stdout := stdout st |}.

Definition add_posted (x : requests.Request * requests.Response) (st : State)
    : State :=
  {| FREQ := FREQ st; SILENT := SILENT st; TEST := TEST st;
     PROVIDER := PROVIDER st; last_id := last_id st; last_date := last_date st;
     handed := handed st; posted := posted st ++ [x]; stdout := stdout st |}.

Definition add_stdout (l : Line) (st : State) : State :=
  {| FREQ := FREQ st; SILENT := SILENT st; TEST := TEST st;
     PROVIDER := PROVIDER st; last_id := last_id st; last_date := last_date st;
     handed := handed st; posted := posted st; stdout := stdout st ++ [l] |}.

Definition print (l : Line) : Py.M State unit := Py.modify (add_stdout l).

(** Reading a class attribute raises when it was never assigned. *)
Definition getattr {A : Type} (name : string) (field : State -> option A)
    : Py.M State A :=
  fun st =>
    match field st with
    | Some v => (st, Returned v)
    | None => (st, Raised (AttributeError name))
    end.

(** [validate_args]: the namespace is the state, because the provider
    name is rewritten in place. *)
Definition validate_args : Py.M argparse.Namespace unit :=
  (p <- Py.gets argparse.provider ;;
   (match p with
    | Str _ => Py.ret tt
    | _ => Py.modify (argparse.set_provider (Str "default"))
    end) ;;;
   p <- Py.gets argparse.provider ;;
   (match p with
    | Str s => Py.modify (argparse.set_provider (Str (Py.lower s)))
    | _ => Py.raise (AttributeError "lower")
    end) ;;;
   p <- Py.gets argparse.provider ;;
   (match p with
    | Str s =>
        match dict_get PROVIDERS s with
        | None => Py.modify (argparse.set_provider (Str "default"))
        | Some _ => Py.ret tt
        end
    | _ => Py.raise (TypeError "unhashable key")
    end) ;;;
   f <- Py.gets argparse.frequency ;;
   (if (f <=? 0)%Z
    then Py.raise (Exception "frequency must be a positive integer.")
    else Py.ret tt) ;;;
   p <- Py.gets argparse.provider ;;
   match p with
   | Str s =>
       match dict_get PROVIDERS s with
       | Some c => fun args => (args, class_validate_args c args)
       | None => Py.raise (KeyError s)
       end
   | _ => Py.raise (TypeError "unhashable key")
   end)%py.

(** [get_notification_data]: the newest [n + 1] rows, oldest of them
    first, and of these the first. *)
Definition get_notification_data (store : Store.t) (n : nat) : option Row :=
  fetchone (limit 1 (order_by_rec_id (limit (n + 1) (order_by_rec_id_desc store)))).

(** [setup], from the parsed arguments on.  The database is [store]. *)
Definition setup (args : argparse.Namespace) (store : Store.t)
    : Py.outcome State :=
  if argparse.version args then Raised SystemExit else
  match validate_args args with
  | (_, Raised e) => Raised e
  | (_, OutOfFuel) => OutOfFuel
  | (args, Returned _) =>
      match argparse.provider args with
      | Str name =>
          match dict_get PROVIDERS name with
          | Some c =>
              let st :=
                {| FREQ := argparse.frequency args;
                   SILENT := argparse.silent args;
                   TEST := argparse.test args;
                   PROVIDER := class_call c args;
                   last_id := None; last_date := None;
                   handed := []; posted := [];
                   stdout := if argparse.silent args then []
                             else [Banner; UsingProvider name] |} in
              let last_data := get_notification_data store 0 in
              let st :=
                match last_data with
                | Some r => set_last_date (delivered_date r) (set_last_id (rec_id r) st)
                | None => st
                end in
              let st := if TEST st then add_stdout SendingTest st else st in
              let st := if SILENT st then st else add_stdout Done st in
              Returned st
          | None => Raised (KeyError name)
          end
      | _ => Raised (TypeError "unhashable key")
      end
  end.

(** [__str__].  The operands of the format are computed in this order:
    [int(self.ago / 60)], which raises on a float that is not finite (the
    initial [ago] is the integer 0), then [self.app], then
    [self.title.strip()], which only a string or a byte string has. *)
Definition __str__ (self : t) : Py.exn + Text :=
  match Payload.ago self with
  | Some Infinity =>
      inl (OverflowError "cannot convert float infinity to integer")
  | Some NaN => inl (ValueError "cannot convert float NaN to integer")
  | _ =>
      match Payload.title self with
      | plistlib.PString _ | plistlib.PData _ => inr (TextOf self)
      | _ => inl (AttributeError "strip")
      end
  end.

(** [send].  Unless [SILENT] is set the instance is printed first, which
    calls [__str__]; then the provider posts the form, and [requests.post]
    answers or raises; an answer is kept with its form. *)
Definition send (w : World.t) (self : t) : Py.M State unit :=
  (quiet <- Py.gets SILENT ;;
   (if negb quiet
    then match __str__ self with
         | inl e => Py.raise e
         | inr text => print (SendingFrom text)
         end
    else Py.ret tt) ;;;
   p <- Py.gets PROVIDER ;;
   k <- Py.gets (fun st => List.length (posted st)) ;;
   match instance_send_notification (World.str w)
           (fun req => (req, World.requests_post w k req))
           p (Payload.app self) (Payload.title self) (Payload.text self) with
   | (_, inl e) => Py.raise e
   | (req, inr response) =>
       Py.modify (add_posted (req, response)) ;;;
       if negb (requests.status_code response =? 200)%Z
       then print (UnexpectedStatus (requests.status_code response)
                     (requests.reason response) (requests.text response))
       else Py.ret tt
   end)%py.

(** [sql_data[6] if sql_data[6] != None else sql_data[4]] *)
Definition effective_date (sql_data : Row) : option Z :=
  match delivered_date sql_data with
  | Some d => Some d
  | None => request_date sql_data
  end.

(** [x >= y] on two dates: ordering [None] is a [TypeError]. *)
Definition ge_dates (x y : option Z) : Py.M State bool :=
  match x, y with
  | Some a, Some b => Py.ret (b <=? a)%Z
  | _, _ => Py.raise (TypeError "'>=' not supported")
  end.

(** The test of the [while] loop, evaluated left to right; the right
    operand of [and] is evaluated only when the left one is true. *)
Definition while_test (sql_data : option Row) : Py.M State bool :=
  match sql_data with
  | None => Py.raise (TypeError "'NoneType' object is not subscriptable")
  | Some r =>
      (lid <- getattr "last_id" last_id ;;
       if negb (rec_id r =? lid)%Z
       then (ld <- getattr "last_date" last_date ;;
             ge_dates (effective_date r) ld)
       else Py.ret false)%py
  end.

(** The [while] loop of [check], at offset [n] with [sql_data] fetched. *)
Fixpoint check_while (w : World.t) (store : Store.t) (fuel : nat) (n : nat)
    (sql_data : option Row) : Py.M State unit :=
  (go <- while_test sql_data ;;
   if go then
     match fuel, sql_data with
     | O, _ => Py.out_of_fuel
     | _, None => Py.raise (TypeError "'NoneType' object is not subscriptable")
     | S fuel', Some r =>
         k <- Py.gets (fun st => List.length (posted st)) ;;
         match World.parse_notification w k (data r) with
         | inl e => Py.raise e
         | inr note =>
             Py.modify (add_handed r) ;;;
             send w note ;;;
             check_while w store fuel' (n + 1)
               (get_notification_data store (n + 1))
         end
     end
   else Py.ret tt)%py.

(** [check].  The table is the same for every query of one poll. *)
Definition check (w : World.t) (fuel : nat) (store : Store.t)
    : Py.M State unit :=
  let n := 0%nat in
  let sql_data := get_notification_data store n in
  match sql_data with
  | Some r =>
      let newest_id := rec_id r in
      let newest_date := effective_date r in
      (check_while w store fuel n sql_data ;;;
       Py.modify (set_last_id newest_id) ;;;
       Py.modify (set_last_date newest_date))%py
  | None => Py.ret tt
  end.

(** The scheduler: one [check] per timer tick, each on the table as it is
    at that tick.  An exception of a poll ends the process. *)
Fixpoint run (w : World.t) (fuel : nat) (ticks : list Store.t)
    : Py.M State unit :=
  match ticks with
  | [] => Py.ret tt
  | store :: later => (check w fuel store ;;; run w fuel later)%py
  end.

(** [main]: [setup] on the table at startup, then the scheduler. *)
Definition main (w : World.t) (fuel : nat) (args : argparse.Namespace)
    (startup : Store.t) (ticks : list Store.t)
    : option State * Py.outcome unit :=
  match setup args startup with
  | Returned st => let (st', o) := run w fuel ticks st in (Some st', o)
  | Raised e => (None, Raised e)
  | OutOfFuel => (None, OutOfFuel)
  end.

End Notification.

Coercion Notification.instance : Notification.Plain >-> Notification.t.
Coercion Notification.world : Notification.Env >-> World.t.


(* ================================================================== *)
(** ** Vocabulary of the statements *)

(** The rank of a row: how many rows of the table are more recent. *)
Definition rank (store : Store.t) (r : Row) : nat :=
  List.length (filter (fun x => (rec_id r <? rec_id x)%Z) store).

(** The two orders on rows: descending ids, with and without ties. *)
Definition not_older (a b : Row) : Prop := (rec_id b <= rec_id a)%Z.
Definition newer (a b : Row) : Prop := (rec_id b < rec_id a)%Z.

(** The cursor pair of a state. *)
Definition cursor (st : Notification.State) : option Z * option (option Z) :=
  (Notification.last_id st, Notification.last_date st).

(** The value of the loop test of [check] for a cursor and a fetched row. *)
Definition test_value (c : option Z * option (option Z))
    (sql_data : option Row) : Py.outcome bool :=
  match sql_data with
  | None => Raised (TypeError "'NoneType' object is not subscriptable")
  | Some r =>
      match fst c with
      | None => Raised (AttributeError "last_id")
      | Some lid =>
          if negb (rec_id r =? lid)%Z then
            match snd c with
            | None => Raised (AttributeError "last_date")
            | Some ld =>
                match Notification.effective_date r, ld with
                | Some a, Some b => Returned (b <=? a)%Z
                | _, _ => Raised (TypeError "'>=' not supported")
                end
            end
          else Returned false
      end
  end.

(** The same outside world, with other answers from the provider. *)
Definition with_post (env : Notification.Env)
    (post : nat -> requests.Request -> requests.Response) : Notification.Env :=
  {| Notification.parse_notification := Notification.parse_notification env;
     Notification.requests_post := post |}.

(** The same world, with the provider answering every form by [post]. *)
Definition answered (w : World.t)
    (post : nat -> requests.Request -> requests.Response) : World.t :=
  {| World.parse_notification := World.parse_notification w;
     World.requests_post := fun k req => inr (post k req);
     World.str := World.str w |}.

(** The form a provider instance posts for a notification. *)
Definition request_for (w : World.t) (p : provider_instance)
    (self : Notification.t) : requests.Request :=
  instance_send_notification (World.str w) (fun req => req) p
    (Payload.app self) (Payload.title self) (Payload.text self).

(** [send] can announce an instance: in silent mode nothing is printed
    about it, and otherwise [__str__] has to return. *)
Definition announced (quiet : bool) (self : Notification.t) : Prop :=
  quiet = true \/ exists text, Notification.__str__ self = inr text.

(** The lines [send] prints for a notification and the provider's answer. *)
Definition send_lines (quiet : bool) (self : Notification.t)
    (response : requests.Response) : list Notification.Line :=
  (if quiet then []
   else [Notification.SendingFrom (Notification.TextOf self)]) ++
  (if (requests.status_code response =? 200)%Z then []
   else [Notification.UnexpectedStatus (requests.status_code response)
           (requests.reason response) (requests.text response)]).

(** A provider name that [validate_args] replaces by ["default"]: it is
    absent, or not a string, or its lower-case form is no key of
    [PROVIDERS]. *)
Definition falls_back (p : Py.value) : Prop :=
  match p with
  | Str s => dict_get PROVIDERS (Py.lower s) = None
  | _ => True
  end.

(** The key of [PROVIDERS] that [validate_args] settles on. *)
Definition settled_name (p : Py.value) : string :=
  match p with
  | Str s =>
      match dict_get PROVIDERS (Py.lower s) with
      | Some _ => Py.lower s
      | None => "default"%string
      end
  | _ => "default"%string
  end.

(** Dates follow ids: of two rows of a table with both effective dates
    set, the one with the smaller id has the strictly older date. *)
Definition date_before (a b : Row) : bool :=
  match Notification.effective_date a, Notification.effective_date b with
  | Some x, Some y => (x <? y)%Z
  | _, _ => true
  end.

Definition dates_follow_ids (store : Store.t) : bool :=
  forallb (fun a =>
    forallb (fun b => implb (rec_id a <? rec_id b)%Z (date_before a b)) store)
    store.

(** A row is still the row it was: same id, same effective date. *)
Definition same_record (r r' : Row) : bool :=
  (rec_id r =? rec_id r')%Z &&
  match Notification.effective_date r, Notification.effective_date r' with
  | Some x, Some y => (x =? y)%Z
  | None, None => true
  | _, _ => false
  end.

(** Between two looks at the table, a row that carries the id of a startup
    row was already there at the earlier look: startup rows are deleted or
    left alone, and a deleted one does not come back. *)
Definition survivors (ids : list Z) (earlier later : Store.t) : bool :=
  forallb (fun r =>
    implb (existsb (Z.eqb (rec_id r)) ids) (existsb (same_record r) earlier))
    later.

Fixpoint history (ids : list Z) (earlier : Store.t) (ticks : list Store.t)
    : bool :=
  match ticks with
  | [] => true
  | store :: later => survivors ids earlier store && history ids store later
  end.

(** What [setup] fixes for the whole run. *)
Definition configuration (st : Notification.State)
    : Z * bool * bool * provider_instance :=
  (Notification.FREQ st, Notification.SILENT st, Notification.TEST st,
   Notification.PROVIDER st).

(** Two states that differ at most in what the provider answered and in
    what was printed. *)
Definition same_progress (a b : Notification.State) : Prop :=
  configuration a = configuration b /\
  cursor a = cursor b /\
  Notification.handed a = Notification.handed b /\
  List.length (Notification.posted a) = List.length (Notification.posted b).

(** What holds between two polls: nothing dispatched so far carries a
    startup id, and no row of the last table seen that carries one would
    pass the loop test. *)
Definition settled (ids : list Z) (st : Notification.State)
    (store : Store.t) : Prop :=
  (forall r, In r (Notification.handed st) -> ~ In (rec_id r) ids) /\
  (forall r, In r store -> In (rec_id r) ids ->
             test_value (cursor st) (Some r) <> Returned true).

(* ================================================================== *)
(** ** Concrete tables, cursors and worlds used in the examples *)

Module Scenario.

Definition row (id stamp : Z) : Row :=
  {| rec_id := id; data := []; request_date := None;
     delivered_date := Some stamp |}.

Definition note : Notification.Plain :=
  {| Notification.identifier := "com.apple.Messages";
     Notification.app := "Messages";
     Notification.title := "hello";
     Notification.subtitle := "";
     Notification.body := "world";
     Notification.text := "world";
     Notification.ago := 0%Z;
     Notification.date := 0%Z |}.

(** Every payload decodes, and the provider answers 200. *)
Definition env : Notification.Env :=
  {| Notification.parse_notification := fun _ _ => inr note;
     Notification.requests_post :=
       fun _ _ => {| requests.status_code := 200%Z;
                     requests.reason := "OK"; requests.text := "" |} |}.

(** The provider refuses every form. *)
Definition refusing (_ : nat) (_ : requests.Request) : requests.Response :=
  {| requests.status_code := 401%Z;
     requests.reason := "Unauthorized"; requests.text := "bad key" |}.

Definition args (provider : Py.value) (api user : option string)
    : argparse.Namespace :=
  {| argparse.provider := provider; argparse.api_key := api;
     argparse.user_key := user; argparse.frequency := 60%Z;
     argparse.version := false; argparse.silent := true;
     argparse.test := false |}.

Definition prowl_args : argparse.Namespace :=
  args (Str "prowl") (Some "k"%string) None.

(** A state with the cursor on [(id, stamp)]. *)
Definition at_cursor (id : option Z) (stamp : option (option Z))
    : Notification.State :=
  {| Notification.FREQ := 60%Z; Notification.SILENT := true;
     Notification.TEST := false;
     Notification.PROVIDER := ProwlInstance (Prowl.init prowl_args);
     Notification.last_id := id; Notification.last_date := stamp;
     Notification.handed := []; Notification.posted := [];
     Notification.stdout := [] |}.

Definition baseline_3 : Notification.State :=
  at_cursor (Some 3%Z) (Some (Some 30%Z)).

Definition store_123 : Store.t := [row 1 10; row 2 20; row 3 30].
Definition store_123456 : Store.t :=
  [row 1 10; row 2 20; row 3 30; row 4 40; row 5 50; row 6 60].
Definition store_12 : Store.t := [row 1 10; row 2 20].
Definition store_4 : Store.t := [row 4 40].
Definition store_124 : Store.t := [row 1 10; row 2 20; row 4 40].

(** The table at three later polls: untouched, then record 3 dismissed
    and record 4 delivered, then record 5 delivered. *)
Definition ticks_after_123 : list Store.t :=
  [ store_123; store_124; [row 1 10; row 2 20; row 4 40; row 5 50] ].

(** Two rows written in the same instant. *)
Definition store_tie : Store.t := [row 1 5; row 2 10; row 3 10].
Definition store_tie_less_3 : Store.t := [row 1 5; row 2 10].

End Scenario.


(* ================================================================== *)
(** ** Vocabulary of the further properties *)




(** The lines printed about the answers that are not 200, in order. *)
Definition failure_lines
    (answers : list (requests.Request * requests.Response))
    : list Notification.Line :=
  flat_map (fun x =>
    if (requests.status_code (snd x) =? 200)%Z then []
    else [Notification.UnexpectedStatus (requests.status_code (snd x))
            (requests.reason (snd x)) (requests.text (snd x))]) answers.

(** A state with more rows dispatched, more forms answered and more lines
    printed, and nothing else changed. *)
Definition extend (h : list Row)
    (p : list (requests.Request * requests.Response))
    (o : list Notification.Line) (st : Notification.State)
    : Notification.State :=
  {| Notification.FREQ := Notification.FREQ st;
     Notification.SILENT := Notification.SILENT st;
     Notification.TEST := Notification.TEST st;
     Notification.PROVIDER := Notification.PROVIDER st;
     Notification.last_id := Notification.last_id st;
     Notification.last_date := Notification.last_date st;
     Notification.handed := Notification.handed st ++ h;
     Notification.posted := Notification.posted st ++ p;
     Notification.stdout := Notification.stdout st ++ o |}.

(** What [send] prints about an instance before it posts, or the exception
    of [__str__]. *)
Definition announcement (quiet : bool) (self : Notification.t)
    : Py.exn + list Notification.Line :=
  if quiet then inr []
  else match Notification.__str__ self with
       | inl e => inl e
       | inr text => inr [Notification.SendingFrom text]
       end.

(** What the dispatches that went through leave behind, as a list of the
    instances sent with the provider's answers: the forms with their
    answers, and the lines printed. *)
Definition exchanges (w : World.t) (p : provider_instance)
    (sent : list (Notification.t * requests.Response))
    : list (requests.Request * requests.Response) :=
  map (fun x => (request_for w p (fst x), snd x)) sent.

(** A row was dispatched as the instance [fst x] and answered by [snd x]. *)
Definition dispatched (w : World.t) (p : provider_instance) (r : Row)
    (x : Notification.t * requests.Response) : Prop :=
  exists j,
    World.parse_notification w j (data r) = inr (fst x) /\
    World.requests_post w j (request_for w p (fst x)) = inr (snd x).

Definition dispatch_lines (quiet : bool)
    (sent : list (Notification.t * requests.Response))
    : list Notification.Line :=
  flat_map (fun x => send_lines quiet (fst x) (snd x)) sent.


(** How the loop of [check] ends on a test that is not true. *)
Definition loop_end (o : Py.outcome bool) : Py.outcome unit :=
  match o with
  | Returned _ => Returned tt
  | Raised e => Raised e
  | OutOfFuel => OutOfFuel
  end.

(** The rows of a table above an id, newest first. *)
Definition rows_after (lid : Z) (store : Store.t) : list Row :=
  filter (fun r => (lid <? rec_id r)%Z) (order_by_rec_id_desc store).

(** Further tables and worlds for the examples. *)
Module Cases.

(** A request that was never delivered: only the request date is set. *)
Definition requested (id stamp : Z) : Row :=
  {| rec_id := id; data := []; request_date := Some stamp;
     delivered_date := None |}.

(** A row without any date. *)
Definition undated (id : Z) : Row :=
  {| rec_id := id; data := []; request_date := None;
     delivered_date := None |}.

Definition store_12r3 : Store.t :=
  [Scenario.row 1 10; Scenario.row 2 20; requested 3 30].

Definition store_12r34 : Store.t :=
  [Scenario.row 1 10; Scenario.row 2 20; requested 3 30; Scenario.row 4 40].

Definition store_1234 : Store.t :=
  [Scenario.row 1 10; Scenario.row 2 20; Scenario.row 3 30; Scenario.row 4 40].

(** The cursor on record 3, with [SILENT] off. *)
Definition announcing_3 : Notification.State :=
  {| Notification.FREQ := 60%Z; Notification.SILENT := false;
     Notification.TEST := false;
     Notification.PROVIDER :=
       ProwlInstance (Prowl.init Scenario.prowl_args);
     Notification.last_id := Some 3%Z;
     Notification.last_date := Some (Some 30%Z);
     Notification.handed := []; Notification.posted := [];
     Notification.stdout := [] |}.

(** A payload whose title is the number 5. *)
Definition numbered_host : Payload.Host Py.float :=
  {| Payload.loads := fun _ =>
       inr (plistlib.PDict
              [("app"%string, plistlib.PString "com.apple.Messages");
               ("req"%string,
                plistlib.PDict [("titl"%string, plistlib.PInteger 5);
                                ("body"%string, plistlib.PString "world")])]);
     Payload.lookup_display_name := fun _ => inr "Messages"%string;
     Payload.float_of := fun _ => inl (TypeError "float()");
     Payload.nonzero := fun _ => true;
     Payload.coredata_now := Finite 1000;
     Payload.minus := fun x _ => x |}.

(** The instance [parse_notification] builds from it. *)
Definition numbered : Notification.t :=
  {| Payload.identifier := plistlib.PString "com.apple.Messages";
     Payload.app := "Messages";
     Payload.title := plistlib.PInteger 5;
     Payload.subtitle := plistlib.PString "";
     Payload.body := plistlib.PString "world";
     Payload.text := "world";
     Payload.ago := None;
     Payload.date := None;
     Payload.xml := "" |}.

(** A world in which every payload is that one and the provider answers
    200. *)
Definition numbered_world : World.t :=
  {| World.parse_notification := fun _ raw_plist =>
       Payload.parse_notification numbered_host raw_plist;
     World.requests_post := fun _ _ =>
       inr {| requests.status_code := 200%Z;
              requests.reason := "OK"; requests.text := "" |};
     World.str := fun _ => "5"%string |}.

(** A world in which the provider cannot be reached. *)
Definition unreachable : World.t :=
  {| World.parse_notification := fun _ _ =>
       inr (Notification.instance Scenario.note);
     World.requests_post := fun _ _ =>
       inl (ConnectionError "connection refused");
     World.str := fun _ => EmptyString |}.

(** Three polls on a table that only grows. *)
Definition growing_ticks : list Store.t :=
  [ Scenario.store_123; store_1234; Scenario.store_123456 ].

End Cases.

(* ================================================================== *)
(** ** Proof steps used more than once *)

(** [rec_id] is a key of a table written out in full. *)
Ltac key_by_computation :=
  unfold primary_key; simpl;
  repeat (constructor; [simpl; intuition discriminate|]); constructor.






(* ================================================================== *)
(** * Facts about the store query *)

Section StoreFacts.

Open Scope Z_scope.

Lemma in_firstn (k : nat) (l : list Row) (x : Row) :
  In x (firstn k l) -> In x l.
Proof.
  revert k. induction l as [|a l IH]; intros [|k]; simpl; try tauto.
  intros [E|H]; [now left | right; eauto].
Qed.

Lemma skipn_nth_cons (l : list Row) (n : nat) (r : Row) :
  nth_error l n = Some r -> skipn n l = r :: skipn (S n) l.
Proof.
  revert l. induction n as [|n IH]; intros [|a l] H; try discriminate.
  - injection H as ->. reflexivity.
  - simpl in H. apply IH in H. exact H.
Qed.

Lemma insert_desc_perm (r : Row) (l : list Row) :
  Permutation (insert_desc r l) (r :: l).
Proof.
  induction l as [|x l IH]; simpl.
  - apply Permutation_refl.
  - destruct (rec_id x <=? rec_id r).
    + apply Permutation_refl.
    + eapply perm_trans; [apply perm_skip, IH | apply perm_swap].
Qed.

Lemma order_desc_perm (l : list Row) : Permutation (order_by_rec_id_desc l) l.
Proof.
  induction l as [|x l IH]; simpl.
  - constructor.
  - eapply perm_trans; [apply insert_desc_perm | now apply perm_skip].
Qed.

Lemma insert_asc_perm (r : Row) (l : list Row) :
  Permutation (insert_asc r l) (r :: l).
Proof.
  induction l as [|x l IH]; simpl.
  - apply Permutation_refl.
  - destruct (rec_id r <=? rec_id x).
    + apply Permutation_refl.
    + eapply perm_trans; [apply perm_skip, IH | apply perm_swap].
Qed.

Lemma order_asc_perm (l : list Row) : Permutation (order_by_rec_id l) l.
Proof.
  induction l as [|x l IH]; simpl.
  - constructor.
  - eapply perm_trans; [apply insert_asc_perm | now apply perm_skip].
Qed.

Lemma insert_desc_sorted (r : Row) (l : list Row) :
  StronglySorted not_older l -> StronglySorted not_older (insert_desc r l).
Proof.
  induction 1 as [|x l Hs IH Hx]; simpl.
  - repeat constructor.
  - destruct (rec_id x <=? rec_id r) eqn:E.
    + apply Z.leb_le in E. constructor.
      * now constructor.
      * constructor; [exact E|].
        eapply Forall_impl; [|exact Hx].
        unfold not_older; intros; lia.
    + apply Z.leb_gt in E. constructor; [exact IH|].
      eapply Permutation_Forall.
      * apply Permutation_sym, insert_desc_perm.
      * constructor; [unfold not_older; lia | exact Hx].
Qed.

Lemma order_desc_sorted (l : list Row) :
  StronglySorted not_older (order_by_rec_id_desc l).
Proof.
  induction l; simpl; [constructor | now apply insert_desc_sorted].
Qed.

Lemma sorted_nodup_strict (l : list Row) :
  StronglySorted not_older l -> NoDup (map rec_id l) ->
  StronglySorted newer l.
Proof.
  induction 1 as [|x l Hs IH Hx]; simpl; intros Hn.
  - constructor.
  - inversion Hn as [|? ? Hnot Hn']; subst.
    constructor; [now apply IH|].
    rewrite Forall_forall in *. intros y Hy.
    specialize (Hx y Hy). unfold not_older, newer in *.
    assert (rec_id y <> rec_id x).
    { intros E. apply Hnot. rewrite <- E. now apply in_map. }
    lia.
Qed.

Lemma order_desc_strict (store : Store.t) :
  primary_key store -> StronglySorted newer (order_by_rec_id_desc store).
Proof.
  intros Hk. apply sorted_nodup_strict.
  - apply order_desc_sorted.
  - eapply Permutation_NoDup; [|exact Hk].
    apply Permutation_map, Permutation_sym, order_desc_perm.
Qed.

Lemma firstn_strongly_sorted (R : Row -> Row -> Prop) (k : nat) (l : list Row) :
  StronglySorted R l -> StronglySorted R (firstn k l).
Proof.
  intros Hs. revert k.
  induction Hs as [|x l Hs IH Hx]; intros [|k]; simpl; try constructor.
  - apply IH.
  - rewrite Forall_forall in *. intros y Hy. apply Hx.
    eapply in_firstn; eauto.
Qed.

Lemma insert_asc_largest (r : Row) (l : list Row) :
  Forall (fun x => rec_id x < rec_id r) l -> insert_asc r l = l ++ [r].
Proof.
  induction 1 as [|x l Hx Hl IH]; simpl; [reflexivity|].
  destruct (rec_id r <=? rec_id x) eqn:E.
  - apply Z.leb_le in E. lia.
  - now rewrite IH.
Qed.

(** Sorting a strictly descending list into ascending order reverses it. *)
Lemma order_asc_of_descending (l : list Row) :
  StronglySorted newer l -> order_by_rec_id l = rev l.
Proof.
  induction 1 as [|x l Hs IH Hx]; simpl; [reflexivity|].
  rewrite IH. apply insert_asc_largest.
  rewrite Forall_forall in *. intros y Hy.
  apply Hx. now apply in_rev.
Qed.

Lemma hd_error_firstn_1 (l : list Row) : hd_error (firstn 1 l) = hd_error l.
Proof. destruct l; reflexivity. Qed.

Lemma hd_error_app_nonempty (l l' : list Row) :
  l <> [] -> hd_error (l ++ l') = hd_error l.
Proof. destruct l; [congruence | reflexivity]. Qed.

Lemma hd_error_rev_firstn (n : nat) (l : list Row) :
  hd_error (rev (firstn (S n) l)) = nth_error l (Nat.min n (Nat.pred (List.length l))).
Proof.
  revert n. induction l as [|a l IH]; intros n.
  - simpl. now destruct (Nat.min n 0).
  - destruct n as [|n].
    + reflexivity.
    + destruct l as [|b l]; [reflexivity|].
      rewrite firstn_cons. cbn [rev].
      rewrite hd_error_app_nonempty.
      * rewrite IH. reflexivity.
      * simpl. intros E. apply app_eq_nil in E. destruct E; discriminate.
Qed.

End StoreFacts.

Section QueryFacts.

Import Notification.
Open Scope Z_scope.

Lemma get_notification_data_0 (store : Store.t) :
  get_notification_data store 0 = hd_error (order_by_rec_id_desc store).
Proof.
  unfold get_notification_data, fetchone, limit.
  destruct (order_by_rec_id_desc store) as [|x l]; reflexivity.
Qed.

Lemma get_notification_data_in (store : Store.t) (n : nat) (r : Row) :
  get_notification_data store n = Some r -> In r store.
Proof.
  unfold get_notification_data, fetchone, limit. intros H.
  rewrite hd_error_firstn_1 in H.
  assert (Hin : In r (order_by_rec_id (firstn (n + 1) (order_by_rec_id_desc store)))).
  { destruct (order_by_rec_id _); simpl in H; [discriminate|].
    injection H as ->. now left. }
  eapply Permutation_in in Hin; [|apply order_asc_perm].
  apply in_firstn in Hin.
  eapply Permutation_in; [apply order_desc_perm | exact Hin].
Qed.

Lemma get_notification_data_some (store : Store.t) (n : nat) :
  store <> [] -> exists r, get_notification_data store n = Some r.
Proof.
  intros Hne. unfold get_notification_data, fetchone, limit.
  rewrite hd_error_firstn_1.
  destruct (order_by_rec_id _) as [|x l] eqn:E; [|now exists x].
  exfalso.
  assert (Hlen : List.length (order_by_rec_id
                   (firstn (n + 1) (order_by_rec_id_desc store))) = 0%nat)
    by now rewrite E.
  rewrite (Permutation_length (order_asc_perm _)), length_firstn,
          (Permutation_length (order_desc_perm _)) in Hlen.
  destruct store; [congruence | simpl in Hlen; lia].
Qed.

Lemma get_notification_data_empty (n : nat) : get_notification_data [] n = None.
Proof.
  unfold get_notification_data, limit. simpl.
  now rewrite firstn_nil.
Qed.

(** With [rec_id] a key, the query at offset [n] is the [n]-th row in
    descending order, and the last row from the size of the table on. *)
Lemma get_notification_data_nth (store : Store.t) (n : nat) :
  primary_key store ->
  get_notification_data store n =
  nth_error (order_by_rec_id_desc store)
            (Nat.min n (Nat.pred (List.length store))).
Proof.
  intros Hk. unfold get_notification_data, fetchone, limit.
  rewrite hd_error_firstn_1, order_asc_of_descending.
  - replace (n + 1)%nat with (S n) by lia.
    rewrite hd_error_rev_firstn.
    now rewrite (Permutation_length (order_desc_perm store)).
  - apply firstn_strongly_sorted, order_desc_strict, Hk.
Qed.

(** The row at offset 0 carries the largest id of the table. *)
Lemma newest_is_largest (store : Store.t) (x : Row) :
  get_notification_data store 0 = Some x ->
  forall r, In r store -> rec_id r <= rec_id x.
Proof.
  rewrite get_notification_data_0. intros Hx r Hr.
  apply (Permutation_in _ (Permutation_sym (order_desc_perm store))) in Hr.
  pose proof (order_desc_sorted store) as Hs.
  destruct (order_by_rec_id_desc store) as [|y l]; [discriminate|].
  injection Hx as ->. destruct Hr as [->|Hr]; [lia|].
  apply StronglySorted_inv in Hs. destruct Hs as [_ Hall].
  rewrite Forall_forall in Hall. exact (Hall r Hr).
Qed.

Lemma filter_none (f : Row -> bool) (l : list Row) :
  Forall (fun x => f x = false) l -> filter f l = [].
Proof.
  induction 1 as [|x l Hx Hl IH]; simpl; [reflexivity|].
  now rewrite Hx.
Qed.

Lemma filter_length_perm (f : Row -> bool) (l l' : list Row) :
  Permutation l l' -> List.length (filter f l) = List.length (filter f l').
Proof.
  induction 1 as [| x l l' _ IH | x y l | l l' l'' _ IH1 _ IH2]; simpl.
  - reflexivity.
  - destruct (f x); simpl; congruence.
  - destruct (f x), (f y); reflexivity.
  - congruence.
Qed.

(** In a strictly descending list the position of a row is its rank. *)
Lemma position_is_rank (l : list Row) (n : nat) (r : Row) :
  StronglySorted newer l -> nth_error l n = Some r -> rank l r = n.
Proof.
  unfold rank. intros Hs. revert n.
  induction Hs as [|x l Hs IH Hx]; intros n Hn.
  - destruct n; discriminate.
  - rewrite Forall_forall in Hx. destruct n as [|n]; simpl in Hn.
    + injection Hn as ->. simpl. rewrite Z.ltb_irrefl.
      rewrite filter_none; [reflexivity|].
      rewrite Forall_forall. intros y Hy. specialize (Hx y Hy).
      unfold newer in Hx. apply Z.ltb_ge. lia.
    + simpl. assert (Hr : In r l) by (eapply nth_error_In; eauto).
      specialize (Hx r Hr). unfold newer in Hx.
      apply Z.ltb_lt in Hx. rewrite Hx. simpl. f_equal. now apply IH.
Qed.

Lemma rank_sorted (store : Store.t) (r : Row) :
  rank store r = rank (order_by_rec_id_desc store) r.
Proof.
  unfold rank. apply filter_length_perm, Permutation_sym, order_desc_perm.
Qed.

End QueryFacts.


(* ================================================================== *)
(** * Facts about one dispatch and one poll *)

Section PollFacts.

Import Notification.
Open Scope Z_scope.

Variable w : World.t.

Lemma instance_send_notification_post (R : Type)
    (str : plistlib.value Py.float -> string)
    (post : requests.Request -> R) (p : provider_instance)
    (app : string) (title : plistlib.value Py.float) (text : string) :
  instance_send_notification str post p app title text =
  post (instance_send_notification str (fun r => r) p app title text).
Proof. destruct p; reflexivity. Qed.

Lemma extend_nothing (st : State) : extend [] [] [] st = st.
Proof. destruct st. unfold extend. simpl. now rewrite !app_nil_r. Qed.

Lemma extend_extend (h h' : list Row)
    (p p' : list (requests.Request * requests.Response))
    (o o' : list Line) (st : State) :
  extend h' p' o' (extend h p o st) = extend (h ++ h') (p ++ p') (o ++ o') st.
Proof. unfold extend. simpl. now rewrite !app_assoc. Qed.

Lemma extend_add_handed (r : Row) (st : State) :
  add_handed r st = extend [r] [] [] st.
Proof. destruct st. unfold extend, add_handed. simpl. now rewrite !app_nil_r. Qed.

(** The text [__str__] returns is the text of the instance. *)
Lemma str_text (self : t) (text : Text) :
  __str__ self = inr text -> text = TextOf self.
Proof.
  unfold __str__.
  destruct (Payload.ago self) as [[x| |]|];
    destruct (Payload.title self); congruence.
Qed.

Lemma announcement_lines (quiet : bool) (self : t) (o : list Line) :
  announcement quiet self = inr o ->
  o = if quiet then [] else [SendingFrom (TextOf self)].
Proof.
  unfold announcement. destruct quiet; [congruence|].
  destruct (__str__ self) as [e|text] eqn:E; [discriminate|].
  apply str_text in E. congruence.
Qed.

Lemma announcement_announced (quiet : bool) (self : t) :
  announced quiet self <-> exists o, announcement quiet self = inr o.
Proof.
  unfold announced, announcement. split.
  - intros [->|(text & ->)]; [now exists []|].
    destruct quiet; eexists; reflexivity.
  - intros (o & E). destruct quiet; [now left|]. right.
    destruct (__str__ self) as [e|text]; [discriminate|]. now exists text.
Qed.

(** [send], spelled out: it ends in the exception of [__str__] with nothing
    done, or in the exception of [requests.post] with the instance printed,
    or it returns with the form and its answer kept and the lines printed. *)
Lemma send_eq (self : t) (st : State) :
  send w self st =
  match announcement (SILENT st) self with
  | inl e => (st, Raised e)
  | inr o =>
      let req := request_for w (PROVIDER st) self in
      match World.requests_post w (List.length (posted st)) req with
      | inl e => (extend [] [] o st, Raised e)
      | inr response =>
          (extend [] [(req, response)]
             (o ++ failure_lines [(req, response)]) st,
           Returned tt)
      end
  end.
Proof.
  assert (Hstate : forall a b c d e f h h' p p' o o',
            h = h' -> p = p' -> o = o' ->
            mkState a b c d e f h p o = mkState a b c d e f h' p' o')
    by (intros; subst; reflexivity).
  unfold send, announcement, request_for, failure_lines, print,
         Py.bind, Py.gets, Py.modify, Py.ret, Py.raise.
  destruct (SILENT st) eqn:Es; cbn -[instance_send_notification].
  - rewrite (instance_send_notification_post (World.str w)
               (fun r => (r, World.requests_post w (List.length (posted st)) r))).
    set (req := instance_send_notification (World.str w) (fun r => r) _ _ _ _).
    cbn -[instance_send_notification].
    destruct (World.requests_post w (List.length (posted st)) req)
      as [e|response]; cbn -[instance_send_notification].
    + now rewrite extend_nothing.
    + destruct (requests.status_code response =? 200) eqn:E;
        cbn -[instance_send_notification];
        unfold extend, add_posted, add_stdout; simpl;
        f_equal; apply Hstate; now rewrite ?app_nil_r.
  - destruct (__str__ self) as [e|text]; cbn -[instance_send_notification];
      [reflexivity|].
    rewrite (instance_send_notification_post (World.str w)
               (fun r => (r, World.requests_post w (List.length (posted st)) r))).
    set (req := instance_send_notification (World.str w) (fun r => r) _ _ _ _).
    cbn -[instance_send_notification].
    destruct (World.requests_post w (List.length (posted st)) req)
      as [e|response]; cbn -[instance_send_notification].
    + unfold extend, add_stdout. simpl. f_equal.
      apply Hstate; now rewrite ?app_nil_r.
    + destruct (requests.status_code response =? 200) eqn:E;
        cbn -[instance_send_notification];
        unfold extend, add_posted, add_stdout; simpl;
        f_equal; apply Hstate; rewrite ?app_nil_r, <- ?app_assoc; reflexivity.
Qed.

(** However [send] ends, it leaves the cursor and the dispatched rows as
    they were. *)
Lemma send_frame (self : t) (st : State) :
  cursor (fst (send w self st)) = cursor st /\
  handed (fst (send w self st)) = handed st.
Proof.
  rewrite send_eq.
  destruct (announcement (SILENT st) self) as [e|o]; [now split|].
  cbv zeta.
  destruct (World.requests_post w (List.length (posted st))
              (request_for w (PROVIDER st) self)) as [e|response];
    unfold extend, cursor; simpl; now rewrite app_nil_r.
Qed.

(** The loop test reads the cursor and nothing else, and writes nothing. *)
Lemma while_test_eq (sql_data : option Row) (st : State) :
  while_test sql_data st = (st, test_value (cursor st) sql_data).
Proof.
  unfold while_test, test_value, cursor, ge_dates, getattr,
         Py.bind, Py.ret, Py.raise.
  destruct sql_data as [r|]; [|reflexivity].
  cbn [fst snd].
  destruct (last_id st) as [lid|]; [|reflexivity].
  destruct (rec_id r =? lid); cbn [negb]; [reflexivity|].
  destruct (last_date st) as [ld|]; [|reflexivity].
  destruct (effective_date r), ld; reflexivity.
Qed.

(** What a true test says about the row and the cursor. *)
Lemma test_value_true (c : option Z * option (option Z)) (r : Row) :
  test_value c (Some r) = Returned true <->
  exists lid ld d,
    c = (Some lid, Some (Some ld)) /\
    effective_date r = Some d /\ rec_id r <> lid /\ ld <= d.
Proof.
  destruct c as [[lid|] ld]; unfold test_value; simpl; split.
  - destruct (rec_id r =? lid) eqn:E; simpl; [discriminate|].
    destruct ld as [[ld|]|]; destruct (effective_date r) as [d|];
      try discriminate.
    intros H. injection H as H. apply Z.leb_le in H. apply Z.eqb_neq in E.
    exists lid, ld, d. auto.
  - intros (lid' & ld' & d & E & -> & Hne & Hle). injection E as -> ->.
    apply Z.eqb_neq in Hne. rewrite Hne. simpl.
    apply Z.leb_le in Hle. now rewrite Hle.
  - discriminate.
  - intros (lid' & ld' & d & E & _). discriminate.
Qed.

(** One turn of the loop, spelled out. *)
Lemma check_while_step (store : Store.t) (fuel n : nat)
    (sql_data : option Row) (st : State) :
  check_while w store fuel n sql_data st =
  match test_value (cursor st) sql_data with
  | Returned true =>
      match fuel, sql_data with
      | O, _ => (st, OutOfFuel)
      | _, None => (st, Raised (TypeError "'NoneType' object is not subscriptable"))
      | S fuel', Some r =>
          match World.parse_notification w (List.length (posted st)) (data r) with
          | inl e => (st, Raised e)
          | inr note =>
              match send w note (add_handed r st) with
              | (st', Returned _) =>
                  check_while w store fuel' (n + 1)
                    (get_notification_data store (n + 1)) st'
              | (st', Raised e) => (st', Raised e)
              | (st', OutOfFuel) => (st', OutOfFuel)
              end
          end
      end
  | Returned false => (st, Returned tt)
  | Raised e => (st, Raised e)
  | OutOfFuel => (st, OutOfFuel)
  end.
Proof.
  destruct fuel; simpl; unfold Py.bind at 1; rewrite while_test_eq;
    destruct (test_value (cursor st) sql_data) as [[|]| |]; try reflexivity.
  destruct sql_data as [r|]; [|reflexivity].
  unfold Py.bind, Py.gets, Py.modify, Py.raise. simpl.
  destruct (World.parse_notification w (List.length (posted st)) (data r));
    reflexivity.
Qed.

End PollFacts.

Section PlainFacts.

Import Notification.
Open Scope Z_scope.

Variable env : Env.

(** In a world where no dispatch fails [send] returns.  It posts one form,
    prints what the answer calls for, and leaves every other attribute
    alone. *)
Lemma send_returns (self : Plain) (st : State) :
  let req := request_for env (PROVIDER st) self in
  let response := requests_post env (List.length (posted st)) req in
  exists st',
    send env self st = (st', Returned tt) /\
    cursor st' = cursor st /\
    handed st' = handed st /\
    posted st' = posted st ++ [(req, response)] /\
    stdout st' = stdout st ++ send_lines (SILENT st) self response /\
    SILENT st' = SILENT st /\ PROVIDER st' = PROVIDER st.
Proof.
  intros req response. subst req response.
  rewrite send_eq.
  assert (Ha : announcement (SILENT st) (instance self)
               = inr (if SILENT st then []
                      else [SendingFrom (TextOf (instance self))]))
    by (unfold announcement; destruct (SILENT st); reflexivity).
  rewrite Ha. cbv zeta.
  change (World.requests_post (world env)) with
    (fun k req => @inr Py.exn _ (requests_post env k req)).
  cbv beta. eexists. split; [reflexivity|].
  unfold extend, cursor, send_lines, failure_lines. simpl.
  rewrite !app_nil_r. repeat split; reflexivity.
Qed.

(** One turn of the loop in such a world. *)
Lemma check_while_unfold (store : Store.t) (fuel n : nat)
    (sql_data : option Row) (st : State) :
  check_while env store fuel n sql_data st =
  match test_value (cursor st) sql_data with
  | Returned true =>
      match fuel, sql_data with
      | O, _ => (st, OutOfFuel)
      | _, None => (st, Raised (TypeError "'NoneType' object is not subscriptable"))
      | S fuel', Some r =>
          match parse_notification env (List.length (posted st)) (data r) with
          | inl e => (st, Raised e)
          | inr note =>
              match send env note (add_handed r st) with
              | (st', Returned _) =>
                  check_while env store fuel' (n + 1)
                    (get_notification_data store (n + 1)) st'
              | (st', Raised e) => (st', Raised e)
              | (st', OutOfFuel) => (st', OutOfFuel)
              end
          end
      end
  | Returned false => (st, Returned tt)
  | Raised e => (st, Raised e)
  | OutOfFuel => (st, OutOfFuel)
  end.
Proof.
  rewrite check_while_step.
  destruct (test_value (cursor st) sql_data) as [[|]| |]; try reflexivity.
  destruct fuel; [reflexivity|].
  destruct sql_data as [r|]; [|reflexivity].
  change (World.parse_notification (world env) (List.length (posted st)) (data r))
    with (match parse_notification env (List.length (posted st)) (data r) with
          | inl e => @inl Py.exn t e
          | inr n => inr (instance n)
          end).
  destruct (parse_notification env (List.length (posted st)) (data r));
    reflexivity.
Qed.

End PlainFacts.

Section LoopFacts.

Import Notification.
Open Scope Z_scope.

Variable w : World.t.
Variable store : Store.t.

(** However the loop ends, it leaves the cursor alone, and every row it
    hands to [send] is a row of the table for which the loop test holds
    under the cursor the poll started with. *)
Lemma check_while_frame (fuel n : nat) :
  forall (sql_data : option Row) (st st' : State) (o : Py.outcome unit),
    check_while w store fuel n sql_data st = (st', o) ->
    (forall r, sql_data = Some r -> In r store) ->
    cursor st' = cursor st /\
    exists news,
      handed st' = handed st ++ news /\
      Forall (fun r => In r store /\
                       test_value (cursor st) (Some r) = Returned true) news.
Proof.
  revert n. induction fuel as [|fuel IH]; intros n sql_data st st' o H Hin;
    rewrite check_while_step in H;
    destruct (test_value (cursor st) sql_data) as [[|]| |] eqn:T;
    try (injection H as <- <-; split; [reflexivity|];
         exists []; now rewrite app_nil_r).
  destruct sql_data as [r|];
    [|injection H as <- <-; split; [reflexivity|];
      exists []; now rewrite app_nil_r].
  destruct (World.parse_notification w _ (data r)) as [e|note];
    [injection H as <- <-; split; [reflexivity|];
     exists []; now rewrite app_nil_r|].
  destruct (send_frame w note (add_handed r st)) as [Hc Hh].
  destruct (send w note (add_handed r st)) as [st2 [[]| |]];
    cbn [fst] in Hc, Hh;
    [|injection H as <- <-; split; [exact Hc|]; exists [r]; split;
      [exact Hh | constructor; [split; [now apply Hin | exact T]|constructor]]..].
  apply IH in H.
  - destruct H as (Hc' & news & Hn & Hall). split.
    + now rewrite Hc', Hc.
    + exists (r :: news). split.
      * rewrite Hn, Hh. simpl. now rewrite <- app_assoc.
      * constructor; [split; [now apply Hin | exact T]|].
        rewrite Hc in Hall. exact Hall.
  - intros r' Hr'. eapply get_notification_data_in; eauto.
Qed.

(** The loop cannot return while the row it keeps fetching passes the
    test: from the last offset of the table on, the query answers with the
    same oldest row. *)
Lemma check_while_stuck (fuel : nat) :
  forall (n : nat) (st : State),
    primary_key store ->
    (List.length store <= n + 1)%nat ->
    test_value (cursor st)
      (nth_error (order_by_rec_id_desc store) (Nat.pred (List.length store)))
      = Returned true ->
    snd (check_while w store fuel n
           (nth_error (order_by_rec_id_desc store) (Nat.pred (List.length store)))
           st) <> Returned tt.
Proof.
  induction fuel as [|fuel IH]; intros n st Hk Hn T;
    rewrite check_while_step, T.
  - discriminate.
  - destruct (nth_error _ _) as [r|] eqn:Er; [|discriminate].
    destruct (World.parse_notification w _ (data r)) as [e|note];
      [discriminate|].
    destruct (send_frame w note (add_handed r st)) as [Hc _].
    destruct (send w note (add_handed r st)) as [st2 [[]| |]];
      cbn [fst] in Hc; [|discriminate..].
    rewrite (get_notification_data_nth _ Hk).
    replace (Nat.min (n + 1) (Nat.pred (List.length store)))
      with (Nat.pred (List.length store)) by lia.
    rewrite Er.
    apply IH; [exact Hk | lia |].
    now rewrite Hc.
Qed.

(** When the loop returns it has handed over a run of consecutive rows of
    the descending order, starting at its offset and ending inside the table. *)
Lemma check_while_returns (fuel : nat) :
  forall (n : nat) (st st' : State),
    primary_key store ->
    (n < List.length store)%nat ->
    check_while w store fuel n
      (nth_error (order_by_rec_id_desc store) n) st = (st', Returned tt) ->
    exists k,
      (n + k < List.length store)%nat /\
      handed st' = handed st ++ firstn k (skipn n (order_by_rec_id_desc store)) /\
      test_value (cursor st)
        (nth_error (order_by_rec_id_desc store) (n + k)) = Returned false.
Proof.
  induction fuel as [|fuel IH]; intros n st st' Hk Hn H;
    rewrite check_while_step in H;
    destruct (test_value (cursor st) (nth_error _ n)) as [[|]| |] eqn:T;
    try discriminate;
    try (injection H as <-; exists 0%nat;
         rewrite Nat.add_0_r, app_nil_r; auto).
  destruct (nth_error (order_by_rec_id_desc store) n) as [r|] eqn:Er;
    [|discriminate].
  destruct (World.parse_notification w _ (data r)) as [e|note];
    [discriminate|].
  destruct (send_frame w note (add_handed r st)) as [Hc Hh].
  destruct (send w note (add_handed r st)) as [st2 [[]| |]];
    cbn [fst] in Hc, Hh; [|discriminate..].
  rewrite (get_notification_data_nth _ Hk) in H.
  destruct (Nat.eq_dec (n + 1) (List.length store)) as [Hlast|Hmore].
  - exfalso.
    replace (Nat.min (n + 1) (Nat.pred (List.length store)))
      with (Nat.pred (List.length store)) in H by lia.
    apply (@check_while_stuck fuel (n + 1)%nat st2 Hk); [lia| |].
    + rewrite Hc. simpl.
      replace (Nat.pred (List.length store)) with n by lia.
      rewrite Er. exact T.
    + now rewrite H.
  - replace (Nat.min (n + 1) (Nat.pred (List.length store)))
      with (n + 1)%nat in H by lia.
    apply IH in H; [|exact Hk|lia].
    destruct H as (k & Hlt & Hn' & Hstop).
    exists (S k). split; [lia|]. split.
    + rewrite Hn', Hh. simpl handed. rewrite <- app_assoc. f_equal.
      rewrite (skipn_nth_cons _ _ Er).
      replace (n + 1)%nat with (S n) by lia. reflexivity.
    + rewrite Hc in Hstop. simpl in Hstop.
      now replace (n + S k)%nat with (n + 1 + k)%nat by lia.
Qed.

End LoopFacts.

Section CheckFacts.

Import Notification.
Open Scope Z_scope.

Variable w : World.t.

(** [check], spelled out. *)
Lemma check_unfold (fuel : nat) (store : Store.t) (st : State) :
  check w fuel store st =
  match get_notification_data store 0 with
  | None => (st, Returned tt)
  | Some r =>
      match check_while w store fuel 0 (Some r) st with
      | (st', Returned _) =>
          (set_last_date (effective_date r) (set_last_id (rec_id r) st'),
           Returned tt)
      | (st', Raised e) => (st', Raised e)
      | (st', OutOfFuel) => (st', OutOfFuel)
      end
  end.
Proof.
  unfold check. destruct (get_notification_data store 0) as [r|];
    [|reflexivity].
  unfold Py.bind, Py.modify.
  destruct (check_while w store fuel 0 (Some r) st) as [st' [[]| |]];
    reflexivity.
Qed.

(** Every row a poll hands to [send] is a row of the table that passes
    the loop test under the cursor the poll started with. *)
Lemma check_hands_passing_rows (fuel : nat) (store : Store.t)
    (st st' : State) (o : Py.outcome unit) :
  check w fuel store st = (st', o) ->
  exists news,
    handed st' = handed st ++ news /\
    Forall (fun r => In r store /\
                     test_value (cursor st) (Some r) = Returned true) news.
Proof.
  rewrite check_unfold.
  destruct (get_notification_data store 0) as [r|] eqn:G.
  - destruct (check_while w store fuel 0 (Some r) st) as [st1 o1] eqn:W.
    apply check_while_frame in W.
    + destruct W as (_ & news & Hn & Hall).
      destruct o1 as [[]| |]; intros H; injection H as <- <-;
        exists news; auto.
    + intros r' E. injection E as <-.
      eapply get_notification_data_in; eauto.
  - intros H. injection H as <- <-. exists []. now rewrite app_nil_r.
Qed.

End CheckFacts.


(** The cursor after a poll, by the way the poll ended. *)
Lemma check_cursor_outcome (w : World.t) (fuel : nat)
    (store : Store.t) (st st' : Notification.State) (o : Py.outcome unit) :
  Notification.check w fuel store st = (st', o) ->
  match o with
  | Returned _ =>
      match Notification.get_notification_data store 0 with
      | Some r =>
          cursor st' = (Some (rec_id r), Some (Notification.effective_date r))
          /\ In r store
          /\ forall x, In x store -> (rec_id x <= rec_id r)%Z
      | None => st' = st
      end
  | _ => cursor st' = cursor st
  end.
Proof.
  rewrite check_unfold.
  destruct (Notification.get_notification_data store 0) as [r|] eqn:G.
  - destruct (Notification.check_while w store fuel 0 (Some r) st)
      as [st1 o1] eqn:W.
    apply check_while_frame in W.
    + destruct W as (Hc & _).
      destruct o1 as [[]| |]; intros H; injection H as <- <-; auto.
      repeat split.
      * eapply get_notification_data_in; eauto.
      * now apply newest_is_largest.
    + intros r' E. injection E as <-.
      eapply get_notification_data_in; eauto.
  - intros H. injection H as <- <-. reflexivity.
Qed.

(* ================================================================== *)
(** * The store query *)

(** C4, as the code has it: on a table of m rows with [rec_id] as key, the
    query at offset n returns the row of rank min(n, m-1).  For n < m this is
    the row ranked n from the most recent.  For n >= m > 0 it is the oldest
    row of the table, not "absent"; the query answers "absent" only on the
    empty table. *)
Theorem get_notification_data_rank (store : Store.t) (n : nat) :
  primary_key store ->
  match Notification.get_notification_data store n with
  | Some r =>
      In r store /\
      rank store r = Nat.min n (Nat.pred (List.length store))
  | None => store = []
  end.
Proof.
  intros Hk. rewrite (get_notification_data_nth _ Hk).
  destruct (nth_error _ _) as [r|] eqn:E.
  - split.
    + eapply Permutation_in; [apply order_desc_perm|].
      eapply nth_error_In; eauto.
    + rewrite rank_sorted. apply position_is_rank; [|exact E].
      now apply order_desc_strict.
  - apply nth_error_None in E.
    rewrite (Permutation_length (order_desc_perm store)) in E.
    destruct store; [reflexivity | simpl in E; lia].
Qed.

Lemma get_notification_data_rank_witness :
  primary_key Scenario.store_4 /\
  match Notification.get_notification_data Scenario.store_4 1 with
  | Some r =>
      In r Scenario.store_4 /\
      rank Scenario.store_4 r =
      Nat.min 1 (Nat.pred (List.length Scenario.store_4))
  | None => Scenario.store_4 = []
  end.
Proof.
  split; [key_by_computation|].
  apply (@get_notification_data_rank Scenario.store_4 1). key_by_computation.
Defined.

(** One row in the table, offset 1: the query returns that row again. *)
Example get_notification_data_past_the_end :
  Notification.get_notification_data Scenario.store_4 1
  = Some (Scenario.row 4 40).
Proof. reflexivity. Qed.

(** On the empty table every offset is absent. *)
Example get_notification_data_on_empty (n : nat) :
  Notification.get_notification_data [] n = None.
Proof. apply get_notification_data_empty. Qed.

(* ================================================================== *)
(** * The cursor *)

(** C3, the claim as stated fails: with the cursor on record 3 and the
    records 1 and 2 left in the table, the poll returns with the cursor on
    record 2, an older record. *)
Lemma cursor_moves_back_after_deletion :
  exists st',
    Notification.check Scenario.env 5 Scenario.store_12 Scenario.baseline_3
    = (st', Returned tt) /\
    cursor Scenario.baseline_3 = (Some 3%Z, Some (Some 30%Z)) /\
    cursor st' = (Some 2%Z, Some (Some 20%Z)).
Proof.
  exists (fst (Notification.check Scenario.env 5 Scenario.store_12
                 Scenario.baseline_3)).
  repeat split.
Qed.

(** C3, amended: a poll that returns on a non-empty table sets both
    cursor attributes together, to the id and the effective date of the row
    that carries the largest id of the table at that moment, whichever record
    the cursor designated before; on the empty table it changes nothing.  A
    poll that ends in an exception, or that has not ended when the fuel runs
    out, has left both cursor attributes as they were, whatever it had
    already handed to [send]. *)
Theorem check_commits_cursor (env : Notification.Env) (fuel : nat)
    (store : Store.t) (st st' : Notification.State) (o : Py.outcome unit) :
  Notification.check env fuel store st = (st', o) ->
  match o with
  | Returned _ =>
      match Notification.get_notification_data store 0 with
      | Some r =>
          cursor st' = (Some (rec_id r), Some (Notification.effective_date r))
          /\ In r store
          /\ forall x, In x store -> (rec_id x <= rec_id r)%Z
      | None => st' = st
      end
  | _ => cursor st' = cursor st
  end.
Proof. apply check_cursor_outcome. Qed.

Lemma check_commits_cursor_witness :
  Notification.check Scenario.env 5 Scenario.store_123456 Scenario.baseline_3
  = (fst (Notification.check Scenario.env 5 Scenario.store_123456
            Scenario.baseline_3), Returned tt) /\
  cursor (fst (Notification.check Scenario.env 5 Scenario.store_123456
                 Scenario.baseline_3))
  = (Some 6%Z, Some (Some 60%Z)).
Proof.
  split; [reflexivity|].
  pose proof (@check_commits_cursor Scenario.env 5 Scenario.store_123456
                Scenario.baseline_3 _ _ eq_refl) as H.
  simpl in H. exact (proj1 H).
Defined.

(* ================================================================== *)
(** * Polling twice *)

(** C6: when a poll has returned and the table is the same at the next
    poll, that poll returns too and leaves the state as it found it: it
    hands nothing to [send], posts nothing, and the cursor stays. *)
Theorem check_twice_dispatches_nothing (env : Notification.Env) (fuel : nat)
    (store : Store.t) (st st1 : Notification.State) :
  Notification.check env fuel store st = (st1, Returned tt) ->
  forall (env' : Notification.Env) (fuel' : nat),
    Notification.check env' fuel' store st1 = (st1, Returned tt).
Proof.
  intros H env' fuel'. rewrite check_unfold in *.
  destruct (Notification.get_notification_data store 0) as [r|].
  - destruct (Notification.check_while env store fuel 0 (Some r) st)
      as [st0 [[]| |]]; try discriminate.
    injection H as <-.
    rewrite check_while_unfold.
    unfold test_value, cursor. simpl. rewrite Z.eqb_refl. simpl.
    reflexivity.
  - injection H as <-. reflexivity.
Qed.

Lemma check_twice_dispatches_nothing_witness :
  let st1 := fst (Notification.check Scenario.env 5 Scenario.store_123456
                    Scenario.baseline_3) in
  Notification.handed st1
  = [Scenario.row 6 60; Scenario.row 5 50; Scenario.row 4 40] /\
  Notification.check Scenario.env 0 Scenario.store_123456 st1
  = (st1, Returned tt).
Proof.
  split; [reflexivity|].
  apply (@check_twice_dispatches_nothing Scenario.env 5 Scenario.store_123456
           Scenario.baseline_3).
  reflexivity.
Defined.

(* ================================================================== *)
(** * The order of dispatch *)

(** C1, the claim as stated fails: with the cursor on record 3 and the
    records 4, 5 and 6 inserted since, the poll hands record 6 to [send]
    first, then 5, then 4. *)
Lemma check_dispatches_6_5_4 :
  exists st',
    Notification.check Scenario.env 5 Scenario.store_123456
      Scenario.baseline_3 = (st', Returned tt) /\
    map rec_id (Notification.handed st') = [6; 5; 4]%Z /\
    map rec_id (Notification.handed st') <> [4; 5; 6]%Z.
Proof.
  exists (fst (Notification.check Scenario.env 5 Scenario.store_123456
                 Scenario.baseline_3)).
  repeat split. discriminate.
Qed.

(** C1, amended: the records a poll finds are dispatched inside the
    backward scan, each one as it is found, so a poll that returns has
    dispatched them newest first: the rows it handed to [send] are, in the
    order of the calls, an initial run of the table in descending order of
    [rec_id] (6, 5, 4 for the records 4, 5, 6), and nothing reverses them. *)
Theorem check_dispatches_newest_first (env : Notification.Env) (fuel : nat)
    (store : Store.t) (st st' : Notification.State) :
  primary_key store ->
  Notification.check env fuel store st = (st', Returned tt) ->
  exists news,
    Notification.handed st' = Notification.handed st ++ news /\
    news = firstn (List.length news) (order_by_rec_id_desc store) /\
    StronglySorted newer news.
Proof.
  intros Hk. rewrite check_unfold, get_notification_data_0.
  destruct (order_by_rec_id_desc store) as [|r0 rest] eqn:D; simpl.
  - intros H. injection H as <-. exists []. split.
    + now rewrite app_nil_r.
    + split; [reflexivity | constructor].
  - destruct (Notification.check_while env store fuel 0 (Some r0) st)
      as [st1 [[]| |]] eqn:W; try discriminate.
    intros H. injection H as <-.
    assert (Hlen : (0 < List.length store)%nat).
    { rewrite <- (Permutation_length (order_desc_perm store)), D. simpl. lia. }
    assert (W' : Notification.check_while env store fuel 0
                   (nth_error (order_by_rec_id_desc store) 0) st
                 = (st1, Returned tt)) by (rewrite D; exact W).
    apply check_while_returns in W'; [|exact Hk|exact Hlen].
    destruct W' as (k & Hlt & Hn & _). simpl in Hn.
    exists (firstn k (order_by_rec_id_desc store)).
    rewrite D in *. split; [exact Hn|]. split.
    + rewrite length_firstn.
      assert (List.length (r0 :: rest) = List.length store)
        by (rewrite <- D; apply Permutation_length, order_desc_perm).
      replace (Nat.min k (List.length (r0 :: rest))) with k by lia.
      reflexivity.
    + apply firstn_strongly_sorted. rewrite <- D.
      now apply order_desc_strict.
Qed.

Lemma check_dispatches_newest_first_witness :
  primary_key Scenario.store_123456 /\
  exists news,
    Notification.handed
      (fst (Notification.check Scenario.env 5 Scenario.store_123456
              Scenario.baseline_3))
    = Notification.handed Scenario.baseline_3 ++ news /\
    news = firstn (List.length news)
             (order_by_rec_id_desc Scenario.store_123456) /\
    StronglySorted newer news.
Proof.
  split; [key_by_computation|].
  apply (@check_dispatches_newest_first Scenario.env 5
           Scenario.store_123456 Scenario.baseline_3).
  - key_by_computation.
  - reflexivity.
Defined.

(* ================================================================== *)
(** * Termination of the backward scan *)

Lemma get_notification_data_single (r : Row) (n : nat) :
  Notification.get_notification_data [r] n = Some r.
Proof.
  unfold Notification.get_notification_data, limit.
  replace (n + 1)%nat with (S n) by lia. simpl.
  now rewrite firstn_nil.
Qed.

(** The loop of [check] on the one-row table of record 4, with the cursor
    on the deleted record 3: every turn dispatches record 4 and fetches it
    again. *)
Lemma check_while_refetches_record_4 (env : Notification.Env) (fuel : nat) :
  forall (n : nat) (st : Notification.State),
    cursor st = cursor Scenario.baseline_3 ->
    let (st', o) :=
      Notification.check_while env Scenario.store_4 fuel n
        (Some (Scenario.row 4 40)) st in
    cursor st' = cursor st /\
    ((o = OutOfFuel /\
      Notification.handed st' =
      Notification.handed st ++ repeat (Scenario.row 4 40) fuel) \/
     exists e k,
       o = Raised e /\
       Notification.parse_notification env k (data (Scenario.row 4 40))
       = inl e).
Proof.
  induction fuel as [|fuel IH]; intros n st Hc;
    rewrite check_while_unfold;
    replace (test_value (cursor st) (Some (Scenario.row 4 40)))
      with (@Returned bool true) by (rewrite Hc; reflexivity);
    simpl.
  - split; [reflexivity|]. left. split; [reflexivity|]. now rewrite app_nil_r.
  - destruct (Notification.parse_notification env _ []) as [e|note] eqn:P.
    + split; [reflexivity|]. right. now exists e, (List.length (Notification.posted st)).
    + destruct (send_returns env note
                  (Notification.add_handed (Scenario.row 4 40) st))
        as (st2 & Hs & Hc2 & Hh & _).
      rewrite Hs.
      change (Notification.get_notification_data Scenario.store_4 (n + 1))
        with (Notification.get_notification_data [Scenario.row 4 40] (n + 1)).
      rewrite get_notification_data_single.
      assert (Hc3 : cursor st2 = cursor Scenario.baseline_3)
        by (rewrite Hc2; exact Hc).
      specialize (IH (n + 1)%nat st2 Hc3).
      destruct (Notification.check_while env Scenario.store_4 fuel (n + 1)
                  (Some (Scenario.row 4 40)) st2) as [st' o].
      destruct IH as (Hc' & IH). split; [now rewrite Hc', Hc2|].
      destruct IH as [(-> & Hh')|IH]; [left|right; exact IH].
      split; [reflexivity|].
      rewrite Hh', Hh. simpl. now rewrite <- app_assoc.
Qed.

(** C2, at the input the claim names (baseline on record 3, record 3
    deleted, record 4 inserted, and no older record left): whatever the
    outside world answers and however much fuel the loop is given, the poll
    does not return.  It dispatches record 4 once per turn and is still
    looping when the fuel runs out, unless decoding the payload raises; the
    cursor stays on the deleted record 3. *)
Theorem check_loops_when_baseline_deleted (env : Notification.Env)
    (fuel : nat) :
  let (st', o) :=
    Notification.check env fuel Scenario.store_4 Scenario.baseline_3 in
  o <> Returned tt /\
  cursor st' = cursor Scenario.baseline_3 /\
  ((o = OutOfFuel /\
    Notification.handed st' = repeat (Scenario.row 4 40) fuel) \/
   exists e k,
     o = Raised e /\
     Notification.parse_notification env k (data (Scenario.row 4 40)) = inl e).
Proof.
  rewrite check_unfold.
  change (Notification.get_notification_data Scenario.store_4 0)
    with (Some (Scenario.row 4 40)). cbv iota.
  pose proof (@check_while_refetches_record_4 env fuel 0%nat
                Scenario.baseline_3 eq_refl) as H.
  destruct (Notification.check_while env Scenario.store_4 fuel 0
              (Some (Scenario.row 4 40)) Scenario.baseline_3) as [st' o].
  destruct H as (Hc & [(-> & Hh)|(e & k & -> & P)]).
  - split; [discriminate|]. split; [exact Hc|]. left. auto.
  - split; [discriminate|]. split; [exact Hc|]. right. now exists e, k.
Qed.

(** The same poll in a world where every payload decodes: out of fuel for
    every amount of fuel, with one copy of record 4 sent per unit. *)
Example check_floods_record_4 (fuel : nat) :
  snd (Notification.check Scenario.env fuel Scenario.store_4
         Scenario.baseline_3) = OutOfFuel /\
  Notification.handed
    (fst (Notification.check Scenario.env fuel Scenario.store_4
            Scenario.baseline_3))
  = repeat (Scenario.row 4 40) fuel.
Proof.
  rewrite check_unfold.
  change (Notification.get_notification_data Scenario.store_4 0)
    with (Some (Scenario.row 4 40)). cbv iota.
  pose proof (@check_while_refetches_record_4 Scenario.env fuel 0%nat
                Scenario.baseline_3 eq_refl) as H.
  destruct (Notification.check_while Scenario.env Scenario.store_4 fuel 0
              (Some (Scenario.row 4 40)) Scenario.baseline_3) as [st' o].
  destruct H as (_ & [(-> & Hh)|(e & k & _ & P)]).
  - split; [reflexivity | exact Hh].
  - discriminate.
Qed.

(** The same happens on every table whose rows all lie past the cursor:
    no row carries the cursor's id and none is older than the cursor's date,
    so the poll never returns. *)
Lemma check_while_never_returns_past_cursor (w : World.t)
    (store : Store.t) (c : option Z * option (option Z)) (fuel : nat) :
  (forall r, In r store -> test_value c (Some r) = Returned true) ->
  forall (n : nat) (r : Row) (st : Notification.State),
    In r store -> cursor st = c ->
    snd (Notification.check_while w store fuel n (Some r) st)
    <> Returned tt.
Proof.
  intros Hall. induction fuel as [|fuel IH]; intros n r st Hr Hc;
    rewrite check_while_step, Hc, (Hall r Hr).
  - discriminate.
  - destruct (World.parse_notification w _ (data r)) as [e|note];
      [discriminate|].
    destruct (send_frame w note (Notification.add_handed r st)) as [Hc2 _].
    destruct (Notification.send w note (Notification.add_handed r st))
      as [st2 [[]| |]]; cbn [fst] in Hc2; [|discriminate..].
    destruct (@get_notification_data_some store (n + 1)) as (r' & G).
    { intros E. rewrite E in Hr. exact Hr. }
    rewrite G. apply IH.
    + eapply get_notification_data_in; eauto.
    + rewrite Hc2. exact Hc.
Qed.

Lemma check_never_returns_past_cursor (w : World.t)
    (store : Store.t) (st : Notification.State) (fuel : nat) :
  store <> [] ->
  (forall r, In r store -> test_value (cursor st) (Some r) = Returned true) ->
  snd (Notification.check w fuel store st) <> Returned tt.
Proof.
  intros Hne Hall. rewrite check_unfold.
  destruct (@get_notification_data_some store 0 Hne) as (r & G). rewrite G.
  pose proof (@check_while_never_returns_past_cursor w store (cursor st)
                fuel Hall 0%nat r st
                (get_notification_data_in _ _ G) eq_refl) as H.
  destruct (Notification.check_while w store fuel 0 (Some r) st)
    as [st' [[]| |]]; simpl in *; congruence.
Qed.

(** With an older record left in the table the scan does stop at it:
    baseline on record 3, record 3 deleted, record 4 inserted, records 1 and
    2 still there. *)
Example check_stops_at_older_record :
  exists st',
    Notification.check Scenario.env 5 Scenario.store_124 Scenario.baseline_3
    = (st', Returned tt) /\
    Notification.handed st' = [Scenario.row 4 40] /\
    cursor st' = (Some 4%Z, Some (Some 40%Z)).
Proof.
  exists (fst (Notification.check Scenario.env 5 Scenario.store_124
                 Scenario.baseline_3)).
  repeat split.
Qed.

(** A poll of the empty table returns at once and changes nothing. *)
Lemma check_on_empty_store (w : World.t) (fuel : nat)
    (st : Notification.State) :
  Notification.check w fuel [] st = (st, Returned tt).
Proof. reflexivity. Qed.

(* ================================================================== *)
(** * Startup *)

(** What [setup] leaves behind: nothing dispatched, and the cursor on the
    id and the delivered date of the newest row, or unset on an empty table. *)
Lemma setup_state (args : argparse.Namespace) (startup : Store.t)
    (st : Notification.State) :
  Notification.setup args startup = Returned st ->
  Notification.handed st = [] /\
  Notification.posted st = [] /\
  cursor st =
  match Notification.get_notification_data startup 0 with
  | Some x => (Some (rec_id x), Some (delivered_date x))
  | None => (None, None)
  end.
Proof.
  unfold Notification.setup.
  destruct (argparse.version args); [discriminate|].
  destruct (Notification.validate_args args) as [args' [[]| |]];
    try discriminate.
  destruct (argparse.provider args') as [|name|]; try discriminate.
  destruct (dict_get PROVIDERS name) as [c|]; [|discriminate].
  intros H. injection H as <-.
  destruct (Notification.get_notification_data startup 0) as [x|];
    destruct (argparse.test args'), (argparse.silent args'); simpl;
    repeat split.
Qed.

(** C7, at the input the claim names: after [setup] on an empty table
    both cursor attributes are unassigned, and the first poll that finds a
    row in the table then reads the unassigned [last_id] and ends in an
    [AttributeError]: nothing is dispatched, the cursor stays unassigned, and
    the exception ends the scheduler. *)
Theorem check_raises_when_cursor_unset (env : Notification.Env) (fuel : nat)
    (args : argparse.Namespace) (st : Notification.State) (store : Store.t) :
  Notification.setup args [] = Returned st ->
  store <> [] ->
  cursor st = (None, None) /\
  Notification.check env fuel store st
  = (st, Raised (AttributeError "last_id")).
Proof.
  intros Hs Hne. apply setup_state in Hs. destruct Hs as (_ & _ & Hc).
  simpl in Hc. split; [exact Hc|].
  rewrite check_unfold.
  destruct (@get_notification_data_some store 0 Hne) as (r & G). rewrite G.
  rewrite check_while_unfold, Hc. reflexivity.
Qed.

Lemma check_raises_when_cursor_unset_witness :
  let st := Scenario.at_cursor None None in
  Notification.setup Scenario.prowl_args [] = Returned st /\
  Scenario.store_4 <> [] /\
  cursor st = (None, None) /\
  Notification.check Scenario.env 5 Scenario.store_4 st
  = (st, Raised (AttributeError "last_id")).
Proof.
  split; [reflexivity|]. split; [discriminate|].
  apply (@check_raises_when_cursor_unset Scenario.env 5 Scenario.prowl_args).
  - reflexivity.
  - discriminate.
Defined.

(* ================================================================== *)
(** * Records present at startup *)

Section Baseline.

Open Scope Z_scope.

Lemma dates_follow_ids_spec (store : Store.t) :
  dates_follow_ids store = true ->
  forall a b x y,
    In a store -> In b store -> rec_id a < rec_id b ->
    Notification.effective_date a = Some x ->
    Notification.effective_date b = Some y ->
    x < y.
Proof.
  unfold dates_follow_ids. rewrite forallb_forall.
  intros H a b x y Ha Hb Hlt Ex Ey.
  specialize (H a Ha). rewrite forallb_forall in H. specialize (H b Hb).
  apply Z.ltb_lt in Hlt. rewrite Hlt in H. simpl in H.
  unfold date_before in H. rewrite Ex, Ey in H. now apply Z.ltb_lt.
Qed.

Lemma same_record_spec (r r' : Row) :
  same_record r r' = true ->
  rec_id r = rec_id r' /\
  Notification.effective_date r = Notification.effective_date r'.
Proof.
  unfold same_record. intros H. apply andb_prop in H. destruct H as [H1 H2].
  apply Z.eqb_eq in H1. split; [exact H1|].
  destruct (Notification.effective_date r),
           (Notification.effective_date r'); try discriminate; auto.
  apply Z.eqb_eq in H2. now subst.
Qed.

Lemma survivors_spec (ids : list Z) (earlier later : Store.t) :
  survivors ids earlier later = true ->
  forall r, In r later -> In (rec_id r) ids ->
  exists r', In r' earlier /\ rec_id r = rec_id r' /\
             Notification.effective_date r = Notification.effective_date r'.
Proof.
  unfold survivors. rewrite forallb_forall. intros H r Hr Hid.
  specialize (H r Hr).
  assert (E : existsb (Z.eqb (rec_id r)) ids = true).
  { apply existsb_exists. exists (rec_id r). split; [exact Hid|].
    apply Z.eqb_refl. }
  rewrite E in H. simpl in H. apply existsb_exists in H.
  destruct H as (r' & Hr' & Hs). apply same_record_spec in Hs.
  exists r'. tauto.
Qed.

(** The loop test sees of a row its id and its effective date only. *)
Lemma test_value_same_record (c : option Z * option (option Z)) (r r' : Row) :
  rec_id r = rec_id r' ->
  Notification.effective_date r = Notification.effective_date r' ->
  test_value c (Some r) = test_value c (Some r').
Proof. unfold test_value. now intros -> ->. Qed.

(** Once the cursor sits on the row with the largest id, and dates follow
    ids, no row of the table passes the loop test. *)
Lemma no_row_passes_at_newest (store : Store.t) (x : Row) (stamp : option Z) :
  dates_follow_ids store = true ->
  In x store ->
  (forall r, In r store -> rec_id r <= rec_id x) ->
  (stamp = Notification.effective_date x \/ stamp = delivered_date x) ->
  forall r, In r store ->
    test_value (Some (rec_id x), Some stamp) (Some r) <> Returned true.
Proof.
  intros Hd Hx Hmax Hstamp r Hr T.
  apply test_value_true in T.
  destruct T as (lid & ld & d & E & Er & Hne & Hle).
  injection E as <- ->.
  assert (Ex : Notification.effective_date x = Some ld).
  { destruct Hstamp as [<-|Hs]; [reflexivity|].
    unfold Notification.effective_date. now rewrite <- Hs. }
  specialize (Hmax r Hr).
  assert (Hlt : rec_id r < rec_id x) by lia.
  pose proof (dates_follow_ids_spec _ Hd r x Hr Hx Hlt Er Ex). lia.
Qed.

Variable w : World.t.
Variable fuel : nat.
Variable ids : list Z.

Lemma check_keeps_settled (earlier store : Store.t)
    (st st' : Notification.State) (o : Py.outcome unit) :
  settled ids st earlier ->
  survivors ids earlier store = true ->
  dates_follow_ids store = true ->
  Notification.check w fuel store st = (st', o) ->
  (forall r, In r (Notification.handed st') -> ~ In (rec_id r) ids) /\
  (o = Returned tt -> settled ids st' store).
Proof.
  intros [Hh Ht] Hsurv Hd H.
  assert (Hh' : forall r, In r (Notification.handed st') ->
                          ~ In (rec_id r) ids).
  { destruct (check_hands_passing_rows _ _ _ _ H) as (news & Hn & Hall).
    intros r Hr Hid. rewrite Hn in Hr. apply in_app_or in Hr.
    destruct Hr as [Hr|Hr]; [exact (Hh r Hr Hid)|].
    rewrite Forall_forall in Hall. destruct (Hall r Hr) as [Hin T].
    destruct (survivors_spec _ _ _ Hsurv r Hin Hid) as (r' & Hr' & E1 & E2).
    apply (Ht r' Hr'); [now rewrite <- E1|].
    now rewrite <- (test_value_same_record _ r r' E1 E2). }
  split; [exact Hh'|].
  intros ->. split; [exact Hh'|].
  pose proof (@check_cursor_outcome w fuel store st _ _ H) as Hc.
  destruct (Notification.get_notification_data store 0) as [x|] eqn:G.
  - destruct Hc as (Hc & Hx & Hmax). rewrite Hc.
    intros r Hr _. eapply no_row_passes_at_newest; eauto.
  - intros r Hr. exfalso.
    destruct (@get_notification_data_some store 0) as (y & Gy);
      [intros E; now rewrite E in Hr | congruence].
Qed.

Lemma run_keeps_settled (ticks : list Store.t) :
  forall (earlier : Store.t) (st st' : Notification.State)
         (o : Py.outcome unit),
    settled ids st earlier ->
    history ids earlier ticks = true ->
    forallb dates_follow_ids ticks = true ->
    Notification.run w fuel ticks st = (st', o) ->
    forall r, In r (Notification.handed st') -> ~ In (rec_id r) ids.
Proof.
  induction ticks as [|store later IH]; intros earlier st st' o Hs Hh Hd H.
  - simpl in H. injection H as <- <-. exact (proj1 Hs).
  - simpl in Hh, Hd, H.
    apply andb_prop in Hh. destruct Hh as [Hsurv Hh].
    apply andb_prop in Hd. destruct Hd as [Hd Hds].
    unfold Py.bind in H.
    destruct (Notification.check w fuel store st) as [st1 o1] eqn:C.
    destruct (check_keeps_settled _ Hs Hsurv Hd C) as [Hh1 Hs1].
    destruct o1 as [[]| |].
    + exact (IH store st1 st' o (Hs1 eq_refl) Hh Hds H).
    + injection H as <- <-. exact Hh1.
    + injection H as <- <-. exact Hh1.
Qed.

End Baseline.

(** C5, the claim as stated fails: records 2 and 3 carry the same date;
    the program starts with records 1, 2, 3 in the table, record 3 is then
    dismissed, and the next poll dispatches record 2, which was in the table
    at startup. *)
Lemma startup_record_dispatched_on_tie :
  exists st',
    Scenario.store_tie <> [] /\
    Notification.main Scenario.env 5 Scenario.prowl_args Scenario.store_tie
      [Scenario.store_tie_less_3] = (Some st', Returned tt) /\
    Notification.handed st' = [Scenario.row 2 10] /\
    In (Scenario.row 2 10) Scenario.store_tie.
Proof.
  exists (fst (Notification.check Scenario.env 5 Scenario.store_tie_less_3
                 (Scenario.at_cursor (Some 3%Z) (Some (Some 10%Z))))).
  split; [discriminate|]. split; [reflexivity|]. split; [reflexivity|].
  simpl. auto.
Qed.

(** C5, amended: on a table that is not empty at startup, [setup] puts the
    cursor on the id and the delivered date of the row with the largest id.
    Provided that in the table, at startup and at every poll, the effective
    dates strictly increase with [rec_id], and that a row carrying the id of a
    startup row is at each poll a row that was there at the poll before with
    the same effective date (startup rows are deleted or left alone, and their
    ids are not used again), no row carrying the id of a startup row is ever
    handed to [send], however the polls end. *)
Theorem startup_records_never_dispatched (env : Notification.Env)
    (fuel : nat) (args : argparse.Namespace) (startup : Store.t)
    (ticks : list Store.t) (st0 st : Notification.State)
    (o : Py.outcome unit) :
  startup <> [] ->
  Notification.setup args startup = Returned st0 ->
  dates_follow_ids startup = true ->
  forallb dates_follow_ids ticks = true ->
  history (map rec_id startup) startup ticks = true ->
  Notification.run env fuel ticks st0 = (st, o) ->
  (exists x,
     In x startup /\
     (forall r, In r startup -> (rec_id r <= rec_id x)%Z) /\
     cursor st0 = (Some (rec_id x), Some (delivered_date x))) /\
  forall r, In r (Notification.handed st) ->
            ~ In (rec_id r) (map rec_id startup).
Proof.
  intros Hne Hs Hd Hds Hh Hr.
  apply setup_state in Hs. destruct Hs as (Hh0 & _ & Hc).
  destruct (@get_notification_data_some startup 0 Hne) as (x & G).
  rewrite G in Hc.
  pose proof (get_notification_data_in _ _ G) as Hx.
  pose proof (newest_is_largest _ G) as Hmax.
  split; [exists x; auto|].
  eapply run_keeps_settled; eauto.
  split.
  - rewrite Hh0. intros r [].
  - intros r Hin _. rewrite Hc.
    eapply no_row_passes_at_newest; eauto.
Qed.

Lemma startup_records_never_dispatched_witness :
  let st := fst (Notification.run Scenario.env 5 Scenario.ticks_after_123
                   Scenario.baseline_3) in
  Notification.handed st = [Scenario.row 4 40; Scenario.row 5 50] /\
  (exists x,
     In x Scenario.store_123 /\
     (forall r, In r Scenario.store_123 -> (rec_id r <= rec_id x)%Z) /\
     cursor Scenario.baseline_3 = (Some (rec_id x), Some (delivered_date x))) /\
  forall r, In r (Notification.handed st) ->
            ~ In (rec_id r) (map rec_id Scenario.store_123).
Proof.
  split; [reflexivity|].
  apply (@startup_records_never_dispatched Scenario.env 5 Scenario.prowl_args
           Scenario.store_123 Scenario.ticks_after_123 Scenario.baseline_3
           _ (Returned tt)).
  - discriminate.
  - reflexivity.
  - reflexivity.
  - reflexivity.
  - reflexivity.
  - reflexivity.
Defined.

(* ================================================================== *)
(** * Configuration *)

(** [validate_args], spelled out. *)
Lemma validate_args_eq (args : argparse.Namespace) :
  Notification.validate_args args =
  let name := settled_name (argparse.provider args) in
  let args' := argparse.set_provider (Str name) args in
  if (argparse.frequency args <=? 0)%Z
  then (args', Raised (Exception "frequency must be a positive integer."))
  else
    match dict_get PROVIDERS name with
    | Some c => (args', class_validate_args c args')
    | None => (args', Raised (KeyError name))
    end.
Proof.
  unfold Notification.validate_args, settled_name,
         Py.bind, Py.gets, Py.modify, Py.ret, Py.raise.
  destruct (argparse.provider args) as [|s|z] eqn:P;
    [ simpl; destruct (argparse.frequency args <=? 0)%Z; reflexivity
    | | simpl; destruct (argparse.frequency args <=? 0)%Z; reflexivity ].
  cbn -[dict_get]. rewrite P. cbn -[dict_get].
  destruct (dict_get PROVIDERS (Py.lower s)) as [c|] eqn:D; cbn -[dict_get];
    destruct (argparse.frequency args <=? 0)%Z; cbn -[dict_get]; rewrite ?D;
    reflexivity.
Qed.

Lemma class_validate_args_provider (c : provider_class) (p : Py.value)
    (args : argparse.Namespace) :
  class_validate_args c (argparse.set_provider p args)
  = class_validate_args c args.
Proof. destruct c; reflexivity. Qed.

Lemma class_call_provider (c : provider_class) (p : Py.value)
    (args : argparse.Namespace) :
  class_call c (argparse.set_provider p args) = class_call c args.
Proof. destruct c; reflexivity. Qed.

(** [setup] after the version flag: it fails exactly as the check of the
    chosen provider class fails, and otherwise builds an instance of it. *)
Lemma setup_outcome (args : argparse.Namespace) (startup : Store.t)
    (c : provider_class) :
  argparse.version args = false ->
  (0 < argparse.frequency args)%Z ->
  dict_get PROVIDERS (settled_name (argparse.provider args)) = Some c ->
  match class_validate_args c args with
  | Returned _ =>
      exists st0,
        Notification.setup args startup = Returned st0 /\
        Notification.PROVIDER st0 = class_call c args
  | Raised e => Notification.setup args startup = Raised e
  | OutOfFuel => Notification.setup args startup = OutOfFuel
  end.
Proof.
  intros Hv Hf D. unfold Notification.setup.
  rewrite Hv, validate_args_eq. cbv zeta.
  replace (argparse.frequency args <=? 0)%Z with false
    by (symmetry; apply Z.leb_gt; exact Hf).
  rewrite D, class_validate_args_provider.
  destruct (class_validate_args c args) as [[]| |]; try reflexivity.
  cbn -[dict_get Notification.get_notification_data]. rewrite D.
  eexists. split; [reflexivity|].
  destruct (Notification.get_notification_data startup 0),
           (argparse.test args), (argparse.silent args);
    cbn -[dict_get]; apply class_call_provider.
Qed.

Lemma main_raises (w : World.t) (fuel : nat)
    (args : argparse.Namespace) (startup : Store.t) (ticks : list Store.t)
    (e : Py.exn) :
  Notification.setup args startup = Raised e ->
  Notification.main w fuel args startup ticks = (None, Raised e).
Proof. unfold Notification.main. now intros ->. Qed.

(** C9: the credentials are checked by [setup], before the table is read
    and before the scheduler runs.  [PushOver.validate_args] raises a named
    error when the API key is missing and another when the user key is
    missing; [Prowl.validate_args] asks for the API key only.  With a
    provider name that selects PushOver and one of the two keys missing, and
    with one that selects Prowl and the API key missing, [main] ends in that
    error with no state built and no poll run; with the keys the selected
    class asks for, [setup] returns with an instance of that class, user key
    or not for Prowl. *)
Theorem credentials_checked_before_polling (env : Notification.Env)
    (fuel : nat) (args : argparse.Namespace) (startup : Store.t)
    (ticks : list Store.t) (s : string) :
  argparse.provider args = Str s ->
  argparse.version args = false ->
  (0 < argparse.frequency args)%Z ->
  PushOver.validate_args args =
    match argparse.api_key args, argparse.user_key args with
    | None, _ =>
        Raised (Exception "no API key specified. Is $NOTIFWD_API_KEY defined?")
    | Some _, None =>
        Raised (Exception "no USER key specified. Is $NOTIFWD_USER_KEY defined?")
    | Some _, Some _ => Returned tt
    end /\
  Prowl.validate_args args =
    match argparse.api_key args with
    | None =>
        Raised (Exception "no API key specified. Is $NOTIFWD_API_KEY defined?")
    | Some _ => Returned tt
    end /\
  match dict_get PROVIDERS (Py.lower s) with
  | Some PushOverClass =>
      match argparse.api_key args, argparse.user_key args with
      | None, _ =>
          Notification.main env fuel args startup ticks =
          (None, Raised (Exception
                   "no API key specified. Is $NOTIFWD_API_KEY defined?"))
      | Some _, None =>
          Notification.main env fuel args startup ticks =
          (None, Raised (Exception
                   "no USER key specified. Is $NOTIFWD_USER_KEY defined?"))
      | Some _, Some _ =>
          exists st0,
            Notification.setup args startup = Returned st0 /\
            Notification.PROVIDER st0 = PushOverInstance (PushOver.init args)
      end
  | _ =>
      match argparse.api_key args with
      | None =>
          Notification.main env fuel args startup ticks =
          (None, Raised (Exception
                   "no API key specified. Is $NOTIFWD_API_KEY defined?"))
      | Some _ =>
          exists st0,
            Notification.setup args startup = Returned st0 /\
            Notification.PROVIDER st0 = ProwlInstance (Prowl.init args)
      end
  end.
Proof.
  intros P Hv Hf.
  split; [unfold PushOver.validate_args;
          destruct (argparse.api_key args), (argparse.user_key args);
          reflexivity|].
  split; [unfold Prowl.validate_args;
          destruct (argparse.api_key args); reflexivity|].
  assert (Hc : exists c,
             dict_get PROVIDERS (settled_name (argparse.provider args)) = Some c
             /\ c = match dict_get PROVIDERS (Py.lower s) with
                    | Some PushOverClass => PushOverClass
                    | _ => ProwlClass
                    end).
  { rewrite P. unfold settled_name.
    destruct (dict_get PROVIDERS (Py.lower s)) as [[|]|] eqn:D.
    - exists ProwlClass. split; [exact D | reflexivity].
    - exists PushOverClass. split; [exact D | reflexivity].
    - exists ProwlClass. split; reflexivity. }
  destruct Hc as (c & D & Ec).
  pose proof (@setup_outcome args startup c Hv Hf D) as H.
  destruct (dict_get PROVIDERS (Py.lower s)) as [[|]|]; subst c;
    unfold class_validate_args, PushOver.validate_args,
           Prowl.validate_args in H;
    destruct (argparse.api_key args);
    try destruct (argparse.user_key args);
    try (apply main_raises; exact H); exact H.
Qed.

Lemma credentials_checked_before_polling_witness :
  let args := Scenario.args (Str "PushOver") (Some "k"%string) None in
  argparse.provider args = Str "PushOver" /\
  argparse.user_key args = None /\
  Notification.main Scenario.env 5 args Scenario.store_123
    [Scenario.store_123456] =
  (None, Raised (Exception
           "no USER key specified. Is $NOTIFWD_USER_KEY defined?")).
Proof.
  split; [reflexivity|]. split; [reflexivity|].
  pose proof (@credentials_checked_before_polling Scenario.env 5
                (Scenario.args (Str "PushOver") (Some "k"%string) None)
                Scenario.store_123 [Scenario.store_123456] "PushOver"
                eq_refl eq_refl eq_refl) as H.
  exact (proj2 (proj2 H)).
Defined.

(** Prowl with an API key and no user key is configured and polls. *)
Example prowl_needs_no_user_key :
  exists st,
    Notification.main Scenario.env 5 Scenario.prowl_args Scenario.store_123
      [Scenario.store_123456] = (Some st, Returned tt) /\
    Notification.PROVIDER st = ProwlInstance (Prowl.init Scenario.prowl_args) /\
    map rec_id (Notification.handed st) = [6; 5; 4]%Z.
Proof.
  exists (fst (Notification.check Scenario.env 5 Scenario.store_123456
                 Scenario.baseline_3)).
  repeat split.
Qed.

(** C10: a provider name that is absent, or not a string, or whose
    lower-case form is no key of [PROVIDERS], is replaced by ["default"],
    which the table maps to Prowl; [validate_args] then goes on as if Prowl had
    been asked for.  It raises for a frequency that is not positive or, on
    Prowl's check, for a missing API key, and never because of the name; and
    when [setup] returns, the provider it built is a Prowl instance. *)
Theorem unknown_provider_falls_back_to_prowl (args : argparse.Namespace)
    (startup : Store.t) :
  falls_back (argparse.provider args) ->
  Notification.validate_args args =
    (argparse.set_provider (Str "default") args,
     if (argparse.frequency args <=? 0)%Z
     then Raised (Exception "frequency must be a positive integer.")
     else Prowl.validate_args args) /\
  dict_get PROVIDERS "default" = Some ProwlClass /\
  match Notification.setup args startup with
  | Returned st0 =>
      Notification.PROVIDER st0 = ProwlInstance (Prowl.init args)
  | Raised e =>
      e = SystemExit \/
      e = Exception "frequency must be a positive integer." \/
      e = Exception "no API key specified. Is $NOTIFWD_API_KEY defined?"
  | OutOfFuel => False
  end.
Proof.
  intros Hfb.
  assert (Hn : settled_name (argparse.provider args) = "default"%string).
  { unfold settled_name, falls_back in *.
    destruct (argparse.provider args); try reflexivity. now rewrite Hfb. }
  split; [|split; [reflexivity|]].
  - rewrite validate_args_eq, Hn. cbv zeta.
    destruct (argparse.frequency args <=? 0)%Z; reflexivity.
  - destruct (argparse.version args) eqn:Hv.
    + unfold Notification.setup. rewrite Hv. now left.
    + destruct (argparse.frequency args <=? 0)%Z eqn:Hf.
      * unfold Notification.setup. rewrite Hv, validate_args_eq, Hf.
        right. now left.
      * apply Z.leb_gt in Hf.
        assert (D : dict_get PROVIDERS (settled_name (argparse.provider args))
                    = Some ProwlClass) by (rewrite Hn; reflexivity).
        pose proof (@setup_outcome args startup ProwlClass Hv Hf D) as H.
        unfold class_validate_args, Prowl.validate_args in H.
        destruct (argparse.api_key args).
        -- destruct H as (st0 & -> & Hp). exact Hp.
        -- rewrite H. right. now right.
Qed.

Lemma unknown_provider_falls_back_to_prowl_witness :
  let args := Scenario.args (Str "Growl") (Some "k"%string) None in
  falls_back (argparse.provider args) /\
  Notification.validate_args args =
    (argparse.set_provider (Str "default") args, Returned tt) /\
  Notification.setup args Scenario.store_123 = Returned Scenario.baseline_3.
Proof.
  split; [reflexivity|].
  pose proof (@unknown_provider_falls_back_to_prowl
                (Scenario.args (Str "Growl") (Some "k"%string) None)
                Scenario.store_123 eq_refl) as H.
  split; [exact (proj1 H) | reflexivity].
Defined.


(* ================================================================== *)
(** * Further properties of the store query *)

Lemma strongly_sorted_nth (l : list Row) :
  StronglySorted newer l ->
  forall i j a b, (i < j)%nat ->
    nth_error l i = Some a -> nth_error l j = Some b -> newer a b.
Proof.
  induction 1 as [|x l Hs IH Hx]; intros i j a b Hij Ha Hb.
  - destruct i; discriminate.
  - destruct j as [|j]; [lia|]. simpl in Hb. destruct i as [|i].
    + simpl in Ha. injection Ha as <-.
      rewrite Forall_forall in Hx. apply Hx.
      eapply nth_error_In; eauto.
    + simpl in Ha. eapply IH; [|exact Ha|exact Hb]. lia.
Qed.

Lemma get_notification_data_inside (store : Store.t) (n : nat) :
  primary_key store -> (n < List.length store)%nat ->
  Notification.get_notification_data store n
  = nth_error (order_by_rec_id_desc store) n.
Proof.
  intros Hk Hn. rewrite (get_notification_data_nth _ Hk).
  f_equal. lia.
Qed.

(** The offsets below the size of the table enumerate it: every row is
    returned at one of them, nothing else is, and a larger offset returns a
    row with a strictly smaller id, so no row is returned twice. *)
Theorem get_notification_data_enumerates (store : Store.t) :
  primary_key store ->
  (forall r, In r store <->
     exists n, (n < List.length store)%nat /\
               Notification.get_notification_data store n = Some r) /\
  (forall i j a b, (i < j)%nat -> (j < List.length store)%nat ->
     Notification.get_notification_data store i = Some a ->
     Notification.get_notification_data store j = Some b ->
     (rec_id b < rec_id a)%Z).
Proof.
  intros Hk. split.
  - intros r. split.
    + intros Hr.
      apply (Permutation_in _ (Permutation_sym (order_desc_perm store))) in Hr.
      apply In_nth_error in Hr. destruct Hr as (n & Hn).
      assert (Hlt : (n < List.length store)%nat).
      { rewrite <- (Permutation_length (order_desc_perm store)).
        apply nth_error_Some. congruence. }
      exists n. split; [exact Hlt|].
      now rewrite get_notification_data_inside.
    + intros (n & _ & Hn). eapply get_notification_data_in; eauto.
  - intros i j a b Hij Hj Ha Hb.
    rewrite get_notification_data_inside in Ha, Hb by (auto; lia).
    exact (strongly_sorted_nth (order_desc_strict Hk) Hij Ha Hb).
Qed.

Lemma get_notification_data_enumerates_witness :
  primary_key Scenario.store_123 /\
  (In (Scenario.row 2 20) Scenario.store_123 <->
   exists n, (n < List.length Scenario.store_123)%nat /\
             Notification.get_notification_data Scenario.store_123 n
             = Some (Scenario.row 2 20)).
Proof.
  split; [key_by_computation|].
  apply (@get_notification_data_enumerates Scenario.store_123).
  key_by_computation.
Defined.

(* ================================================================== *)
(** * Further properties of one poll *)

Section ForwardScan.

Variable env : Notification.Env.
Variable store : Store.t.

(** The loop run forward: [k] rows that pass the test and decode, then a
    row at which the test is not true. *)
Lemma check_while_runs (stop : Py.outcome bool) (k : nat) :
  forall (n fuel : nat) (st : Notification.State),
    primary_key store ->
    (n + k < List.length store)%nat ->
    (k <= fuel)%nat ->
    (forall i r, (n <= i < n + k)%nat ->
       nth_error (order_by_rec_id_desc store) i = Some r ->
       test_value (cursor st) (Some r) = Returned true /\
       forall j, exists note,
         Notification.parse_notification env j (data r) = inr note) ->
    test_value (cursor st) (nth_error (order_by_rec_id_desc store) (n + k))
    = stop ->
    stop <> Returned true ->
    exists st',
      Notification.check_while env store fuel n
        (nth_error (order_by_rec_id_desc store) n) st = (st', loop_end stop) /\
      cursor st' = cursor st /\
      Notification.handed st' =
      Notification.handed st ++
      firstn k (skipn n (order_by_rec_id_desc store)).
Proof.
  induction k as [|k IH]; intros n fuel st Hk Hlt Hfuel Hrows Hstop Hne.
  - rewrite Nat.add_0_r in Hstop.
    rewrite check_while_unfold, Hstop. exists st.
    simpl. rewrite app_nil_r.
    destruct stop as [[|]| |]; [congruence| | |]; auto.
  - destruct (nth_error (order_by_rec_id_desc store) n) as [r|] eqn:Er.
    2:{ apply nth_error_None in Er.
        rewrite (Permutation_length (order_desc_perm store)) in Er. lia. }
    destruct (Hrows n r) as [T Hparse]; [lia|exact Er|].
    rewrite check_while_unfold, T.
    destruct fuel as [|fuel]; [lia|].
    destruct (Hparse (List.length (Notification.posted st))) as (note & P).
    rewrite P.
    destruct (send_returns env note (Notification.add_handed r st))
      as (st2 & Hs & Hc & Hh & _).
    rewrite Hs, get_notification_data_inside by (auto; lia).
    destruct (IH (n + 1)%nat fuel st2) as (st' & Hw & Hc' & Hh');
      [exact Hk|lia|lia| | |exact Hne|].
    + intros i r' Hi Hr'. rewrite Hc.
      change (cursor (Notification.add_handed r st)) with (cursor st).
      apply (Hrows i r'); [lia|exact Hr'].
    + rewrite Hc.
      change (cursor (Notification.add_handed r st)) with (cursor st).
      now replace (n + 1 + k)%nat with (n + S k)%nat by lia.
    + exists st'. split; [exact Hw|]. split; [now rewrite Hc', Hc|].
      rewrite Hh', Hh. simpl Notification.handed.
      rewrite <- app_assoc. f_equal.
      rewrite (skipn_nth_cons _ _ Er).
      replace (n + 1)%nat with (S n) by lia. reflexivity.
Qed.

End ForwardScan.

(** In descending order, the rows above the id of a row are the rows
    before it. *)
Lemma rows_above_are_prefix (l : list Row) :
  StronglySorted newer l ->
  forall (k : nat) (c : Row),
    nth_error l k = Some c ->
    filter (fun r => (rec_id c <? rec_id r)%Z) l = firstn k l.
Proof.
  induction 1 as [|x l Hs IH Hx]; intros k c Hc.
  - destruct k; discriminate.
  - rewrite Forall_forall in Hx. destruct k as [|k]; simpl in Hc.
    + injection Hc as ->. simpl. rewrite Z.ltb_irrefl.
      apply filter_none. rewrite Forall_forall. intros y Hy.
      specialize (Hx y Hy). unfold newer in Hx. apply Z.ltb_ge. lia.
    + assert (Hin : In c l) by (eapply nth_error_In; eauto).
      specialize (Hx c Hin). unfold newer in Hx.
      apply Z.ltb_lt in Hx. simpl. rewrite Hx. f_equal. now apply IH.
Qed.




(** Whatever the table and however the poll ends, each row it hands to
    [send] is a row of the table that is not the row the cursor designates
    and is dated no earlier than the cursor; with the cursor unset, or with
    no date in it, nothing is handed over at all. *)
Theorem check_dispatches_only_past_cursor (env : Notification.Env)
    (fuel : nat) (store : Store.t) (st st' : Notification.State)
    (o : Py.outcome unit) :
  Notification.check env fuel store st = (st', o) ->
  exists news,
    Notification.handed st' = Notification.handed st ++ news /\
    forall r, In r news ->
      In r store /\
      exists lid ld d,
        cursor st = (Some lid, Some (Some ld)) /\
        Notification.effective_date r = Some d /\
        rec_id r <> lid /\ (ld <= d)%Z.
Proof.
  intros H. destruct (check_hands_passing_rows _ _ _ _ H) as (news & Hn & Hall).
  exists news. split; [exact Hn|].
  rewrite Forall_forall in Hall. intros r Hr.
  destruct (Hall r Hr) as [Hin T]. split; [exact Hin|].
  now apply test_value_true.
Qed.

Lemma check_dispatches_only_past_cursor_witness :
  exists news,
    Notification.handed
      (fst (Notification.check Scenario.env 5 Scenario.store_124
              Scenario.baseline_3))
    = Notification.handed Scenario.baseline_3 ++ news /\
    forall r, In r news ->
      In r Scenario.store_124 /\
      exists lid ld d,
        cursor Scenario.baseline_3 = (Some lid, Some (Some ld)) /\
        Notification.effective_date r = Some d /\
        rec_id r <> lid /\ (ld <= d)%Z.
Proof.
  apply (@check_dispatches_only_past_cursor Scenario.env 5 Scenario.store_124
           Scenario.baseline_3 _ (Returned tt)).
  reflexivity.
Defined.

(* ================================================================== *)
(** * Answers of the provider *)

Lemma announcement_send_lines (quiet : bool) (self : Notification.t)
    (o : list Notification.Line) (req : requests.Request)
    (response : requests.Response) :
  announcement quiet self = inr o ->
  o ++ failure_lines [(req, response)] = send_lines quiet self response.
Proof.
  intros E. apply announcement_lines in E. subst o.
  unfold send_lines, failure_lines. simpl. now rewrite app_nil_r.
Qed.

(** One dispatch that is announced and answered: [send] returns, whatever
    the status of the answer. *)
Lemma send_answered (w : World.t) (self : Notification.t)
    (st : Notification.State) (response : requests.Response) :
  announced (Notification.SILENT st) self ->
  World.requests_post w (List.length (Notification.posted st))
    (request_for w (Notification.PROVIDER st) self) = inr response ->
  Notification.send w self st =
  (extend [] [(request_for w (Notification.PROVIDER st) self, response)]
     (send_lines (Notification.SILENT st) self response) st,
   Returned tt).
Proof.
  intros Ha Hp. rewrite send_eq.
  apply announcement_announced in Ha. destruct Ha as (o & Ea).
  rewrite Ea. cbv zeta. rewrite Hp.
  now rewrite (@announcement_send_lines _ _ _ _ response Ea).
Qed.

Lemma extend_after_send (r : Row) (x : requests.Request * requests.Response)
    (l : list Notification.Line) (h : list Row)
    (p : list (requests.Request * requests.Response))
    (o : list Notification.Line) (st : Notification.State) :
  extend h p o (extend [] [x] l (Notification.add_handed r st))
  = extend (r :: h) (x :: p) (l ++ o) st.
Proof.
  unfold extend, Notification.add_handed. simpl.
  now rewrite ?app_nil_r, <- ?app_assoc.
Qed.

Section Answers.

Variable w : World.t.
Variable store : Store.t.

(** The loop run forward in any world: [k] rows that pass the test, decode,
    can be announced and are answered, then a row at which the test is not
    true. *)
Lemma check_while_dispatches (stop : Py.outcome bool) (k : nat) :
  forall (n fuel : nat) (st : Notification.State),
    primary_key store ->
    (n + k < List.length store)%nat ->
    (k <= fuel)%nat ->
    (forall i r, (n <= i < n + k)%nat ->
       nth_error (order_by_rec_id_desc store) i = Some r ->
       test_value (cursor st) (Some r) = Returned true /\
       forall j, exists note response,
         World.parse_notification w j (data r) = inr note /\
         announced (Notification.SILENT st) note /\
         World.requests_post w j
           (request_for w (Notification.PROVIDER st) note) = inr response) ->
    test_value (cursor st) (nth_error (order_by_rec_id_desc store) (n + k))
    = stop ->
    stop <> Returned true ->
    exists sent,
      Notification.check_while w store fuel n
        (nth_error (order_by_rec_id_desc store) n) st
      = (extend (firstn k (skipn n (order_by_rec_id_desc store)))
           (exchanges w (Notification.PROVIDER st) sent)
           (dispatch_lines (Notification.SILENT st) sent) st,
         loop_end stop) /\
      Forall2 (dispatched w (Notification.PROVIDER st))
        (firstn k (skipn n (order_by_rec_id_desc store))) sent.
Proof.
  induction k as [|k IH]; intros n fuel st Hk Hlt Hfuel Hrows Hstop Hne.
  - rewrite Nat.add_0_r in Hstop.
    rewrite check_while_step, Hstop. exists [].
    simpl. rewrite extend_nothing. split; [|constructor].
    destruct stop as [[|]| |]; [congruence| | |]; auto.
  - destruct (nth_error (order_by_rec_id_desc store) n) as [r|] eqn:Er.
    2:{ apply nth_error_None in Er.
        rewrite (Permutation_length (order_desc_perm store)) in Er. lia. }
    destruct (Hrows n r) as [T Hparse]; [lia|exact Er|].
    rewrite check_while_step, T.
    destruct fuel as [|fuel]; [lia|].
    destruct (Hparse (List.length (Notification.posted st)))
      as (note & response & P & A & Q).
    rewrite P.
    pose (x := (request_for w (Notification.PROVIDER st) note, response)).
    pose (st2 := extend [] [x]
                   (send_lines (Notification.SILENT st) note response)
                   (Notification.add_handed r st)).
    assert (Hsend : Notification.send w note (Notification.add_handed r st)
                    = (st2, Returned tt))
      by exact (@send_answered w note (Notification.add_handed r st)
                  response A Q).
    rewrite Hsend, get_notification_data_inside by (auto; lia).
    destruct (IH (n + 1)%nat fuel st2) as (sent & Hw & Hf);
      [exact Hk|lia|lia| | |exact Hne|].
    + intros i r' Hi Hr'.
      change (cursor st2) with (cursor st).
      change (Notification.SILENT st2) with (Notification.SILENT st).
      change (Notification.PROVIDER st2) with (Notification.PROVIDER st).
      apply (Hrows i r'); [lia|exact Hr'].
    + change (cursor st2) with (cursor st).
      now replace (n + 1 + k)%nat with (n + S k)%nat by lia.
    + change (Notification.SILENT st2) with (Notification.SILENT st) in Hw.
      change (Notification.PROVIDER st2) with (Notification.PROVIDER st) in Hw, Hf.
      exists ((note, response) :: sent).
      rewrite (skipn_nth_cons _ _ Er). cbn [firstn].
      replace (n + 1)%nat with (S n) in Hw, Hf by lia.
      split.
      * replace (n + 1)%nat with (S n) by lia.
        rewrite Hw. unfold st2. rewrite extend_after_send. reflexivity.
      * constructor; [|exact Hf].
        exists (List.length (Notification.posted st)). auto.
Qed.

(** The poll when the row under the cursor is still in the table and
    every newer row is dispatched without an exception. *)
Lemma check_dispatches_answered (fuel : nat) (st : Notification.State)
    (lid ld : Z) (c : Row) :
  primary_key store ->
  cursor st = (Some lid, Some (Some ld)) ->
  In c store -> rec_id c = lid ->
  (forall r, In r store -> (lid < rec_id r)%Z ->
     exists d, Notification.effective_date r = Some d /\ (ld <= d)%Z) ->
  (forall r j, In r store -> (lid < rec_id r)%Z ->
     exists note response,
       World.parse_notification w j (data r) = inr note /\
       announced (Notification.SILENT st) note /\
       World.requests_post w j
         (request_for w (Notification.PROVIDER st) note) = inr response) ->
  (List.length (rows_after lid store) <= fuel)%nat ->
  exists x sent,
    Notification.get_notification_data store 0 = Some x /\
    Notification.check w fuel store st
    = (Notification.set_last_date (Notification.effective_date x)
         (Notification.set_last_id (rec_id x)
            (extend (rows_after lid store)
               (exchanges w (Notification.PROVIDER st) sent)
               (dispatch_lines (Notification.SILENT st) sent) st)),
       Returned tt) /\
    Forall2 (dispatched w (Notification.PROVIDER st))
      (rows_after lid store) sent.
Proof.
  intros Hk Hcur Hc Hid Hdates Hparse Hfuel.
  pose proof (order_desc_strict Hk) as Hs.
  pose proof (order_desc_perm store) as Hp.
  assert (Hc' : In c (order_by_rec_id_desc store))
    by (eapply Permutation_in; [apply Permutation_sym, Hp | exact Hc]).
  apply In_nth_error in Hc'. destruct Hc' as (k & Ek).
  assert (Hlt : (k < List.length store)%nat).
  { rewrite <- (Permutation_length Hp). apply nth_error_Some. congruence. }
  assert (Hrows : rows_after lid store = firstn k (order_by_rec_id_desc store)).
  { unfold rows_after. rewrite <- Hid. now apply rows_above_are_prefix. }
  assert (Hlen : List.length (rows_after lid store) = k).
  { rewrite Hrows, length_firstn, (Permutation_length Hp). lia. }
  destruct (@check_while_dispatches (Returned false) k 0%nat fuel st Hk)
    as (sent & Hw & Hf); [lia|lia| | |discriminate|].
  - intros i r Hi Er.
    assert (Hik : (i < k)%nat) by lia.
    pose proof (@strongly_sorted_nth _ Hs i k r c Hik Er Ek) as Hnew.
    unfold newer in Hnew.
    assert (Hin : In r store).
    { eapply Permutation_in; [exact Hp|]. eapply nth_error_In; eauto. }
    split.
    + rewrite Hcur. apply test_value_true.
      destruct (Hdates r Hin) as (d & Ed & Hle); [lia|].
      exists lid, ld, d. repeat split; auto. lia.
    + intros j. apply Hparse; [exact Hin | lia].
  - simpl. rewrite Ek, Hcur. unfold test_value. simpl.
    rewrite Hid, Z.eqb_refl. reflexivity.
  - rewrite check_unfold.
    rewrite get_notification_data_inside by (auto; lia).
    destruct (nth_error (order_by_rec_id_desc store) 0) as [x|] eqn:E0.
    2:{ apply nth_error_None in E0. rewrite (Permutation_length Hp) in E0. lia. }
    simpl skipn in Hw, Hf. rewrite <- Hrows in Hw, Hf. rewrite Hw.
    exists x, sent. simpl. auto.
Qed.

(** A poll on a table whose newest row the cursor designates returns at
    once and changes nothing. *)
Lemma check_again (fuel : nat) (st : Notification.State) (x : Row) :
  Notification.get_notification_data store 0 = Some x ->
  cursor st = (Some (rec_id x), Some (Notification.effective_date x)) ->
  Notification.check w fuel store st = (st, Returned tt).
Proof.
  intros G Hc. rewrite check_unfold, G, check_while_step, Hc.
  unfold test_value. simpl. rewrite Z.eqb_refl. simpl.
  destruct st. unfold cursor in Hc. simpl in Hc.
  injection Hc as -> ->. reflexivity.
Qed.

End Answers.

(** The provider's answers do not steer the loop: under any other answers
    it ends the same way, with the same cursor and the same rows dispatched. *)
Lemma check_while_any_answers (w : World.t)
    (post post' : nat -> requests.Request -> requests.Response)
    (store : Store.t) (fuel : nat) :
  forall (n : nat) (sql_data : option Row) (st1 st2 : Notification.State),
    same_progress st1 st2 ->
    snd (Notification.check_while (answered w post) store fuel n sql_data st1)
    = snd (Notification.check_while (answered w post') store fuel n
             sql_data st2) /\
    same_progress
      (fst (Notification.check_while (answered w post) store fuel n
              sql_data st1))
      (fst (Notification.check_while (answered w post') store fuel n
              sql_data st2)).
Proof.
  induction fuel as [|fuel IH]; intros n sql_data st1 st2 Hp;
    pose proof Hp as (Hg & Hc & Hh & Hl);
    rewrite !check_while_step, <- Hc;
    destruct (test_value (cursor st1) sql_data) as [[|]| |]; simpl; auto.
  destruct sql_data as [r|]; simpl; auto.
  rewrite <- Hl.
  destruct (World.parse_notification w (List.length (Notification.posted st1))
              (data r)) as [e|note]; simpl; auto.
  assert (Hs : Notification.SILENT st1 = Notification.SILENT st2)
    by (unfold configuration in Hg; congruence).
  assert (Hpr : Notification.PROVIDER st1 = Notification.PROVIDER st2)
    by (unfold configuration in Hg; congruence).
  assert (Hp' : same_progress (Notification.add_handed r st1)
                  (Notification.add_handed r st2)).
  { unfold same_progress, configuration, cursor in *. simpl.
    rewrite Hh. repeat split; try tauto; congruence. }
  rewrite !send_eq.
  change (Notification.SILENT (Notification.add_handed r st1))
    with (Notification.SILENT st1).
  change (Notification.SILENT (Notification.add_handed r st2))
    with (Notification.SILENT st2).
  rewrite <- Hs.
  destruct (announcement (Notification.SILENT st1) note) as [e|o];
    simpl; auto.
  apply IH.
  unfold same_progress, configuration, cursor in *. simpl.
  rewrite !length_app, Hh, Hl. simpl.
  repeat split; try tauto; congruence.
Qed.

Lemma check_any_answers (w : World.t)
    (post post' : nat -> requests.Request -> requests.Response)
    (fuel : nat) (store : Store.t) (st : Notification.State) :
  snd (Notification.check (answered w post) fuel store st)
  = snd (Notification.check (answered w post') fuel store st) /\
  same_progress (fst (Notification.check (answered w post) fuel store st))
                (fst (Notification.check (answered w post') fuel store st)).
Proof.
  rewrite !check_unfold.
  destruct (Notification.get_notification_data store 0) as [r|].
  - assert (Hp : same_progress st st) by (repeat split).
    destruct (check_while_any_answers w post post' store fuel 0 (Some r) Hp)
      as [Ho Hs].
    destruct (Notification.check_while (answered w post) store fuel 0
                (Some r) st) as [a oa];
    destruct (Notification.check_while (answered w post') store fuel 0
                (Some r) st) as [b ob].
    simpl in Ho, Hs. subst ob.
    destruct oa as [[]| |]; simpl; split; auto.
    destruct Hs as (Hg & _ & Hh & Hl).
    unfold same_progress, configuration, cursor in *. simpl.
    repeat split; try tauto; congruence.
  - simpl. repeat split.
Qed.

(** C8: a dispatch that gets an answer does not fail, whatever the status
    of the answer.  First, [send] with an instance it can announce returns:
    it keeps the form with the answer and prints, besides the announcement,
    nothing for status 200 and one line with status, reason and body for any
    other status; cursor and settings stay.  Second, the answers do not steer
    the poll: with any other answers, all of them failures for instance, it
    ends the same way with the same cursor and the same rows dispatched.
    Third, the loop goes on after a failed delivery and the cursor moves past
    it: when the row under the cursor is still in the table and the newer
    rows are dated no earlier, decode and can be announced, the poll returns
    whatever the statuses, has dispatched every newer row once, newest first,
    has kept one form and printed the lines of each dispatch, leaves the
    cursor on the newest row, and a further poll on the same table changes
    nothing, so no row is sent again. *)
Theorem failed_delivery_is_not_fatal (w : World.t)
    (post post' : nat -> requests.Request -> requests.Response)
    (fuel : nat) (store : Store.t) (st : Notification.State) :
  (forall self : Notification.t,
     announced (Notification.SILENT st) self ->
     let req := request_for w (Notification.PROVIDER st) self in
     let response := post (List.length (Notification.posted st)) req in
     exists st',
       Notification.send (answered w post) self st = (st', Returned tt) /\
       configuration st' = configuration st /\
       cursor st' = cursor st /\
       Notification.handed st' = Notification.handed st /\
       Notification.posted st' = Notification.posted st ++ [(req, response)] /\
       Notification.stdout st' =
       Notification.stdout st ++
       (if Notification.SILENT st then []
        else [Notification.SendingFrom (Notification.TextOf self)]) ++
       (if (requests.status_code response =? 200)%Z then []
        else [Notification.UnexpectedStatus (requests.status_code response)
                (requests.reason response) (requests.text response)])) /\
  (snd (Notification.check (answered w post) fuel store st)
   = snd (Notification.check (answered w post') fuel store st) /\
   same_progress (fst (Notification.check (answered w post) fuel store st))
                 (fst (Notification.check (answered w post') fuel store st))) /\
  (forall (lid ld : Z) (c : Row),
     primary_key store ->
     cursor st = (Some lid, Some (Some ld)) ->
     In c store -> rec_id c = lid ->
     (forall r, In r store -> (lid < rec_id r)%Z ->
        exists d, Notification.effective_date r = Some d /\ (ld <= d)%Z) ->
     (forall r j, In r store -> (lid < rec_id r)%Z ->
        exists note,
          World.parse_notification w j (data r) = inr note /\
          announced (Notification.SILENT st) note) ->
     (List.length (rows_after lid store) <= fuel)%nat ->
     exists st' x sent,
       Notification.check (answered w post) fuel store st
       = (st', Returned tt) /\
       Notification.handed st' =
       Notification.handed st ++ rows_after lid store /\
       Notification.get_notification_data store 0 = Some x /\
       cursor st' = (Some (rec_id x), Some (Notification.effective_date x)) /\
       Forall2 (fun r s =>
                  exists j,
                    World.parse_notification w j (data r) = inr (fst s) /\
                    snd s = post j (request_for w (Notification.PROVIDER st)
                                      (fst s)))
         (rows_after lid store) sent /\
       Notification.posted st' =
       Notification.posted st ++
       exchanges w (Notification.PROVIDER st) sent /\
       Notification.stdout st' =
       Notification.stdout st ++
       dispatch_lines (Notification.SILENT st) sent /\
       forall fuel',
         Notification.check (answered w post) fuel' store st'
         = (st', Returned tt)).
Proof.
  split; [|split; [apply check_any_answers|]].
  - intros self Ha req response.
    exists (extend [] [(req, response)]
              (send_lines (Notification.SILENT st) self response) st).
    split.
    + now apply (@send_answered (answered w post) self st response).
    + unfold extend, configuration, cursor, send_lines. simpl.
      rewrite app_nil_r. repeat split; reflexivity.
  - intros lid ld c Hk Hcur Hc Hid Hdates Hparse Hfuel.
    destruct (@check_dispatches_answered (answered w post) store fuel st
                lid ld c Hk Hcur Hc Hid Hdates)
      as (x & sent & G & Hcheck & Hf); [|exact Hfuel|].
    + intros r j Hr Hlt. destruct (Hparse r j Hr Hlt) as (note & P & A).
      exists note,
        (post j (request_for w (Notification.PROVIDER st) note)).
      auto.
    + eexists _, x, sent. split; [exact Hcheck|].
      split; [reflexivity|]. split; [exact G|].
      split; [reflexivity|]. split.
      * eapply Forall2_impl; [|exact Hf].
        intros r s (j & P & Q). exists j. split; [exact P|].
        simpl in Q. now injection Q.
      * split; [reflexivity|]. split; [reflexivity|].
        intros fuel'. now apply (@check_again _ _ fuel' _ x).
Qed.

(** The provider refuses every form while [SILENT] is off: the poll
    returns, the three new records are each announced, posted once and
    answered 401, and the cursor ends on record 6. *)
Lemma failed_delivery_is_not_fatal_witness :
  exists st' x sent,
    Notification.check (answered Scenario.env Scenario.refusing) 3
      Scenario.store_123456 Cases.announcing_3 = (st', Returned tt) /\
    Notification.handed st' =
    Notification.handed Cases.announcing_3 ++
    rows_after 3 Scenario.store_123456 /\
    Notification.get_notification_data Scenario.store_123456 0 = Some x /\
    cursor st' = (Some (rec_id x), Some (Notification.effective_date x)) /\
    Forall2 (fun r s =>
               exists j,
                 World.parse_notification Scenario.env j (data r)
                 = inr (fst s) /\
                 snd s = Scenario.refusing j
                           (request_for Scenario.env
                              (Notification.PROVIDER Cases.announcing_3)
                              (fst s)))
      (rows_after 3 Scenario.store_123456) sent /\
    Notification.posted st' =
    Notification.posted Cases.announcing_3 ++
    exchanges Scenario.env (Notification.PROVIDER Cases.announcing_3) sent /\
    Notification.stdout st' =
    Notification.stdout Cases.announcing_3 ++
    dispatch_lines (Notification.SILENT Cases.announcing_3) sent /\
    forall fuel',
      Notification.check (answered Scenario.env Scenario.refusing) fuel'
        Scenario.store_123456 st' = (st', Returned tt).
Proof.
  apply (proj2 (proj2 (@failed_delivery_is_not_fatal Scenario.env
                         Scenario.refusing Scenario.refusing 3
                         Scenario.store_123456 Cases.announcing_3))
           3%Z 30%Z (Scenario.row 3 30)).
  - key_by_computation.
  - reflexivity.
  - right. right. left. reflexivity.
  - reflexivity.
  - intros r Hr Hlt. simpl in Hr.
    repeat (destruct Hr as [<-|Hr];
            [unfold Scenario.row in *; simpl in *;
             first [lia | eexists; split; [reflexivity|lia]]|]).
    destruct Hr.
  - intros r j _ _. exists (Notification.instance Scenario.note).
    split; [reflexivity|].
    right. eexists. reflexivity.
  - vm_compute. lia.
Defined.

(** The same poll, evaluated: each record is announced and its refusal is
    printed after it, and nothing stops the loop. *)
Example check_with_refusing_provider :
  let r := Notification.check (answered Scenario.env Scenario.refusing) 5
             Scenario.store_123456 Cases.announcing_3 in
  snd r = Returned tt /\
  cursor (fst r) = (Some 6%Z, Some (Some 60%Z)) /\
  map rec_id (Notification.handed (fst r)) = [6; 5; 4]%Z /\
  List.length (Notification.posted (fst r)) = 3%nat /\
  Notification.stdout (fst r)
  = List.concat (repeat
      [Notification.SendingFrom (Notification.TextOf Scenario.note);
       Notification.UnexpectedStatus 401 "Unauthorized" "bad key"] 3).
Proof. repeat split. Qed.

(* ================================================================== *)
(** * A run of polls on a table that only grows *)








Section GrowingRun.

Variable env : Notification.Env.
Variable fuel : nat.


End GrowingRun.



(** The same run, evaluated: record 4 at the second poll, then 6 and 5. *)
Example run_on_growing_table_evaluated :
  map rec_id
    (Notification.handed
       (fst (Notification.run Scenario.env 6 Cases.growing_ticks
               Scenario.baseline_3)))
  = [4; 6; 5]%Z.
Proof. reflexivity. Qed.

(* ================================================================== *)
(** * Rows without a date *)

(** When the backward scan reaches a row that has neither date (and is not
    the row the cursor designates), the poll ends in a [TypeError]: the rows
    scanned before it have been handed to [send], and the cursor has not
    moved. *)
Theorem check_raises_at_undated_row (env : Notification.Env) (fuel : nat)
    (store : Store.t) (st : Notification.State) (lid ld : Z)
    (k : nat) (r : Row) :
  primary_key store ->
  cursor st = (Some lid, Some (Some ld)) ->
  nth_error (order_by_rec_id_desc store) k = Some r ->
  Notification.effective_date r = None ->
  rec_id r <> lid ->
  (forall i r', (i < k)%nat ->
     nth_error (order_by_rec_id_desc store) i = Some r' ->
     rec_id r' <> lid /\
     (exists d, Notification.effective_date r' = Some d /\ (ld <= d)%Z) /\
     forall j, exists note,
       Notification.parse_notification env j (data r') = inr note) ->
  (k <= fuel)%nat ->
  exists st' msg,
    Notification.check env fuel store st = (st', Raised (TypeError msg)) /\
    Notification.handed st' =
    Notification.handed st ++ firstn k (order_by_rec_id_desc store) /\
    cursor st' = cursor st.
Proof.
  intros Hk Hcur Er Enone Hne Hrows Hfuel.
  pose proof (order_desc_perm store) as Hp.
  assert (Hlt : (k < List.length store)%nat).
  { rewrite <- (Permutation_length Hp). apply nth_error_Some. congruence. }
  destruct (@check_while_runs env store
              (Raised (TypeError "'>=' not supported")) k 0%nat fuel st Hk)
    as (st1 & Hw & Hc1 & Hh1); [lia|lia| | |discriminate|].
  - intros i r' Hi Er'. destruct (Hrows i r') as (Hid & (d & Ed & Hle) & Hparse);
      [lia|exact Er'|].
    split; [|exact Hparse].
    rewrite Hcur. apply test_value_true. exists lid, ld, d. auto.
  - simpl. rewrite Er, Hcur. unfold test_value. simpl.
    apply Z.eqb_neq in Hne. rewrite Hne, Enone. reflexivity.
  - rewrite check_unfold.
    rewrite get_notification_data_inside by (auto; lia).
    destruct (nth_error (order_by_rec_id_desc store) 0) as [x|] eqn:E0.
    2:{ apply nth_error_None in E0. rewrite (Permutation_length Hp) in E0. lia. }
    rewrite Hw. simpl. exists st1, "'>=' not supported"%string.
    simpl in Hh1. auto.
Qed.

Lemma check_raises_at_undated_row_witness :
  let store := [Scenario.row 3 30; Cases.undated 4; Scenario.row 5 50] in
  exists st' msg,
    Notification.check Scenario.env 5 store Scenario.baseline_3
    = (st', Raised (TypeError msg)) /\
    Notification.handed st' =
    Notification.handed Scenario.baseline_3 ++
    firstn 1 (order_by_rec_id_desc store) /\
    cursor st' = cursor Scenario.baseline_3.
Proof.
  apply (@check_raises_at_undated_row Scenario.env 5
           [Scenario.row 3 30; Cases.undated 4; Scenario.row 5 50]
           Scenario.baseline_3 3 30 1 (Cases.undated 4)).
  - key_by_computation.
  - reflexivity.
  - reflexivity.
  - reflexivity.
  - discriminate.
  - intros i r' Hi Er'. destruct i as [|i]; [|lia].
    vm_compute in Er'. injection Er' as <-.
    split; [discriminate|]. split.
    + exists 50%Z. split; [reflexivity|lia].
    + intros j. now exists Scenario.note.
  - lia.
Defined.

(** [setup] takes the cursor date from the delivered date alone, while
    [check] falls back on the request date.  So when the newest row at startup
    was requested but has no delivered date, the cursor date is [None], and
    the first poll that finds another row on top of the table ends in a
    [TypeError] with nothing dispatched and the cursor as it was. *)
Theorem check_raises_after_undelivered_baseline (env : Notification.Env)
    (fuel : nat) (args : argparse.Namespace) (startup store : Store.t)
    (st0 : Notification.State) (x r : Row) :
  Notification.setup args startup = Returned st0 ->
  Notification.get_notification_data startup 0 = Some x ->
  delivered_date x = None ->
  Notification.get_notification_data store 0 = Some r ->
  rec_id r <> rec_id x ->
  cursor st0 = (Some (rec_id x), Some None) /\
  exists msg,
    Notification.check env fuel store st0 = (st0, Raised (TypeError msg)).
Proof.
  intros Hs Gx Ed Gr Hne.
  apply setup_state in Hs. destruct Hs as (_ & _ & Hc).
  rewrite Gx, Ed in Hc. split; [exact Hc|].
  rewrite check_unfold, Gr, check_while_unfold, Hc.
  unfold test_value. simpl. apply Z.eqb_neq in Hne. rewrite Hne. simpl.
  destruct (Notification.effective_date r); eexists; reflexivity.
Qed.

Lemma check_raises_after_undelivered_baseline_witness :
  let st0 := Scenario.at_cursor (Some 3%Z) (Some None) in
  Notification.effective_date (Cases.requested 3 30) = Some 30%Z /\
  cursor st0 = (Some 3%Z, Some None) /\
  exists msg,
    Notification.check Scenario.env 5 Cases.store_12r34 st0
    = (st0, Raised (TypeError msg)).
Proof.
  split; [reflexivity|].
  apply (@check_raises_after_undelivered_baseline Scenario.env 5
           Scenario.prowl_args Cases.store_12r3 Cases.store_12r34
           (Scenario.at_cursor (Some 3%Z) (Some None))
           (Cases.requested 3 30) (Scenario.row 4 40)).
  - reflexivity.
  - reflexivity.
  - reflexivity.
  - reflexivity.
  - discriminate.
Defined.

(* ================================================================== *)
(** * Further properties of the configuration *)

Lemma settled_name_is_key (p : Py.value) :
  exists c, dict_get PROVIDERS (settled_name p) = Some c.
Proof.
  destruct p as [|s|z]; cbn -[dict_get]; try (now exists ProwlClass).
  destruct (dict_get PROVIDERS (Py.lower s)) as [c|] eqn:D.
  - now exists c.
  - now exists ProwlClass.
Qed.

(** The outcomes of [setup], case by case. *)
Lemma setup_cases (args : argparse.Namespace) (store : Store.t) :
  match Notification.setup args store with
  | Returned st =>
      argparse.version args = false /\
      Notification.FREQ st = argparse.frequency args /\
      (0 < Notification.FREQ st)%Z /\
      Notification.SILENT st = argparse.silent args /\
      Notification.TEST st = argparse.test args /\
      Notification.handed st = [] /\
      Notification.posted st = [] /\
      match Notification.PROVIDER st with
      | ProwlInstance p =>
          p = Prowl.init args /\ argparse.api_key args <> None
      | PushOverInstance p =>
          p = PushOver.init args /\
          argparse.api_key args <> None /\ argparse.user_key args <> None
      end
  | Raised e =>
      (argparse.version args = true /\ e = SystemExit) \/
      (argparse.version args = false /\
       (argparse.frequency args <= 0)%Z /\
       e = Exception "frequency must be a positive integer.") \/
      (argparse.version args = false /\
       (0 < argparse.frequency args)%Z /\
       argparse.api_key args = None /\
       e = Exception "no API key specified. Is $NOTIFWD_API_KEY defined?") \/
      (argparse.version args = false /\
       (0 < argparse.frequency args)%Z /\
       argparse.user_key args = None /\
       e = Exception "no USER key specified. Is $NOTIFWD_USER_KEY defined?")
  | OutOfFuel => False
  end.
Proof.
  unfold Notification.setup.
  destruct (argparse.version args) eqn:Hv; [now left|].
  rewrite validate_args_eq. cbv zeta.
  destruct (argparse.frequency args <=? 0)%Z eqn:Hf.
  { apply Z.leb_le in Hf. right. left. auto. }
  apply Z.leb_gt in Hf.
  destruct (settled_name_is_key (argparse.provider args)) as (c & D).
  rewrite D, class_validate_args_provider.
  destruct c; unfold class_validate_args, Prowl.validate_args,
                     PushOver.validate_args;
    destruct (argparse.api_key args) as [k|] eqn:Ek;
    try (right; right; left; now auto);
    try destruct (argparse.user_key args) as [u|] eqn:Eu;
    try (right; right; right; now auto);
    cbn -[dict_get Notification.get_notification_data]; rewrite D;
    destruct (Notification.get_notification_data store 0),
             (argparse.test args), (argparse.silent args);
    cbn -[dict_get]; unfold Prowl.init, PushOver.init; simpl;
    rewrite ?Ek, ?Eu; repeat split; auto; discriminate.
Qed.

(** All the ways the configuration in [setup] can end (opening the
    database is outside the model).  It raises [SystemExit] exactly when the
    version flag is set, whatever else is wrong; otherwise the frequency is
    checked before the credentials; and these are its only exceptions: no
    provider name makes the lookup in [PROVIDERS] fail.  When it returns, the
    frequency it keeps is positive, nothing has been dispatched, and the
    provider it built carries the keys of the command line, none missing. *)
Theorem setup_outcomes (args : argparse.Namespace) (store : Store.t) :
  match Notification.setup args store with
  | Returned st =>
      argparse.version args = false /\
      Notification.FREQ st = argparse.frequency args /\
      (0 < Notification.FREQ st)%Z /\
      Notification.SILENT st = argparse.silent args /\
      Notification.TEST st = argparse.test args /\
      Notification.handed st = [] /\
      Notification.posted st = [] /\
      match Notification.PROVIDER st with
      | ProwlInstance p =>
          p = Prowl.init args /\ argparse.api_key args <> None
      | PushOverInstance p =>
          p = PushOver.init args /\
          argparse.api_key args <> None /\ argparse.user_key args <> None
      end
  | Raised e =>
      (argparse.version args = true /\ e = SystemExit) \/
      (argparse.version args = false /\
       (argparse.frequency args <= 0)%Z /\
       e = Exception "frequency must be a positive integer.") \/
      (argparse.version args = false /\
       (0 < argparse.frequency args)%Z /\
       argparse.api_key args = None /\
       e = Exception "no API key specified. Is $NOTIFWD_API_KEY defined?") \/
      (argparse.version args = false /\
       (0 < argparse.frequency args)%Z /\
       argparse.user_key args = None /\
       e = Exception "no USER key specified. Is $NOTIFWD_USER_KEY defined?")
  | OutOfFuel => False
  end.
Proof. apply setup_cases. Qed.

(** Provider names are compared without regard to case: two names with
    the same lower-case form lead [validate_args] to the same provider name
    and the same outcome. *)
Theorem validate_args_ignores_case (args : argparse.Namespace)
    (s s' : string) :
  argparse.provider args = Str s ->
  Py.lower s = Py.lower s' ->
  Notification.validate_args (argparse.set_provider (Str s') args)
  = Notification.validate_args args.
Proof.
  intros P E. rewrite !validate_args_eq. cbn -[dict_get settled_name].
  rewrite P. unfold settled_name. rewrite E. reflexivity.
Qed.

Lemma validate_args_ignores_case_witness :
  let args := Scenario.args (Str "PushOver") (Some "k"%string)
                (Some "u"%string) in
  Notification.validate_args (argparse.set_provider (Str "PUSHOVER") args)
  = Notification.validate_args args /\
  argparse.provider (fst (Notification.validate_args args)) = Str "pushover".
Proof.
  split; [|reflexivity].
  apply (@validate_args_ignores_case
           (Scenario.args (Str "PushOver") (Some "k"%string) (Some "u"%string))
           "PushOver" "PUSHOVER"); reflexivity.
Defined.

(* ================================================================== *)
(** * What a poll leaves behind *)

Section Effects.

Variable w : World.t.

Lemma failure_lines_app (p q : list (requests.Request * requests.Response)) :
  failure_lines (p ++ q) = failure_lines p ++ failure_lines q.
Proof. unfold failure_lines. apply flat_map_app. Qed.

(** What the loop does to the state, however it ends.  It appends and
    changes nothing else.  The rows it has handed to [send] are rows whose
    form was posted and answered, in the same order, followed by at most one
    more row: the one at which [send] raised, in [__str__] or in
    [requests.post], before an answer was kept. *)
Lemma check_while_effect (store : Store.t) (fuel : nat) :
  forall (n : nat) (sql_data : option Row) (st : Notification.State),
    exists h tail sent o,
      fst (Notification.check_while w store fuel n sql_data st)
      = extend (h ++ tail) (exchanges w (Notification.PROVIDER st) sent) o st /\
      Forall2 (dispatched w (Notification.PROVIDER st)) h sent /\
      (Notification.SILENT st = true ->
       o = failure_lines (exchanges w (Notification.PROVIDER st) sent)) /\
      (tail = [] \/
       exists r note j e,
         tail = [r] /\
         snd (Notification.check_while w store fuel n sql_data st) = Raised e /\
         World.parse_notification w j (data r) = inr note /\
         (announcement (Notification.SILENT st) note = inl e \/
          World.requests_post w j
            (request_for w (Notification.PROVIDER st) note) = inl e)).
Proof.
  induction fuel as [|fuel IH]; intros n sql_data st;
    rewrite check_while_step;
    destruct (test_value (cursor st) sql_data) as [[|]| |];
    try (exists [], [], [], []; simpl; rewrite extend_nothing;
         split; [reflexivity|]; split; [constructor|];
         split; [reflexivity|now left]).
  destruct sql_data as [r|];
    [|exists [], [], [], []; simpl; rewrite extend_nothing;
      split; [reflexivity|]; split; [constructor|];
      split; [reflexivity|now left]].
  destruct (World.parse_notification w
              (List.length (Notification.posted st)) (data r))
    as [e|note] eqn:P;
    [exists [], [], [], []; simpl; rewrite extend_nothing;
     split; [reflexivity|]; split; [constructor|];
     split; [reflexivity|now left]|].
  rewrite send_eq.
  change (Notification.SILENT (Notification.add_handed r st))
    with (Notification.SILENT st).
  change (Notification.PROVIDER (Notification.add_handed r st))
    with (Notification.PROVIDER st).
  change (Notification.posted (Notification.add_handed r st))
    with (Notification.posted st).
  destruct (announcement (Notification.SILENT st) note) as [e|o1] eqn:A.
  - exists [], [r], [], []. simpl.
    split; [apply extend_add_handed|]. split; [constructor|].
    split; [reflexivity|]. right.
    exists r, note, (List.length (Notification.posted st)), e. auto.
  - cbv zeta.
    destruct (World.requests_post w (List.length (Notification.posted st))
                (request_for w (Notification.PROVIDER st) note))
      as [e|response] eqn:Q.
    + exists [], [r], [], o1. simpl.
      split; [now rewrite extend_add_handed, extend_extend|].
      split; [constructor|]. split.
      * intros Es. apply announcement_lines in A. now rewrite Es in A.
      * right.
        exists r, note, (List.length (Notification.posted st)), e. auto.
    + set (x := (request_for w (Notification.PROVIDER st) note, response)).
      set (st2 := extend [] [x] (o1 ++ failure_lines [x])
                    (Notification.add_handed r st)).
      destruct (IH (n + 1)%nat
                  (Notification.get_notification_data store (n + 1)) st2)
        as (h & tail & sent & o & Hst & Hf & Hsil & Htail).
      change (Notification.PROVIDER st2) with (Notification.PROVIDER st)
        in Hst, Hf, Hsil, Htail.
      change (Notification.SILENT st2) with (Notification.SILENT st)
        in Hsil, Htail.
      exists (r :: h), tail, ((note, response) :: sent),
             ((o1 ++ failure_lines [x]) ++ o).
      split; [|split; [|split]].
      * cbn [fst]. rewrite Hst. unfold st2.
        now rewrite extend_after_send.
      * constructor; [|exact Hf].
        exists (List.length (Notification.posted st)). auto.
      * intros Es. rewrite (Hsil Es).
        apply announcement_lines in A. rewrite Es in A. subst o1.
        cbn [exchanges map fst snd]. fold x.
        change (x :: map (fun y => (request_for w (Notification.PROVIDER st)
                                      (fst y), snd y)) sent)
          with ([x] ++ exchanges w (Notification.PROVIDER st) sent).
        now rewrite failure_lines_app.
      * cbn [snd]. exact Htail.
Qed.

(** The same for a whole poll. *)
Lemma check_effect (fuel : nat) (store : Store.t) (st : Notification.State) :
  let r := Notification.check w fuel store st in
  configuration (fst r) = configuration st /\
  exists h tail sent o,
    Notification.handed (fst r) = Notification.handed st ++ h ++ tail /\
    Notification.posted (fst r) =
    Notification.posted st ++ exchanges w (Notification.PROVIDER st) sent /\
    Notification.stdout (fst r) = Notification.stdout st ++ o /\
    Forall2 (dispatched w (Notification.PROVIDER st)) h sent /\
    (Notification.SILENT st = true ->
     o = failure_lines (exchanges w (Notification.PROVIDER st) sent)) /\
    (tail = [] \/
     exists x note j e,
       tail = [x] /\
       snd r = Raised e /\
       World.parse_notification w j (data x) = inr note /\
       (announcement (Notification.SILENT st) note = inl e \/
        World.requests_post w j
          (request_for w (Notification.PROVIDER st) note) = inl e)).
Proof.
  cbv zeta. rewrite check_unfold.
  destruct (Notification.get_notification_data store 0) as [r|].
  - destruct (check_while_effect store fuel 0 (Some r) st)
      as (h & tail & sent & o & Hst & Hf & Hsil & Htail).
    destruct (Notification.check_while w store fuel 0 (Some r) st)
      as [st1 o1].
    cbn [fst snd] in Hst, Htail. subst st1.
    assert (Hlast : tail = [] \/
       exists x note j e,
         tail = [x] /\
         snd (match o1 with
              | Returned _ =>
                  (Notification.set_last_date (Notification.effective_date r)
                     (Notification.set_last_id (rec_id r)
                        (extend (h ++ tail)
                           (exchanges w (Notification.PROVIDER st) sent) o st)),
                   Returned tt)
              | Raised e0 =>
                  (extend (h ++ tail)
                     (exchanges w (Notification.PROVIDER st) sent) o st,
                   Raised e0)
              | OutOfFuel =>
                  (extend (h ++ tail)
                     (exchanges w (Notification.PROVIDER st) sent) o st,
                   OutOfFuel)
              end) = Raised e /\
         World.parse_notification w j (data x) = inr note /\
         (announcement (Notification.SILENT st) note = inl e \/
          World.requests_post w j
            (request_for w (Notification.PROVIDER st) note) = inl e)).
    { destruct Htail as [->|(x & note & j & e & -> & -> & Hrest)];
        [now left|right].
      exists x, note, j, e. auto. }
    destruct o1 as [[]| |]; cbn [fst];
      (split; [reflexivity|]); exists h, tail, sent, o;
      repeat (split; [first [reflexivity | assumption]|]); exact Hlast.
  - cbn [fst snd]. split; [reflexivity|].
    exists [], [], [], []. simpl. rewrite !app_nil_r.
    repeat (split; [first [reflexivity | constructor]|]).
    now left.
Qed.

End Effects.

(** A poll never touches the configuration: the frequency, the two
    flags and the provider are after it what they were before.  It only
    appends to what was dispatched and posted.  The forms posted and answered
    are, in order, the forms of the rows handed to [send], each built for the
    configured provider from the instance decoded from its row, one per row;
    only the last row handed over can lack one, and then the poll ended in
    the exception that its dispatch raised, in [__str__] while [SILENT] is
    off or in [requests.post]. *)
Theorem check_posts_one_form_per_row (w : World.t) (fuel : nat)
    (store : Store.t) (st : Notification.State) :
  let r := Notification.check w fuel store st in
  Notification.FREQ (fst r) = Notification.FREQ st /\
  Notification.SILENT (fst r) = Notification.SILENT st /\
  Notification.TEST (fst r) = Notification.TEST st /\
  Notification.PROVIDER (fst r) = Notification.PROVIDER st /\
  exists h tail sent,
    Notification.handed (fst r) = Notification.handed st ++ h ++ tail /\
    Notification.posted (fst r) =
    Notification.posted st ++ exchanges w (Notification.PROVIDER st) sent /\
    Forall2 (fun x s =>
               exists j,
                 World.parse_notification w j (data x) = inr (fst s) /\
                 World.requests_post w j
                   (request_for w (Notification.PROVIDER st) (fst s))
                 = inr (snd s)) h sent /\
    (tail = [] \/
     exists x note j e,
       tail = [x] /\
       snd r = Raised e /\
       World.parse_notification w j (data x) = inr note /\
       ((Notification.SILENT st = false /\
         Notification.__str__ note = inl e) \/
        World.requests_post w j
          (request_for w (Notification.PROVIDER st) note) = inl e)).
Proof.
  cbv zeta.
  destruct (check_effect w fuel store st)
    as (Hc & h & tail & sent & o & Hh & Hp & _ & Hf & _ & Htail).
  unfold configuration in Hc. injection Hc as Hfreq Hsil Htest Hprov.
  repeat (split; [assumption|]). exists h, tail, sent.
  split; [exact Hh|]. split; [exact Hp|]. split; [exact Hf|].
  destruct Htail as [->|(x & note & j & e & -> & Ho & P & [A|Q])];
    [now left|right|right]; exists x, note, j, e;
    repeat (split; [first [reflexivity | assumption]|]); [left|now right].
  unfold announcement in A.
  destruct (Notification.SILENT st); [discriminate|].
  split; [reflexivity|].
  destruct (Notification.__str__ note); [congruence|discriminate].
Qed.

(** A title that is a number while [SILENT] is off: record 4 is handed to
    [send], [__str__] raises, no form is posted and the cursor stays. *)
Example check_raises_on_numeric_title :
  let r := Notification.check Cases.numbered_world 5 Cases.store_1234
             Cases.announcing_3 in
  Payload.parse_notification Cases.numbered_host [] = inr Cases.numbered /\
  snd r = Raised (AttributeError "strip") /\
  Notification.handed (fst r) = [Scenario.row 4 40] /\
  Notification.posted (fst r) = [] /\
  Notification.stdout (fst r) = [] /\
  cursor (fst r) = (Some 3%Z, Some (Some 30%Z)).
Proof. repeat split. Qed.

(** The same title in silent mode: [__str__] is not called, and the number
    is posted as the event. *)
Example check_posts_numeric_title_when_silent :
  let r := Notification.check Cases.numbered_world 5 Cases.store_1234
             Scenario.baseline_3 in
  snd r = Returned tt /\
  Notification.handed (fst r) = [Scenario.row 4 40] /\
  map (fun x => dict_get (requests.form (fst x)) "event")
    (Notification.posted (fst r))
  = [Some (Some (plistlib.PInteger 5))] /\
  cursor (fst r) = (Some 4%Z, Some (Some 40%Z)).
Proof. repeat split. Qed.

(** A provider that cannot be reached: [requests.post] raises, the poll
    ends in that exception with record 4 handed over and no answer kept, and
    the cursor stays. *)
Example check_raises_when_provider_unreachable :
  let r := Notification.check Cases.unreachable 5 Cases.store_1234
             Scenario.baseline_3 in
  snd r = Raised (ConnectionError "connection refused") /\
  Notification.handed (fst r) = [Scenario.row 4 40] /\
  Notification.posted (fst r) = [] /\
  cursor (fst r) = (Some 3%Z, Some (Some 30%Z)).
Proof. repeat split. Qed.

(** In silent mode a poll prints nothing but one line for each answer of
    the provider whose status is not 200, in the order of the answers. *)
Theorem check_silent_prints_failures_only (env : Notification.Env)
    (fuel : nat) (store : Store.t) (st : Notification.State) :
  Notification.SILENT st = true ->
  let st' := fst (Notification.check env fuel store st) in
  exists p,
    Notification.posted st' = Notification.posted st ++ p /\
    Notification.stdout st' = Notification.stdout st ++ failure_lines p.
Proof.
  intros Es. cbv zeta.
  destruct (check_effect env fuel store st)
    as (_ & h & tail & sent & o & _ & Hpo & Hso & _ & Hsil & _).
  eexists. split; [exact Hpo|]. rewrite <- (Hsil Es). exact Hso.
Qed.

Lemma check_silent_prints_failures_only_witness :
  let st' := fst (Notification.check
                    (with_post Scenario.env Scenario.refusing) 5
                    Scenario.store_123456 Scenario.baseline_3) in
  Notification.SILENT Scenario.baseline_3 = true /\
  Notification.stdout st' =
  repeat (Notification.UnexpectedStatus 401 "Unauthorized" "bad key") 3 /\
  exists p,
    Notification.posted st' = Notification.posted Scenario.baseline_3 ++ p /\
    Notification.stdout st' =
    Notification.stdout Scenario.baseline_3 ++ failure_lines p.
Proof.
  split; [reflexivity|]. split; [reflexivity|].
  apply (@check_silent_prints_failures_only
           (with_post Scenario.env Scenario.refusing) 5
           Scenario.store_123456 Scenario.baseline_3).
  reflexivity.
Defined.

(** Over a run the provider stays the one [setup] built, and every form
    posted is a form of that provider. *)
Lemma run_effect (w : World.t) (fuel : nat) (ticks : list Store.t) :
  forall st,
    let st' := fst (Notification.run w fuel ticks st) in
    Notification.PROVIDER st' = Notification.PROVIDER st /\
    exists p,
      Notification.posted st' = Notification.posted st ++ p /\
      forall x, In x p ->
        exists note, fst x = request_for w (Notification.PROVIDER st) note.
Proof.
  induction ticks as [|store later IH]; intros st; cbv zeta.
  - simpl. split; [reflexivity|]. exists []. rewrite app_nil_r.
    split; [reflexivity | contradiction].
  - simpl. unfold Py.bind.
    destruct (check_effect w fuel store st)
      as (Hc & h & tail & sent & o & _ & Hpo & _).
    assert (Hp : Notification.PROVIDER
                   (fst (Notification.check w fuel store st))
                 = Notification.PROVIDER st)
      by (unfold configuration in Hc; congruence).
    assert (Hforms : forall x,
              In x (exchanges w (Notification.PROVIDER st) sent) ->
              exists note,
                fst x = request_for w (Notification.PROVIDER st) note).
    { intros x Hx. unfold exchanges in Hx. apply in_map_iff in Hx.
      destruct Hx as (y & <- & _). now exists (fst y). }
    destruct (Notification.check w fuel store st) as [st1 [[]| |]];
      simpl fst in *;
      try (split; [exact Hp|]; eexists; split; [exact Hpo | exact Hforms]).
    specialize (IH st1). cbv zeta in IH.
    destruct (Notification.run w fuel later st1) as [st' o'].
    simpl fst in *. destruct IH as (Hp' & q & Hq & Hforms').
    split; [congruence|].
    exists (exchanges w (Notification.PROVIDER st) sent ++ q). split.
    + now rewrite Hq, Hpo, app_assoc.
    + intros x Hx. apply in_app_or in Hx. destruct Hx as [Hx|Hx].
      * now apply Hforms.
      * rewrite <- Hp. now apply Hforms'.
Qed.

(** What [setup] builds when it returns: an instance of the class that
    [PROVIDERS] holds under the settled name, whose check of the arguments
    has passed. *)
Lemma setup_provider (args : argparse.Namespace) (startup : Store.t)
    (st0 : Notification.State) :
  Notification.setup args startup = Returned st0 ->
  exists c,
    dict_get PROVIDERS (settled_name (argparse.provider args)) = Some c /\
    class_validate_args c args = Returned tt /\
    Notification.PROVIDER st0 = class_call c args /\
    Notification.posted st0 = [].
Proof.
  intros Hs.
  pose proof (setup_cases args startup) as Hc. rewrite Hs in Hc.
  destruct Hc as (Hv & Hfr & Hpos & _ & _ & _ & Hp0 & _).
  destruct (settled_name_is_key (argparse.provider args)) as (c & D).
  exists c. split; [exact D|].
  rewrite Hfr in Hpos.
  pose proof (@setup_outcome args startup c Hv Hpos D) as Ho.
  destruct (class_validate_args c args) as [[]| |];
    [|congruence|congruence].
  destruct Ho as (st0' & Hs' & Hp). rewrite Hs in Hs'. injection Hs' as <-.
  auto.
Qed.

(** Every form the program posts during a run goes to the endpoint
    of the class that [PROVIDERS] holds under the provider name settled at
    startup, and carries the keys that [setup] checked for that class: to the
    Prowl endpoint with the API key when that class is Prowl, to the PushOver
    endpoint with the API key as token and the user key when it is PushOver;
    never to another endpoint and never with a missing key. *)
Theorem forms_carry_checked_credentials (w : World.t)
    (fuel : nat) (args : argparse.Namespace) (startup : Store.t)
    (ticks : list Store.t) (st : Notification.State) (o : Py.outcome unit)
    (req : requests.Request) (response : requests.Response) :
  Notification.main w fuel args startup ticks = (Some st, o) ->
  In (req, response) (Notification.posted st) ->
  match dict_get PROVIDERS (settled_name (argparse.provider args)) with
  | Some ProwlClass =>
      requests.url req = "https://api.prowlapp.com/publicapi/add"%string /\
      exists k,
        argparse.api_key args = Some k /\
        dict_get (requests.form req) "apikey"
        = Some (Some (plistlib.PString k))
  | Some PushOverClass =>
      requests.url req = "https://api.pushover.net/1/messages.json"%string /\
      exists k u,
        argparse.api_key args = Some k /\
        argparse.user_key args = Some u /\
        dict_get (requests.form req) "token"
        = Some (Some (plistlib.PString k)) /\
        dict_get (requests.form req) "user"
        = Some (Some (plistlib.PString u))
  | None => False
  end.
Proof.
  unfold Notification.main. intros Hm Hin.
  destruct (Notification.setup args startup) as [st0| |] eqn:Hs;
    try discriminate.
  destruct (setup_provider _ _ Hs) as (c & D & Hv & Hprov & Hp0).
  pose proof (run_effect w fuel ticks st0) as Hr. cbv zeta in Hr.
  destruct (Notification.run w fuel ticks st0) as [st' o'].
  injection Hm as -> ->. simpl fst in Hr.
  destruct Hr as (_ & p & Hp & Hforms).
  rewrite Hp0 in Hp. simpl in Hp. subst p.
  destruct (Hforms _ Hin) as (note & E). simpl in E. subst req.
  rewrite D, Hprov.
  destruct c; unfold class_validate_args, Prowl.validate_args,
                     PushOver.validate_args in Hv.
  - split; [reflexivity|].
    destruct (argparse.api_key args) as [k|] eqn:Ek; [|discriminate].
    exists k. split; [reflexivity|]. unfold request_for. simpl.
    now rewrite Ek.
  - split; [reflexivity|].
    destruct (argparse.api_key args) as [k|] eqn:Ek; [|discriminate].
    destruct (argparse.user_key args) as [u|] eqn:Eu; [|discriminate].
    exists k, u. split; [reflexivity|]. split; [reflexivity|].
    unfold request_for. simpl. now rewrite Ek, Eu.
Qed.

Lemma forms_carry_checked_credentials_witness :
  let args := Scenario.args (Str "PushOver") (Some "k"%string)
                (Some "u"%string) in
  let r := Notification.main Scenario.env 5 args Scenario.store_123
             [Cases.store_1234] in
  (exists st, fst r = Some st /\
     map (fun x => requests.url (fst x)) (Notification.posted st)
     = ["https://api.pushover.net/1/messages.json"%string]) /\
  forall st req response,
    fst r = Some st ->
    In (req, response) (Notification.posted st) ->
    requests.url req = "https://api.pushover.net/1/messages.json"%string /\
    exists k u,
      argparse.api_key args = Some k /\
      argparse.user_key args = Some u /\
      dict_get (requests.form req) "token"
      = Some (Some (plistlib.PString k)) /\
      dict_get (requests.form req) "user"
      = Some (Some (plistlib.PString u)).
Proof.
  cbv zeta. split.
  - eexists. split; reflexivity.
  - intros st req response Hst Hin.
    apply (@forms_carry_checked_credentials Scenario.env 5
             (Scenario.args (Str "PushOver") (Some "k"%string)
                (Some "u"%string))
             Scenario.store_123 [Cases.store_1234] st (Returned tt)
             req response).
    + vm_compute in Hst. injection Hst as <-. vm_compute. reflexivity.
    + exact Hin.
Defined.

(* ================================================================== *)
(** * Decoding a payload *)

Lemma dict_get_absent (V : Type) (d : list (string * V)) (name : string) :
  ~ In name (map fst d) -> dict_get d name = None.
Proof.
  induction d as [|[k v] d IH]; simpl; intros H; [reflexivity|].
  destruct (String.eqb_spec k name) as [->|N].
  - exfalso. apply H. now left.
  - apply IH. intros Hin. apply H. now right.
Qed.

Lemma dict_get_present (V : Type) (d : list (string * V)) (name : string)
    (v : V) :
  dict_get d name = Some v -> In name (map fst d).
Proof.
  induction d as [|[k w] d IH]; simpl; [discriminate|].
  destruct (String.eqb_spec k name) as [->|N]; [now left|].
  intros H. right. now apply IH.
Qed.

Lemma dict_get_other (V : Type) (d : list (string * V)) (k name : string)
    (v : V) :
  k <> name -> dict_get ((k, v) :: d) name = dict_get d name.
Proof.
  intros N. simpl. destruct (String.eqb_spec k name); [contradiction|].
  reflexivity.
Qed.

Section PayloadFacts.

Import plistlib.
Import Payload.

Variable F : Type.
Variable host : Host F.

(** Under distinct keys the walk over the items of ["req"] sets what the
    three keys hold. *)
Lemma req_items_by_key (sub : list (string * value F)) :
  NoDup (map fst sub) ->
  forall this, req_items host sub this = req_by_key host sub this.
Proof.
  induction sub as [|[k v] rest IH]; intros Hnd this; [reflexivity|].
  simpl in Hnd. apply NoDup_cons_iff in Hnd. destruct Hnd as [Hk Hnd].
  cbn [req_items]. unfold req_by_key.
  destruct (String.eqb_spec k "titl") as [->|N1];
    [|destruct (String.eqb_spec k "subt") as [->|N2];
      [|destruct (String.eqb_spec k "body") as [->|N3]]].
  - cbn [String.eqb Ascii.eqb Bool.eqb]. rewrite (IH Hnd). unfold req_by_key.
    rewrite (dict_get_absent _ _ Hk).
    cbn -[set_title set_subtitle set_body or_empty].
    reflexivity.
  - cbn [String.eqb Ascii.eqb Bool.eqb]. rewrite (IH Hnd). unfold req_by_key.
    rewrite (dict_get_absent _ _ Hk).
    cbn -[set_title set_subtitle set_body or_empty].
    destruct (dict_get rest "titl"), (dict_get rest "body"); reflexivity.
  - cbn [String.eqb Ascii.eqb Bool.eqb]. rewrite (IH Hnd). unfold req_by_key.
    rewrite (dict_get_absent _ _ Hk).
    cbn -[set_title set_subtitle set_body or_empty].
    destruct (dict_get rest "titl"), (dict_get rest "subt"); reflexivity.
  - rewrite (IH Hnd). unfold req_by_key.
    rewrite !dict_get_other by assumption. reflexivity.
Qed.

(** The fields set under one key are not touched under another. *)
Lemma req_by_key_set_app (sub : list (string * value F)) (name : string)
    (i : value F) (this : t F) :
  req_by_key host sub (set_app name (set_identifier i this))
  = set_app name (set_identifier i (req_by_key host sub this)).
Proof.
  unfold req_by_key.
  destruct (dict_get sub "titl"), (dict_get sub "subt"), (dict_get sub "body");
    reflexivity.
Qed.

Lemma req_by_key_set_date (sub : list (string * value F)) (a x : F)
    (this : t F) :
  req_by_key host sub (set_ago a (set_date x this))
  = set_ago a (set_date x (req_by_key host sub this)).
Proof.
  unfold req_by_key.
  destruct (dict_get sub "titl"), (dict_get sub "subt"), (dict_get sub "body");
    reflexivity.
Qed.

(** Under distinct keys the walk over the items of the payload returns
    what the three keys hold, in whatever order they come and whatever other
    keys there are. *)
Lemma data_items_by_key (items : list (string * value F)) :
  NoDup (map fst items) ->
  (forall sub, dict_get items "req" = Some (PDict sub) ->
               NoDup (map fst sub)) ->
  forall this0 this,
    data_items host items this0 = inr this <->
    data_by_key host items this0 = inr this.
Proof.
  induction items as [|[k v] rest IH]; intros Hnd Hsub this0 this;
    [reflexivity|].
  simpl in Hnd. apply NoDup_cons_iff in Hnd. destruct Hnd as [Hk Hnd].
  assert (Hsub' : forall sub, dict_get rest "req" = Some (PDict sub) ->
                              NoDup (map fst sub)).
  { intros sub E. apply Hsub.
    rewrite dict_get_other; [exact E|].
    intros ->. apply Hk. eapply dict_get_present; eauto. }
  specialize (IH Hnd Hsub').
  cbn [data_items]. unfold data_by_key, app_by_key, date_by_key,
                           req_part_by_key.
  destruct (String.eqb_spec k "app") as [->|N1];
    [|destruct (String.eqb_spec k "date") as [->|N2];
      [|destruct (String.eqb_spec k "req") as [->|N3]]].
  - cbn [dict_get String.eqb Ascii.eqb Bool.eqb].
    destruct (lookup_display_name host v) as [e|name];
      [split; discriminate|].
    rewrite IH. unfold data_by_key, app_by_key, date_by_key, req_part_by_key.
    rewrite (dict_get_absent _ _ Hk). reflexivity.
  - cbn [dict_get String.eqb Ascii.eqb Bool.eqb].
    destruct (to_float host v) as [e|x].
    + destruct (dict_get rest "app") as [a|];
        [destruct (lookup_display_name host a)|]; split; discriminate.
    + rewrite IH. unfold data_by_key, app_by_key, date_by_key, req_part_by_key.
      rewrite (dict_get_absent _ _ Hk).
      destruct (dict_get rest "app") as [a|];
        [destruct (lookup_display_name host a)|]; reflexivity.
  - cbn [dict_get String.eqb Ascii.eqb Bool.eqb].
    destruct v as [s|z|x|b|d|iso|n|sub|arr];
      try (destruct (dict_get rest "app") as [a|];
           [destruct (lookup_display_name host a)|];
           (destruct (dict_get rest "date") as [d0|];
            [destruct (to_float host d0)|]);
           split; discriminate).
    rewrite req_items_by_key
      by (apply Hsub; cbn [dict_get String.eqb Ascii.eqb Bool.eqb];
          reflexivity).
    rewrite IH. unfold data_by_key, app_by_key, date_by_key, req_part_by_key.
    rewrite (dict_get_absent _ _ Hk).
    destruct (dict_get rest "app") as [a|];
      [destruct (lookup_display_name host a)|];
      (destruct (dict_get rest "date") as [d0|];
       [destruct (to_float host d0)|]);
      rewrite ?req_by_key_set_date, ?req_by_key_set_app;
      try reflexivity; split; discriminate.
  - rewrite IH. unfold data_by_key, app_by_key, date_by_key, req_part_by_key.
    rewrite !dict_get_other by assumption. reflexivity.
Qed.

(** [parse_notification] on a payload that decodes to a dictionary. *)
Lemma parse_notification_cases (raw : list Byte.byte)
    (items : list (string * value F)) :
  loads host raw = inr (PDict items) ->
  distinct_keys items ->
  forall this,
    parse_notification host raw = inr this <->
    exists this0,
      data_by_key host items (init F) = inr this0 /\
      merge this0 = inr this.
Proof.
  intros L [Hnd Hsub] this. unfold parse_notification. rewrite L.
  pose proof (@data_items_by_key items Hnd Hsub (init F)) as H.
  destruct (data_items host items (init F)) as [e|this0].
  - split; [discriminate|]. intros (this1 & E & _).
    apply H in E. discriminate.
  - split.
    + intros M. exists this0. split; [now apply H | exact M].
    + intros (this1 & E & M). apply H in E. injection E as ->. exact M.
Qed.

(** What [data_by_key] leaves in the three fields of ["req"]. *)
Lemma data_by_key_fields (items : list (string * value F)) (this0 : t F) :
  data_by_key host items (init F) = inr this0 ->
  match dict_get items "req" with
  | Some (PDict sub) =>
      title this0 = payload_field host sub "titl" /\
      subtitle this0 = payload_field host sub "subt" /\
      body this0 = payload_field host sub "body"
  | Some _ => False
  | None =>
      title this0 = PString "" /\ subtitle this0 = PString "" /\
      body this0 = PString ""
  end.
Proof.
  unfold data_by_key, app_by_key, date_by_key, req_part_by_key, payload_field.
  destruct (dict_get items "app") as [a|];
    [destruct (lookup_display_name host a); [discriminate|]|];
    (destruct (dict_get items "date") as [d0|];
     [destruct (to_float host d0); [discriminate|]|]);
    (destruct (dict_get items "req")
       as [[s1|z1|x1|b1|d1|iso1|n1|sub|arr1]|];
     try discriminate);
    intros E; injection E as <-; unfold req_by_key;
    try (destruct (dict_get sub "titl"), (dict_get sub "subt"),
                  (dict_get sub "body"));
    repeat split.
Qed.

Lemma merge_text (this0 this : t F) :
  merge this0 = inr this ->
  title this = title this0 /\
  exists s b,
    subtitle this0 = PString s /\ body this0 = PString b /\
    subtitle this = PString s /\ body this = PString b /\
    text this = (if String.eqb s "" then b else s ++ em_dash ++ b)%string.
Proof.
  unfold merge.
  destruct (subtitle this0) as [s| | | | | | | |] eqn:Es; try discriminate.
  destruct (body this0) as [b| | | | | | | |] eqn:Eb; try discriminate.
  intros E. injection E as <-. split; [reflexivity|].
  exists s, b. simpl. rewrite Es, Eb. repeat split.
  destruct (String.eqb_spec s "") as [->|_]; reflexivity.
Qed.

End PayloadFacts.

(** The notification decoded from a payload depends only on what the
    payload holds under the keys ["app"], ["date"] and ["req"], and under
    ["titl"], ["subt"] and ["body"] inside ["req"]: not on the order of the
    keys, and not on any other key.  [parse_notification] returns an instance
    exactly when reading those keys one by one gives it. *)
Theorem parse_notification_by_key (F : Type) (host : Payload.Host F)
    (raw : list Byte.byte) (items : list (string * plistlib.value F)) :
  Payload.loads host raw = inr (plistlib.PDict items) ->
  Payload.distinct_keys items ->
  forall this,
    Payload.parse_notification host raw = inr this <->
    exists this0,
      Payload.data_by_key host items (Payload.init F) = inr this0 /\
      Payload.merge this0 = inr this.
Proof. apply parse_notification_cases. Qed.

(** With a ["req"] dictionary in the payload, a decoded notification has
    as title, subtitle and body what ["titl"], ["subt"] and ["body"] hold (the
    empty string for a missing key or a false value); subtitle and body are
    strings, and the text is the body alone when the subtitle is empty, and
    otherwise the subtitle, the dash U+2014 and the body. *)
Theorem parse_notification_merges_text (F : Type) (host : Payload.Host F)
    (raw : list Byte.byte) (items sub : list (string * plistlib.value F))
    (this : Payload.t F) :
  Payload.loads host raw = inr (plistlib.PDict items) ->
  Payload.distinct_keys items ->
  dict_get items "req" = Some (plistlib.PDict sub) ->
  Payload.parse_notification host raw = inr this ->
  Payload.title this = payload_field host sub "titl" /\
  Payload.subtitle this = payload_field host sub "subt" /\
  Payload.body this = payload_field host sub "body" /\
  exists s b,
    Payload.subtitle this = plistlib.PString s /\
    Payload.body this = plistlib.PString b /\
    Payload.text this =
    (if String.eqb s "" then b else s ++ Payload.em_dash ++ b)%string.
Proof.
  intros L Hd R P.
  apply (@parse_notification_cases F host raw items L Hd) in P.
  destruct P as (this0 & D & M).
  pose proof (@data_by_key_fields F host items this0 D) as Hf.
  rewrite R in Hf.
  destruct Hf as (Ht & Hs & Hb).
  destruct (@merge_text F this0 this M)
    as (Et & s & b & Es0 & Eb0 & Es & Eb & Etext).
  rewrite Et, Es, Eb. rewrite <- Ht, <- Hs, <- Hb, Es0, Eb0.
  repeat split; auto. exists s, b. auto.
Qed.

Lemma parse_notification_merges_text_witness :
  exists this s b,
    Payload.parse_notification Payload.sample_host [] = inr this /\
    Payload.title this = plistlib.PString "hello" /\
    Payload.subtitle this = plistlib.PString s /\
    Payload.body this = plistlib.PString b /\
    Payload.text this =
    (if String.eqb s "" then b else s ++ Payload.em_dash ++ b)%string /\
    Payload.text this = ("from me" ++ Payload.em_dash ++ "world")%string.
Proof.
  pose (sub := [("body"%string, @plistlib.PString Z "world");
                ("titl"%string, plistlib.PString "hello");
                ("subt"%string, plistlib.PString "from me")]).
  pose (items := [("date"%string, plistlib.PReal 700%Z);
                  ("req"%string, plistlib.PDict sub);
                  ("intl"%string, plistlib.PBool true);
                  ("app"%string, plistlib.PString "com.apple.Messages")]).
  assert (Hd : Payload.distinct_keys items).
  { split.
    - simpl. repeat (constructor; [simpl; intuition discriminate|]).
      constructor.
    - intros sub' E. vm_compute in E. injection E as <-.
      simpl. repeat (constructor; [simpl; intuition discriminate|]).
      constructor. }
  destruct (Payload.parse_notification Payload.sample_host []) as [e|this]
    eqn:P; [discriminate|].
  destruct (@parse_notification_merges_text Z Payload.sample_host []
              items sub this eq_refl Hd eq_refl P)
    as (Ht & _ & _ & s & b & Es & Eb & Etext).
  exists this, s, b. split; [reflexivity|]. split; [exact Ht|].
  split; [exact Es|]. split; [exact Eb|]. split; [exact Etext|].
  vm_compute in P. injection P as <-. reflexivity.
Defined.

Lemma parse_notification_by_key_witness :
  let sub := [ ("body"%string, @plistlib.PString Z "world");
               ("titl"%string, plistlib.PString "hello");
               ("subt"%string, plistlib.PString "from me") ] in
  let items := [ ("date"%string, plistlib.PReal 700%Z);
                 ("req"%string, plistlib.PDict sub);
                 ("intl"%string, plistlib.PBool true);
                 ("app"%string, plistlib.PString "com.apple.Messages") ] in
  let this :=
    {| Payload.identifier := plistlib.PString "com.apple.Messages";
       Payload.app := "Messages";
       Payload.title := plistlib.PString "hello";
       Payload.subtitle := plistlib.PString "from me";
       Payload.body := plistlib.PString "world";
       Payload.text := ("from me" ++ Payload.em_dash ++ "world")%string;
       Payload.ago := Some 300%Z;
       Payload.date := Some 700%Z;
       Payload.xml := "" |} in
  Payload.parse_notification Payload.sample_host [] = inr this /\
  (Payload.parse_notification Payload.sample_host [] = inr this <->
   exists this0,
     Payload.data_by_key Payload.sample_host items (Payload.init Z)
     = inr this0 /\
     Payload.merge this0 = inr this).
Proof.
  cbv zeta. split; [reflexivity|].
  apply (@parse_notification_by_key Z Payload.sample_host []
           [ ("date"%string, plistlib.PReal 700%Z);
             ("req"%string,
              plistlib.PDict
                [ ("body"%string, plistlib.PString "world");
                  ("titl"%string, plistlib.PString "hello");
                  ("subt"%string, plistlib.PString "from me") ]);
             ("intl"%string, plistlib.PBool true);
             ("app"%string, plistlib.PString "com.apple.Messages") ]).
  - reflexivity.
  - split.
    + simpl. repeat (constructor; [simpl; intuition discriminate|]).
      constructor.
    + intros sub E. vm_compute in E. injection E as <-.
      simpl. repeat (constructor; [simpl; intuition discriminate|]).
      constructor.
Defined.

(** A payload without a ["req"] entry is not turned down: when it decodes,
    the notification has an empty title, subtitle, body and text. *)
Theorem parse_notification_without_req (F : Type) (host : Payload.Host F)
    (raw : list Byte.byte) (items : list (string * plistlib.value F))
    (this : Payload.t F) :
  Payload.loads host raw = inr (plistlib.PDict items) ->
  NoDup (map fst items) ->
  dict_get items "req" = None ->
  Payload.parse_notification host raw = inr this ->
  Payload.title this = plistlib.PString "" /\
  Payload.subtitle this = plistlib.PString "" /\
  Payload.body this = plistlib.PString "" /\
  Payload.text this = ""%string.
Proof.
  intros L Hnd R P.
  assert (Hd : Payload.distinct_keys items).
  { split; [exact Hnd|]. intros sub E. congruence. }
  apply (@parse_notification_cases F host raw items L Hd) in P.
  destruct P as (this0 & D & M).
  pose proof (@data_by_key_fields F host items this0 D) as Hf.
  rewrite R in Hf. destruct Hf as (Ht & Hs & Hb).
  destruct (@merge_text F this0 this M)
    as (Et & s & b & Es0 & Eb0 & Es & Eb & Etext).
  rewrite Hs in Es0. injection Es0 as <-.
  rewrite Hb in Eb0. injection Eb0 as <-.
  rewrite Et, Es, Eb, Etext, Ht. repeat split.
Qed.

Lemma parse_notification_without_req_witness :
  exists this,
    Payload.parse_notification Payload.bare_host [] = inr this /\
    Payload.app this = "Messages"%string /\
    Payload.title this = plistlib.PString "" /\
    Payload.subtitle this = plistlib.PString "" /\
    Payload.body this = plistlib.PString "" /\
    Payload.text this = ""%string.
Proof.
  destruct (Payload.parse_notification Payload.bare_host []) as [e|this]
    eqn:P; [discriminate|].
  exists this. split; [reflexivity|]. split.
  - vm_compute in P. injection P as <-. reflexivity.
  - apply (@parse_notification_without_req Z Payload.bare_host []
             [("app"%string, plistlib.PString "com.apple.Messages")] this).
    + reflexivity.
    + simpl. repeat (constructor; [simpl; intuition discriminate|]).
      constructor.
    + reflexivity.
    + exact P.
Defined.

(** A payload is never decoded when its ["req"] entry is not a dictionary,
    or when ["subt"] or ["body"] inside it holds a true value that is not a
    string (a number, a list, ...): [parse_notification] raises, and under
    [check] the exception ends the poll. *)
Theorem parse_notification_raises_on_ill_typed (F : Type)
    (host : Payload.Host F) (raw : list Byte.byte)
    (items : list (string * plistlib.value F)) :
  Payload.loads host raw = inr (plistlib.PDict items) ->
  Payload.distinct_keys items ->
  (exists v, dict_get items "req" = Some v /\
             forall sub, v <> plistlib.PDict sub) \/
  (exists sub key v,
     dict_get items "req" = Some (plistlib.PDict sub) /\
     (key = "subt"%string \/ key = "body"%string) /\
     dict_get sub key = Some v /\
     Payload.truthy host v = true /\
     forall s, v <> plistlib.PString s) ->
  exists e, Payload.parse_notification host raw = inl e.
Proof.
  intros L Hd Hbad.
  destruct (Payload.parse_notification host raw) as [e|this] eqn:P;
    [now exists e|].
  exfalso.
  apply (@parse_notification_cases F host raw items L Hd) in P.
  destruct P as (this0 & D & M).
  pose proof (@data_by_key_fields F host items this0 D) as Hf.
  destruct (@merge_text F this0 this M)
    as (_ & s & b & Es0 & Eb0 & _).
  destruct Hbad as [(v & R & Hv)|(sub & key & v & R & Hkey & Ek & Tv & Hv)];
    rewrite R in Hf.
  - destruct v; try contradiction. eapply Hv; reflexivity.
  - destruct Hf as (_ & Hs & Hb).
    unfold payload_field in Hs, Hb.
    destruct Hkey as [-> | ->]; rewrite Ek in *.
    + unfold Payload.or_empty in Hs. rewrite Tv in Hs.
      rewrite Hs in Es0. exact (Hv s Es0).
    + unfold Payload.or_empty in Hb. rewrite Tv in Hb.
      rewrite Hb in Eb0. exact (Hv b Eb0).
Qed.

Lemma parse_notification_raises_on_ill_typed_witness :
  exists e, Payload.parse_notification Payload.numeric_body_host [] = inl e.
Proof.
  apply (@parse_notification_raises_on_ill_typed Z Payload.numeric_body_host
           [] [("req"%string,
                plistlib.PDict [("body"%string, plistlib.PInteger 5)])]).
  - reflexivity.
  - split.
    + simpl. repeat (constructor; [simpl; intuition discriminate|]).
      constructor.
    + intros sub E. vm_compute in E. injection E as <-.
      simpl. repeat (constructor; [simpl; intuition discriminate|]).
      constructor.
  - right. exists [("body"%string, plistlib.PInteger 5)], "body"%string,
                  (plistlib.PInteger 5).
    split; [reflexivity|]. split; [now right|]. split; [reflexivity|].
    split; [reflexivity|]. discriminate.
Defined.

(* ================================================================== *)
(** * Where the backward scan stops *)



(** On a table that is not empty and on which every row passes the loop
    test (no row carries the cursor's id, none is dated before the cursor),
    the poll never returns, whatever the fuel: from the last row on, the query
    keeps answering with it. *)
Theorem check_never_returns_when_all_rows_pass (env : Notification.Env)
    (fuel : nat) (store : Store.t) (st : Notification.State) (lid ld : Z) :
  store <> [] ->
  cursor st = (Some lid, Some (Some ld)) ->
  (forall r, In r store ->
     rec_id r <> lid /\
     exists d, Notification.effective_date r = Some d /\ (ld <= d)%Z) ->
  snd (Notification.check env fuel store st) <> Returned tt.
Proof.
  intros Hne Hcur Hall. apply check_never_returns_past_cursor; [exact Hne|].
  intros r Hr. rewrite Hcur. apply test_value_true.
  destruct (Hall r Hr) as (Hid & d & Ed & Hle).
  exists lid, ld, d. auto.
Qed.

Lemma check_never_returns_when_all_rows_pass_witness :
  snd (Notification.check Scenario.env 100
         [Scenario.row 4 40; Scenario.row 5 50] Scenario.baseline_3)
  <> Returned tt.
Proof.
  apply (@check_never_returns_when_all_rows_pass Scenario.env 100
           [Scenario.row 4 40; Scenario.row 5 50] Scenario.baseline_3 3 30).
  - discriminate.
  - reflexivity.
  - intros r Hr. simpl in Hr.
    repeat (destruct Hr as [<-|Hr];
            [split; [discriminate|]; eexists; split; [reflexivity|lia]|]).
    destruct Hr.
Defined.
